(** * Slot generation and availability of the hospital scheduler

    A shallow embedding of the appointment-slot subsystem of [app.py]:
    the slot generator [generate_time_slots], the availability resolver
    [get_doctor_slots], and the handlers that write the schedule templates
    and the booking ledger ([set_doctor_slots], [schedule_appointment],
    [delete_appointment], [update_appointment_status]).

    Modelling conventions.
    - Python [int] is [Z]; Python [str] is [string], taken as ASCII text.
    - A [datetime] produced by [strptime(_, '%H:%M')] lies on 1900-01-01;
      it is represented by its number of minutes since 1900-01-01 00:00,
      and [timedelta(minutes=k)] by [k].  Seconds are always zero.  A sum
      that leaves the range of [datetime] (years 1..9999) raises
      [OverflowError].
    - An id that a handler takes from the URL is any integer; binding one
      outside SQLite's 64-bit range raises [OverflowError], which
      [get_doctor_slots], [delete_appointment] and
      [update_appointment_status] catch.  [set_doctor_slots] and
      [prescriptions] look their id up first: the model has the lookup find
      nothing for such an id, where the code fails on it; either way the
      tables stay as they are.  The ids kept in the session were read from
      the tables.
    - Exceptions are results: [Raise e] for a raised exception.
    - The [while] loop takes fuel; [None] means the fuel ran out. *)

From Stdlib Require Import ZArith List String Ascii Bool Lia Arith Sorted.
From Stdlib Require Import DecimalString.
Import ListNotations.

Local Open Scope string_scope.
Local Open Scope Z_scope.

(** ** Exceptions as results *)

Inductive exn : Type :=
| ValueError
| IntegrityError
| OverflowError.

Inductive result (A : Type) : Type :=
| Return (a : A)
| Raise (e : exn).

Arguments Return {A} a.
Arguments Raise {A} e.

Definition bind {A B : Type} (r : result A) (k : A -> result B) : result B :=
  match r with
  | Return a => k a
  | Raise e => Raise e
  end.

Notation "x <- r ;; k" := (bind r (fun x => k))
  (at level 61, r at next level, right associativity).

(** ** Characters and digits *)

Definition digit_value (c : ascii) : option Z :=
  let n := Z.of_N (N_of_ascii c) in
  if (48 <=? n) && (n <=? 57) then Some (n - 48) else None.

Definition digit_char (d : Z) : ascii := ascii_of_N (Z.to_N (48 + d)).

Definition two_digits (n : Z) : string :=
  String (digit_char (n / 10)) (String (digit_char (n mod 10)) EmptyString).

Definition colon : ascii := ":"%char.

(** ** [datetime.strptime(s, '%H:%M')]

    The format compiles to the regular expression
    [(?P<H>2[0-3]|[0-1]\d|\d):(?P<M>[0-5]\d|\d)], matched at the start of the
    text; text left over after the match is a [ValueError].  The result is
    [None] exactly when Python raises [ValueError]. *)

Definition strptime_minute (cs : list ascii) : option Z :=
  match cs with
  | [m1] => digit_value m1
  | [m1; m2] =>
      match digit_value m1, digit_value m2 with
      | Some a, Some b => if a <=? 5 then Some (10 * a + b) else None
      | _, _ => None
      end
  | _ => None
  end.

Definition strptime_HM (s : string) : option Z :=
  match list_ascii_of_string s with
  | h1 :: h2 :: rest =>
      if Ascii.eqb h2 colon then
        match digit_value h1, strptime_minute rest with
        | Some h, Some m => Some (60 * h + m)
        | _, _ => None
        end
      else
        match rest with
        | c :: rest' =>
            if Ascii.eqb c colon then
              match digit_value h1, digit_value h2, strptime_minute rest' with
              | Some a, Some b, Some m =>
                  if 10 * a + b <=? 23 then Some (60 * (10 * a + b) + m) else None
              | _, _, _ => None
              end
            else None
        | [] => None
        end
  | _ => None
  end.

(** ** [strftime]

    [t] is a minute count; only its time of day is printed. *)

Definition hour_of (t : Z) : Z := (t mod 1440) / 60.
Definition minute_of (t : Z) : Z := t mod 60.

(** [t.strftime('%H:%M')] *)
Definition strftime_HM (t : Z) : string :=
  two_digits (hour_of t) ++ ":" ++ two_digits (minute_of t).

(** [t.strftime('%I:%M %p').lower()] *)
Definition strftime_IMp_lower (t : Z) : string :=
  let h12 := if hour_of t mod 12 =? 0 then 12 else hour_of t mod 12 in
  two_digits h12 ++ ":" ++ two_digits (minute_of t) ++ " "
    ++ (if hour_of t <? 12 then "am" else "pm").

(** ** The calendar and the range of [datetime] *)

(** [_is_leap], [_days_in_month], [_days_before_year], [_days_before_month]
    and [_ymd2ord] of the [datetime] module. *)
Definition is_leap (year : Z) : bool :=
  (year mod 4 =? 0) && (negb (year mod 100 =? 0) || (year mod 400 =? 0)).

Definition DAYS_IN_MONTH : list Z :=
  [31; 28; 31; 30; 31; 30; 31; 31; 30; 31; 30; 31].

Definition days_in_month (year month : Z) : Z :=
  if (month =? 2) && is_leap year then 29
  else nth (Z.to_nat (month - 1)) DAYS_IN_MONTH 0.

Definition days_before_year (year : Z) : Z :=
  let y := year - 1 in
  y * 365 + y / 4 - y / 100 + y / 400.

Definition days_before_month (year month : Z) : Z :=
  fold_right Z.add 0 (firstn (Z.to_nat (month - 1)) DAYS_IN_MONTH)
  + (if (2 <? month) && is_leap year then 1 else 0).

Definition ymd2ord (year month day : Z) : Z :=
  days_before_year year + days_before_month year month + day.

(** [MINYEAR] and [MAXYEAR] *)
Definition MINYEAR : Z := 1.
Definition MAXYEAR : Z := 9999.

(** [datetime.min] and the last whole minute before [datetime.max], in
    minutes since 1900-01-01 00:00. *)
Definition datetime_min : Z :=
  (ymd2ord MINYEAR 1 1 - ymd2ord 1900 1 1) * 1440.

Definition datetime_max : Z :=
  (ymd2ord MAXYEAR 12 31 - ymd2ord 1900 1 1) * 1440 + 1439.

Definition in_datetime_range (t : Z) : bool :=
  (datetime_min <=? t) && (t <=? datetime_max).

(** [t + timedelta(minutes=k)]: [OverflowError] when the delta or the sum is
    out of range. *)
Definition datetime_add (t k : Z) : result Z :=
  if in_datetime_range (t + k) then Return (t + k) else Raise OverflowError.

(** ** The slot generator *)

Record slot : Type := {
  start : string;
  end_ : string;
  display_start : string;
  display_end : string
}.

(** The dictionary appended for the candidate [current_time, slot_end). *)
Definition make_slot (current_time slot_end : Z) : slot :=
  {| start := strftime_HM current_time;
     end_ := strftime_HM slot_end;
     display_start := strftime_IMp_lower current_time;
     display_end := strftime_IMp_lower slot_end |}.

(** Truth value of an optional string: [None] and [''] are false. *)
Definition truthy (s : option string) : bool :=
  match s with
  | Some s => negb (String.eqb s "")
  | None => false
  end.

(** [if break_start and break_end:] followed by the two [strptime] calls.
    [Return None] when no break window is configured. *)
Definition break_window (break_start break_end : option string)
  : result (option (Z * Z)) :=
  match break_start, break_end with
  | Some bs, Some be =>
      if truthy break_start && truthy break_end then
        match strptime_HM bs with
        | None => Raise ValueError
        | Some break_start_time =>
            match strptime_HM be with
            | None => Raise ValueError
            | Some break_end_time =>
                Return (Some (break_start_time, break_end_time))
            end
        end
      else Return None
  | _, _ => Return None
  end.

(** The state of the loop: the cursor [current_time] and the list [slots]. *)
Definition loop_state : Type := (Z * list slot)%type.

(** One pass through the body of [while current_time < end_time]. *)
Definition iteration (end_time : Z) (break_start break_end : option string)
  (interval : Z) (st : loop_state) : result loop_state :=
  let '(current_time, slots) := st in
  slot_end <- datetime_add current_time interval ;;
  w <- break_window break_start break_end ;;
  match w with
  | Some (break_start_time, break_end_time) =>
      if (break_start_time <=? current_time) && (slot_end <=? break_end_time)
      then Return (break_end_time, slots)
      else if slot_end <=? end_time
      then Return (slot_end, (slots ++ [make_slot current_time slot_end])%list)
      else Return (slot_end, slots)
  | None =>
      if slot_end <=? end_time
      then Return (slot_end, (slots ++ [make_slot current_time slot_end])%list)
      else Return (slot_end, slots)
  end.

Fixpoint while_loop (fuel : nat) (end_time : Z)
  (break_start break_end : option string) (interval : Z) (st : loop_state)
  : option (result loop_state) :=
  match fuel with
  | O => None
  | S fuel' =>
      if fst st <? end_time then
        match iteration end_time break_start break_end interval st with
        | Raise e => Some (Raise e)
        | Return st' =>
            while_loop fuel' end_time break_start break_end interval st'
        end
      else Some (Return st)
  end.

Definition generate_time_slots (fuel : nat) (start_time end_time : string)
  (break_start break_end : option string) (interval : Z)
  : option (result (list slot)) :=
  match strptime_HM start_time with
  | None => Some (Raise ValueError)
  | Some current_time =>
      match strptime_HM end_time with
      | None => Some (Raise ValueError)
      | Some end_time' =>
          match while_loop fuel end_time' break_start break_end interval
                  (current_time, []) with
          | None => None
          | Some (Raise e) => Some (Raise e)
          | Some (Return st) => Some (Return (snd st))
          end
      end
  end.

(** ** [datetime.strptime(s, '%Y-%m-%d')] and [strftime('%A')]

    The format compiles to
    [(?P<Y>\d\d\d\d)-(?P<m>1[0-2]|0[1-9]|[1-9])-(?P<d>3[0-1]|[1-2]\d|0[1-9]|[1-9]| [1-9])];
    the matched fields must then form a date of the proleptic Gregorian
    calendar with a year of at least [MINYEAR]. *)

Definition dash : ascii := "-"%char.
Definition space : ascii := " "%char.

Definition strptime_day (cs : list ascii) : option Z :=
  match cs with
  | [d1] =>
      match digit_value d1 with
      | Some a => if 1 <=? a then Some a else None
      | None => None
      end
  | [d1; d2] =>
      if Ascii.eqb d1 space then
        match digit_value d2 with
        | Some b => if 1 <=? b then Some b else None
        | None => None
        end
      else
        match digit_value d1, digit_value d2 with
        | Some a, Some b =>
            if (1 <=? 10 * a + b) && (10 * a + b <=? 31)
            then Some (10 * a + b) else None
        | _, _ => None
        end
  | _ => None
  end.

Definition strptime_month_day (cs : list ascii) : option (Z * Z) :=
  match cs with
  | m1 :: m2 :: rest =>
      if Ascii.eqb m2 dash then
        match digit_value m1, strptime_day rest with
        | Some a, Some d => if 1 <=? a then Some (a, d) else None
        | _, _ => None
        end
      else
        match rest with
        | c :: rest' =>
            if Ascii.eqb c dash then
              match digit_value m1, digit_value m2, strptime_day rest' with
              | Some a, Some b, Some d =>
                  if (1 <=? 10 * a + b) && (10 * a + b <=? 12)
                  then Some (10 * a + b, d) else None
              | _, _, _ => None
              end
            else None
        | [] => None
        end
  | _ => None
  end.

Record date : Type := { year : Z; month : Z; day_of_month : Z }.

Definition strptime_Ymd (s : string) : option date :=
  match list_ascii_of_string s with
  | y1 :: y2 :: y3 :: y4 :: c :: rest =>
      if Ascii.eqb c dash then
        match digit_value y1, digit_value y2, digit_value y3, digit_value y4,
              strptime_month_day rest with
        | Some a, Some b, Some c', Some d, Some (m, dd) =>
            let y := 1000 * a + 100 * b + 10 * c' + d in
            if (1 <=? y) && (dd <=? days_in_month y m)
            then Some {| year := y; month := m; day_of_month := dd |}
            else None
        | _, _, _, _, _ => None
        end
      else None
  | _ => None
  end.

(** [date.weekday()]: Monday is 0. *)
Definition weekday (d : date) : Z :=
  (ymd2ord (year d) (month d) (day_of_month d) + 6) mod 7.

(** [strftime('%A')] in the C locale. *)
Definition strftime_A (d : date) : string :=
  nth (Z.to_nat (weekday d))
    ["Monday"; "Tuesday"; "Wednesday"; "Thursday"; "Friday"; "Saturday";
     "Sunday"] "".

(** ** [str.strip()] and form access *)

Definition is_space (c : ascii) : bool :=
  let n := Z.of_N (N_of_ascii c) in
  ((9 <=? n) && (n <=? 13)) || ((28 <=? n) && (n <=? 32)).

Fixpoint lstrip (cs : list ascii) : list ascii :=
  match cs with
  | c :: rest => if is_space c then lstrip rest else cs
  | [] => []
  end.

Definition strip (s : string) : string :=
  string_of_list_ascii
    (rev (lstrip (rev (lstrip (list_ascii_of_string s))))).

(** [request.form] as the list of submitted (name, value) pairs;
    [request.form.get(key, '')] is the first value under [key]. *)
Definition form_data : Type := list (string * string).

Definition form_get (form : form_data) (key : string) : string :=
  match find (fun kv => String.eqb (fst kv) key) form with
  | Some kv => snd kv
  | None => ""
  end.

Record request : Type := {
  method : string;
  form : form_data
}.

(** The keys of the signed session cookie that the handlers read;
    [None] is a session without ['user_id']. *)
Record user_session : Type := {
  user_id : Z;
  user_type : string;
  session_hospital_id : Z
}.

Definition session : Type := option user_session.

Definition logged_in_as (role : string) (s : session) : option user_session :=
  match s with
  | Some u => if String.eqb (user_type u) role then Some u else None
  | None => None
  end.

(** ** The database

    Tables are lists of rows in rowid order.  Only the columns that the
    modelled handlers read or write are kept; [staff] and [patients] are
    reduced to their primary keys.  No handler deletes from [staff],
    [doctors] or [patients].  The cascade from [appointments] onto
    [prescriptions] is outside the modelled state. *)

Record doctor : Type := {
  doctor_key : Z;
  doctor_hospital_id : Z
}.

Record appointment : Type := {
  id : Z;
  patient_id : Z;
  doctor_id : Z;
  date_ : string;
  time_slot : string;
  status : string;
  notes : string;
  hospital_id : Z
}.

Record doctor_slot : Type := {
  slot_id : Z;
  slot_doctor_id : Z;
  day : string;
  start_time : string;
  end_time : string;
  break_start : option string;
  break_end : option string;
  slot_hospital_id : Z
}.

(** [appointments_seq] and [doctor_slots_seq] are the AUTOINCREMENT
    counters: the largest rowid ever used in the table. *)
Record database : Type := {
  staff : list Z;
  doctors : list doctor;
  patients : list Z;
  appointments : list appointment;
  appointments_seq : Z;
  doctor_slots : list doctor_slot;
  doctor_slots_seq : Z
}.

Definition mem (x : Z) (l : list Z) : bool := existsb (Z.eqb x) l.

(** ** Responses *)

Inductive json : Type :=
| JError (error : string)
| JSlots (slots : list slot) (booked_slots : list string).

Inductive response : Type :=
| Jsonify (body : json) (status_code : Z)
| Redirect (endpoint : string)
| RenderTemplate (template : string).

(** A [flash(message, category)] call. *)
Definition flash : Type := (string * string)%type.

(** What a handler leaves behind: the committed database, the flashed
    messages in order, and the response. *)
Record outcome : Type := {
  db_after : database;
  flashed : list flash;
  reply : response
}.

Definition all_truthy (fields : list string) : bool :=
  forallb (fun f => negb (String.eqb f "")) fields.

(** ** Queries *)

(** [WHERE doctor_id = ? AND day = ? AND hospital_id = ?] on [doctor_slots] *)
Definition template_matches (doctor_id' : Z) (day' : string) (hospital : Z)
  (r : doctor_slot) : bool :=
  (slot_doctor_id r =? doctor_id') && String.eqb (day r) day'
  && (slot_hospital_id r =? hospital).

(** [WHERE doctor_id = ? AND date = ? AND status != 'Cancelled'
    AND hospital_id = ?] on [appointments] *)
Definition booked_matches (doctor_id' : Z) (date' : string) (hospital : Z)
  (a : appointment) : bool :=
  (doctor_id a =? doctor_id') && String.eqb (date_ a) date'
  && negb (String.eqb (status a) "Cancelled")
  && (hospital_id a =? hospital).

(** An integer that the [sqlite3] module can bind to a statement: one that
    fits SQLite's 64-bit INTEGER.  Any other raises [OverflowError]. *)
Definition sqlite_integer (n : Z) : bool :=
  (- 2 ^ 63 <=? n) && (n <? 2 ^ 63).

(** The interval of [generate_time_slots] when the caller passes none. *)
Definition default_interval : Z := 15.

(** Fuel for the generator run of [get_doctor_slots]: the times of a
    template lie within one day. *)
Definition day_fuel : nat := 1440.

Section Handlers.

(** The integer that SQLite stores when the text [s] is bound to a column
    of INTEGER affinity; [None] when the value stays TEXT or REAL.  SQLite
    is not part of the repository. *)
Variable integer_affinity : string -> option Z.

(** *** [get_doctor_slots]: the availability resolver *)

Definition get_doctor_slots (db : database) (s : session) (doctor_id' : Z)
  (date' : string) : option response :=
  match logged_in_as "admin" s with
  | None => Some (Jsonify (JError "Unauthorized") 401)
  | Some u =>
      match strptime_Ymd date' with
      | None => Some (Jsonify (JError "Invalid date format") 400)
      | Some date_obj =>
          let day' := strftime_A date_obj in
          if negb (sqlite_integer doctor_id')
          then Some (Jsonify (JError "Server error") 500)
          else
          match find (template_matches doctor_id' day' (session_hospital_id u))
                  (doctor_slots db) with
          | None => Some (Jsonify (JError "Doctor not available on this day") 200)
          | Some slot_info =>
              match generate_time_slots day_fuel (start_time slot_info)
                      (end_time slot_info) (break_start slot_info)
                      (break_end slot_info) default_interval with
              | None => None
              | Some (Raise _) => Some (Jsonify (JError "Server error") 500)
              | Some (Return slots) =>
                  let booked_slots :=
                    map time_slot
                      (filter (booked_matches doctor_id' date'
                                 (session_hospital_id u))
                         (appointments db)) in
                  Some (Jsonify (JSlots slots booked_slots) 200)
              end
          end
      end
  end.

(** *** [set_doctor_slots]: the schedule template store *)

Definition none_if_empty (s : string) : option string :=
  if String.eqb s "" then None else Some s.

(** [DELETE ... ; INSERT ...] of [set_doctor_slots] in one transaction.
    The insert checks the foreign keys of the new row. *)
Definition replace_template (db : database) (doctor_id' : Z)
  (day' start_time' end_time' : string) (break_start' break_end' : option string)
  (hospital : Z) : result database :=
  let kept :=
    filter (fun r => negb (template_matches doctor_id' day' hospital r))
      (doctor_slots db) in
  if existsb (fun d => doctor_key d =? doctor_id') (doctors db)
     && mem hospital (staff db)
  then
    let new_id := doctor_slots_seq db + 1 in
    Return
      {| staff := staff db;
         doctors := doctors db;
         patients := patients db;
         appointments := appointments db;
         appointments_seq := appointments_seq db;
         doctor_slots :=
           (kept ++ [{| slot_id := new_id;
                        slot_doctor_id := doctor_id';
                        day := day';
                        start_time := start_time';
                        end_time := end_time';
                        break_start := break_start';
                        break_end := break_end';
                        slot_hospital_id := hospital |}])%list;
         doctor_slots_seq := new_id |}
  else Raise IntegrityError.

Definition set_doctor_slots (db : database) (s : session) (req : request)
  (doctor_id' : Z) : outcome :=
  match logged_in_as "admin" s with
  | None => {| db_after := db; flashed := []; reply := Redirect "login" |}
  | Some u =>
      let hospital := session_hospital_id u in
      if negb (existsb (fun d => (doctor_key d =? doctor_id')
                                 && (doctor_hospital_id d =? hospital))
                 (doctors db))
      then {| db_after := db;
              flashed := [("Doctor not found", "danger")];
              reply := Redirect "view_doctors" |}
      else if String.eqb (method req) "POST" then
        let day' := strip (form_get (form req) "day") in
        let start_time' := strip (form_get (form req) "start_time") in
        let end_time' := strip (form_get (form req) "end_time") in
        let break_start' :=
          none_if_empty (strip (form_get (form req) "break_start")) in
        let break_end' :=
          none_if_empty (strip (form_get (form req) "break_end")) in
        if negb (all_truthy [day'; start_time'; end_time'])
        then {| db_after := db;
                flashed := [("Required fields are missing", "danger")];
                reply := Redirect "set_doctor_slots" |}
        else
          match replace_template db doctor_id' day' start_time' end_time'
                  break_start' break_end' hospital with
          | Return db' =>
              {| db_after := db';
                 flashed :=
                   [("Doctor availability slots updated successfully!",
                     "success")];
                 reply := Redirect "view_doctors" |}
          | Raise _ =>
              (* the transaction is abandoned; the listing that follows
                 runs on the closed connection and fails as well *)
              {| db_after := db;
                 flashed := [("Error updating slots", "danger");
                             ("Error loading doctor data", "danger")];
                 reply := RenderTemplate "admin/set_doctor_slots.html" |}
          end
      else {| db_after := db; flashed := [];
              reply := RenderTemplate "admin/set_doctor_slots.html" |}
  end.

(** *** [schedule_appointment]: the write path of the booking ledger *)

(** The [INSERT INTO appointments] with its foreign-key checks; [status]
    takes the column default. *)
Definition insert_appointment (db : database)
  (patient_id' doctor_id' date' time_slot' notes' : string) (hospital : Z)
  : result database :=
  match integer_affinity patient_id', integer_affinity doctor_id' with
  | Some p, Some d =>
      if mem p (patients db)
         && existsb (fun r => doctor_key r =? d) (doctors db)
         && mem hospital (staff db)
      then
        let new_id := appointments_seq db + 1 in
        Return
          {| staff := staff db;
             doctors := doctors db;
             patients := patients db;
             appointments :=
               (appointments db ++
                [{| id := new_id;
                    patient_id := p;
                    doctor_id := d;
                    date_ := date';
                    time_slot := time_slot';
                    status := "Scheduled";
                    notes := notes';
                    hospital_id := hospital |}])%list;
             appointments_seq := new_id;
             doctor_slots := doctor_slots db;
             doctor_slots_seq := doctor_slots_seq db |}
      else Raise IntegrityError
  | _, _ => Raise IntegrityError
  end.

Definition schedule_appointment (db : database) (s : session) (req : request)
  : outcome :=
  match logged_in_as "admin" s with
  | None => {| db_after := db; flashed := []; reply := Redirect "login" |}
  | Some u =>
      if String.eqb (method req) "POST" then
        let patient_id' := strip (form_get (form req) "patient_id") in
        let doctor_id' := strip (form_get (form req) "doctor_id") in
        let date' := strip (form_get (form req) "date") in
        let time_slot' := strip (form_get (form req) "time_slot") in
        let notes' := strip (form_get (form req) "notes") in
        if negb (all_truthy [patient_id'; doctor_id'; date'; time_slot'])
        then {| db_after := db;
                flashed := [("Required fields are missing", "danger")];
                reply := Redirect "schedule_appointment" |}
        else
          match insert_appointment db patient_id' doctor_id' date' time_slot'
                  notes' (session_hospital_id u) with
          | Return db' =>
              {| db_after := db';
                 flashed := [("Appointment scheduled successfully!", "success")];
                 reply := Redirect "view_appointments" |}
          | Raise _ =>
              {| db_after := db;
                 flashed := [("Error scheduling appointment", "danger");
                             ("Error loading data", "danger")];
                 reply := RenderTemplate "admin/schedule_appointment.html" |}
          end
      else {| db_after := db; flashed := [];
              reply := RenderTemplate "admin/schedule_appointment.html" |}
  end.

(** *** [delete_appointment] *)

Definition with_appointments (db : database) (rows : list appointment)
  : database :=
  {| staff := staff db;
     doctors := doctors db;
     patients := patients db;
     appointments := rows;
     appointments_seq := appointments_seq db;
     doctor_slots := doctor_slots db;
     doctor_slots_seq := doctor_slots_seq db |}.

Definition delete_appointment (db : database) (s : session)
  (appointment_id : Z) : outcome :=
  match logged_in_as "admin" s with
  | None => {| db_after := db; flashed := []; reply := Redirect "login" |}
  | Some u =>
      if negb (sqlite_integer appointment_id)
      then {| db_after := db;
              flashed := [("Error deleting appointment", "danger")];
              reply := Redirect "view_appointments" |}
      else
      {| db_after :=
           with_appointments db
             (filter (fun a => negb ((id a =? appointment_id)
                                     && (hospital_id a =? session_hospital_id u)))
                (appointments db));
         flashed := [("Appointment deleted successfully!", "success")];
         reply := Redirect "view_appointments" |}
  end.

(** *** [update_appointment_status] *)

Definition set_status (new_status : string) (a : appointment) : appointment :=
  {| id := id a;
     patient_id := patient_id a;
     doctor_id := doctor_id a;
     date_ := date_ a;
     time_slot := time_slot a;
     status := new_status;
     notes := notes a;
     hospital_id := hospital_id a |}.

(** [WHERE id = ? AND doctor_id = ? AND hospital_id = ?] *)
Definition status_target (appointment_id : Z) (u : user_session)
  (a : appointment) : bool :=
  (id a =? appointment_id) && (doctor_id a =? user_id u)
  && (hospital_id a =? session_hospital_id u).

Definition update_appointment_status (db : database) (s : session)
  (req : request) (appointment_id : Z) : outcome :=
  match logged_in_as "doctor" s with
  | None => {| db_after := db; flashed := []; reply := Redirect "login" |}
  | Some u =>
      let status' := strip (form_get (form req) "status") in
      if String.eqb status' ""
      then {| db_after := db;
              flashed := [("Status is required", "danger")];
              reply := Redirect "doctor_appointments" |}
      else if negb (sqlite_integer appointment_id)
      then {| db_after := db;
              flashed := [("Error updating status", "danger")];
              reply := Redirect "doctor_appointments" |}
      else
        {| db_after :=
             with_appointments db
               (map (fun a => if status_target appointment_id u a
                              then set_status status' a else a)
                  (appointments db));
           flashed := [("Appointment status updated successfully!", "success")];
           reply := Redirect "doctor_appointments" |}
  end.

End Handlers.

(** The interval of minutes that a generated slot denotes, read back from
    its ['start'] and ['end'] strings. *)
Definition slot_times (sl : slot) : option (Z * Z) :=
  match strptime_HM (start sl), strptime_HM (end_ sl) with
  | Some a, Some b => Some (a, b)
  | _, _ => None
  end.

(** [strptime_HM (strftime_HM n) = n], as a test on one minute count. *)
Definition reads_back (n : nat) : bool :=
  match strptime_HM (strftime_HM (Z.of_nat n)) with
  | Some t => t =? Z.of_nat n
  | None => false
  end.

(** The state after one pass of the loop body when [slot_end] is in range
    and the break strings have parsed to the window [w]: the three branches
    of the body in closed form. *)
Definition next_state (end_time interval : Z) (w : option (Z * Z))
  (st : loop_state) : loop_state :=
  let slot_end := fst st + interval in
  match w with
  | Some (b1, b2) =>
      if (b1 <=? fst st) && (slot_end <=? b2) then (b2, snd st)
      else if slot_end <=? end_time
      then (slot_end, (snd st ++ [make_slot (fst st) slot_end])%list)
      else (slot_end, snd st)
  | None =>
      if slot_end <=? end_time
      then (slot_end, (snd st ++ [make_slot (fst st) slot_end])%list)
      else (slot_end, snd st)
  end.

(** The tiling of the specification: [n] consecutive slots of length
    [interval] from [start_time]; the k-th one is
    [start_time + k * interval, start_time + (k + 1) * interval). *)
Definition tiling (start_time interval : Z) (n : nat) : list slot :=
  map (fun k => make_slot (start_time + Z.of_nat k * interval)
                          (start_time + (Z.of_nat k + 1) * interval))
      (seq 0 n).

(** The break starts on the slot grid of the template and lasts at least
    one interval. *)
Definition break_on_grid (interval s b1 b2 : Z) : Prop :=
  (interval | b1 - s) /\ interval <= b2 - b1.

(** What the loop guarantees of a slot it appends, for a template from [s]
    to [e] with break window [b1, b2). *)
Definition clear_of_break (interval s e b1 b2 : Z) (sl : slot) : Prop :=
  exists a,
    sl = make_slot a (a + interval)
    /\ s <= a /\ a + interval <= e
    /\ ~ (b1 <= a /\ a + interval <= b2)
    /\ (break_on_grid interval s b1 b2 -> a + interval <= b1 \/ b2 <= a).

(** The loop invariant behind the break property. *)
Definition break_invariant (interval s e b1 b2 : Z) (st : loop_state) : Prop :=
  s <= fst st
  /\ Forall (clear_of_break interval s e b1 b2) (snd st)
  /\ (break_on_grid interval s b1 b2 ->
      (fst st <= b1 /\ (interval | fst st - s)) \/ b2 <= fst st).

(** ** Specification-level notions for the stores *)

(** At most one template per (doctor, weekday, tenant). *)
Definition unique_templates (db : database) : Prop :=
  forall (doctor_id' : Z) (day' : string) (hospital : Z),
    (List.length (filter (template_matches doctor_id' day' hospital)
                    (doctor_slots db)) <= 1)%nat.

(** The active bookings of a slot: the non-cancelled appointments of
    (doctor, date, slot, tenant). *)
Definition occupies (doctor_id' : Z) (date' time_slot' : string) (hospital : Z)
  (a : appointment) : bool :=
  booked_matches doctor_id' date' hospital a
  && String.eqb (time_slot a) time_slot'.

(** The rows of the ledger that belong to other tenants than [hospital]. *)
Definition foreign_rows (hospital : Z) (rows : list appointment)
  : list appointment :=
  filter (fun a => negb (hospital_id a =? hospital)) rows.

(** An ISO 8601 calendar date as the specification names it: [YYYY-MM-DD]
    (extended format) or [YYYYMMDD] (basic format), with two-digit month and
    day that exist in the calendar. *)
Definition all_digits (cs : list ascii) : option (list Z) :=
  fold_right
    (fun c acc =>
       match digit_value c, acc with
       | Some d, Some ds => Some (d :: ds)
       | _, _ => None
       end)
    (Some []) cs.


(** ** Concrete data for the examples *)

(** The INTEGER-affinity conversion on unsigned decimal numerals, the only
    identifiers that the examples submit. *)
Definition decimal_affinity (s : string) : option Z :=
  match list_ascii_of_string s, all_digits (list_ascii_of_string s) with
  | _ :: _, Some ds => Some (fold_left (fun acc d => 10 * acc + d) ds 0)
  | _, _ => None
  end.

(** Two hospitals (staff accounts 1 and 2), one doctor and one patient in
    each; doctor 1 works on Fridays from 09:00 to 10:00. *)
Definition clinic : database :=
  {| staff := [1; 2];
     doctors := [{| doctor_key := 1; doctor_hospital_id := 1 |};
                 {| doctor_key := 2; doctor_hospital_id := 2 |}];
     patients := [1; 2];
     appointments := [];
     appointments_seq := 0;
     doctor_slots :=
       [{| slot_id := 1; slot_doctor_id := 1; day := "Friday";
           start_time := "09:00"; end_time := "10:00";
           break_start := None; break_end := None;
           slot_hospital_id := 1 |}];
     doctor_slots_seq := 1 |}.

Definition admin1 : session :=
  Some {| user_id := 1; user_type := "admin"; session_hospital_id := 1 |}.

Definition doctor1 : session :=
  Some {| user_id := 1; user_type := "doctor"; session_hospital_id := 1 |}.

(** Book patient 1 with doctor 1 on Friday 2024-01-05 at 09:00. *)
Definition booking_request : request :=
  {| method := "POST";
     form := [("patient_id", "1"); ("doctor_id", "1"); ("date", "2024-01-05");
              ("time_slot", "09:00"); ("notes", "")] |}.

Definition cancel_request : request :=
  {| method := "POST"; form := [("status", "Cancelled")] |}.

(** A new Friday template for doctor 1: 10:00 to 12:00, break 11:00-11:30. *)
Definition template_request : request :=
  {| method := "POST";
     form := [("day", "Friday"); ("start_time", "10:00"); ("end_time", "12:00");
              ("break_start", "11:00"); ("break_end", " 11:30 ")] |}.

(** The ledger after the same booking has been submitted twice. *)
Definition booked_once : database :=
  db_after (schedule_appointment decimal_affinity clinic admin1 booking_request).

Definition booked_twice : database :=
  db_after (schedule_appointment decimal_affinity booked_once admin1
              booking_request).

(** ** Further notions for the slot generator *)

(** The slot printed for the interval [p] of minutes. *)
Definition slot_of_times (p : Z * Z) : slot := make_slot (fst p) (snd p).

(** [q] starts no earlier than [p] ends. *)
Definition follows (p q : Z * Z) : Prop := snd p <= fst q.

(** ** Further notions for the stores *)

(** A Friday template for doctor 1 whose start is not a time. *)
Definition sloppy_template_request : request :=
  {| method := "POST";
     form := [("day", "Friday"); ("start_time", "9am"); ("end_time", "17:00")] |}.

(** The rows of an AUTOINCREMENT table lie in increasing rowid order below
    the counter. *)
Definition rowids_ok (ids : list Z) (seq : Z) : Prop :=
  StronglySorted Z.lt ids /\ Forall (fun i => i <= seq) ids.




(** [a] is an appointment of (doctor, date, tenant), whatever its status. *)
Definition slot_key_matches (doctor_id' : Z) (date' : string) (hospital : Z)
  (a : appointment) : bool :=
  (doctor_id a =? doctor_id') && String.eqb (date_ a) date'
  && (hospital_id a =? hospital).

(** A second hospital's admin and doctor, and a request that reopens an
    appointment. *)
Definition admin2 : session :=
  Some {| user_id := 2; user_type := "admin"; session_hospital_id := 2 |}.

Definition doctor2 : session :=
  Some {| user_id := 2; user_type := "doctor"; session_hospital_id := 2 |}.

Definition reopen_request : request :=
  {| method := "POST"; form := [("status", " Scheduled ")] |}.

(** ** Upload names: [allowed_file] *)

Definition dot : ascii := "."%char.

(** [c in s] for a character [c] *)
Fixpoint contains (c : ascii) (s : string) : bool :=
  match s with
  | EmptyString => false
  | String x rest => Ascii.eqb x c || contains c rest
  end.

(** The two parts of [s.rsplit(c, 1)] around the last [c]; [None] when [s]
    has no [c]. *)
Fixpoint rsplit_last (c : ascii) (s : string) : option (string * string) :=
  match s with
  | EmptyString => None
  | String x rest =>
      match rsplit_last c rest with
      | Some (head, tail) => Some (String x head, tail)
      | None => if Ascii.eqb x c then Some (EmptyString, rest) else None
      end
  end.

(** [s.rsplit(c, 1)] *)
Definition rsplit1 (c : ascii) (s : string) : list string :=
  match rsplit_last c s with
  | Some (head, tail) => [head; tail]
  | None => [s]
  end.

(** [str.lower()] on ASCII text *)
Definition lower_char (c : ascii) : ascii :=
  let n := N_of_ascii c in
  if (65 <=? n)%N && (n <=? 90)%N then ascii_of_N (n + 32) else c.

Fixpoint lower (s : string) : string :=
  match s with
  | EmptyString => EmptyString
  | String c rest => String (lower_char c) (lower rest)
  end.

(** [app.config['ALLOWED_EXTENSIONS']] *)
Definition ALLOWED_EXTENSIONS : list string := ["png"; "jpg"; "jpeg"].

Definition allowed_file (filename : string) : bool :=
  contains dot filename
  && existsb (String.eqb (lower (nth 1 (rsplit1 dot filename) "")))
       ALLOWED_EXTENSIONS.

(** ** Prescriptions: the medicine lines

    [prescriptions] stores the medicines of a prescription as one text, one
    line per medicine with seven fields separated by ['|'];
    [prescriptions], [print_prescription] and [patient_history] parse that
    text back with the same block of code. *)

Definition pipe : ascii := "|"%char.
Definition newline : ascii := "010"%char.

(** [s.split(sep)] for a one-character separator *)
Fixpoint split (sep : ascii) (s : string) : list string :=
  match s with
  | EmptyString => [EmptyString]
  | String c rest =>
      if Ascii.eqb c sep then EmptyString :: split sep rest
      else
        match split sep rest with
        | part :: parts => String c part :: parts
        | [] => [String c EmptyString]
        end
  end.

(** The seven values of one medicine: the locals of the loop body when it
    writes, the dictionary of [medicines_parsed] when it reads. *)
Record medicine : Type := {
  name : string;
  dosage : string;
  frequency : string;
  morning : string;
  afternoon : string;
  evening : string;
  meal : string
}.

(** [request.form.get(key)]: [None] when the key is absent. *)
Definition form_lookup (form : form_data) (key : string) : option string :=
  option_map snd (find (fun kv => String.eqb (fst kv) key) form).

(** [request.form.get(key, default)] *)
Definition form_get_default (form : form_data) (key default : string) : string :=
  match form_lookup form key with
  | Some v => v
  | None => default
  end.

(** [str(i)] *)
Definition str (i : nat) : string := NilZero.string_of_uint (Nat.to_uint i).

(** ['1' if request.form.get(key) else '0'] *)
Definition flag (form : form_data) (key : string) : string :=
  if truthy (form_lookup form key) then "1" else "0".

(** The body of [for i in range(1, medicine_count + 1)] up to the test
    [if name and dosage and frequency]: [None] when the medicine is
    skipped. *)
Definition collect_medicine (form : form_data) (i : nat) : option medicine :=
  let name' := strip (form_get form ("medicine_name_" ++ str i)) in
  let dosage' := strip (form_get form ("medicine_dosage_" ++ str i)) in
  let frequency' := strip (form_get form ("medicine_frequency_" ++ str i)) in
  if all_truthy [name'; dosage'; frequency'] then
    Some {| name := name';
            dosage := dosage';
            frequency := frequency';
            morning := flag form ("medicine_morning_" ++ str i);
            afternoon := flag form ("medicine_afternoon_" ++ str i);
            evening := flag form ("medicine_evening_" ++ str i);
            meal := form_get_default form ("medicine_meal_" ++ str i) "after" |}
  else None.

(** [f"{name}|{dosage}|{frequency}|{morning}|{afternoon}|{evening}|{meal}"] *)
Definition format_medicine (m : medicine) : string :=
  name m ++ "|" ++ dosage m ++ "|" ++ frequency m ++ "|" ++ morning m ++ "|"
    ++ afternoon m ++ "|" ++ evening m ++ "|" ++ meal m.

Definition option_list {A : Type} (o : option A) : list A :=
  match o with
  | Some a => [a]
  | None => []
  end.

(** The medicines that the loop keeps; [medicine_count] is the value of
    [int(request.form.get('medicine_count', 1))]. *)
Definition collect_medicines (form : form_data) (medicine_count : Z)
  : list medicine :=
  flat_map (fun i => option_list (collect_medicine form i))
    (seq 1 (Z.to_nat medicine_count)).

(** ['\n'.join(medicines) if medicines else ''] *)
Definition join_lines (medicines : list string) : string :=
  match medicines with
  | [] => ""
  | _ => String.concat (String newline EmptyString) medicines
  end.

Definition medicines_str (form : form_data) (medicine_count : Z) : string :=
  join_lines (map format_medicine (collect_medicines form medicine_count)).

(** One line of the stored text: kept when it is not blank and has exactly
    seven parts. *)
Definition parse_medicine_line (line : string) : option medicine :=
  if negb (String.eqb (strip line) "") then
    match split pipe line with
    | [p0; p1; p2; p3; p4; p5; p6] =>
        Some {| name := p0; dosage := p1; frequency := p2; morning := p3;
                afternoon := p4; evening := p5; meal := p6 |}
    | _ => None
    end
  else None.

(** [medicines_parsed] from the column [medicines], which is [None] when
    the joined prescription is missing. *)
Definition parse_medicines (medicines : option string) : list medicine :=
  match medicines with
  | Some text =>
      if truthy medicines
      then flat_map (fun line => option_list (parse_medicine_line line))
             (split newline text)
      else []
  | None => []
  end.

(** No field of [m] contains the character [c]. *)
Definition field_free (c : ascii) (m : medicine) : bool :=
  negb (contains c (name m) || contains c (dosage m) || contains c (frequency m)
        || contains c (morning m) || contains c (afternoon m)
        || contains c (evening m) || contains c (meal m)).

(** A prescription form with two medicines; the second name holds a ['|']. *)
Definition prescription_form : form_data :=
  [("medicine_name_1", " Amoxicillin "); ("medicine_dosage_1", "500mg");
   ("medicine_frequency_1", "3x"); ("medicine_morning_1", "on");
   ("medicine_evening_1", "on"); ("medicine_meal_1", "before");
   ("medicine_name_2", "Vitamin B|C"); ("medicine_dosage_2", "1 tab");
   ("medicine_frequency_2", "1x")].

(** The number of occurrences of [c] in [s]. *)
Fixpoint count (c : ascii) (s : string) : nat :=
  match s with
  | EmptyString => O
  | String x rest => (if Ascii.eqb x c then 1 else 0) + count c rest
  end.

(** ** Accounts: registration, login and doctor credentials

    The columns of [staff] and [doctors] that the account handlers read and
    write.  A doctor's account extends the row [doctor] of the database with
    the nullable columns [username] and [password]. *)

Record staff_account : Type := {
  staff_id : Z;
  staff_name : string;
  email : string;
  staff_password : string;
  hospital_name : string
}.

Record doctor_account : Type := {
  doctor_row : doctor;
  username : option string;
  password : option string
}.

(** [staff_seq] is the AUTOINCREMENT counter of [staff]. *)
Record accounts : Type := {
  staff_accounts : list staff_account;
  staff_seq : Z;
  doctor_accounts : list doctor_account
}.

(** What an account handler leaves behind: the tables, the session cookie,
    the flashed messages and the response. *)
Record auth_outcome : Type := {
  accounts_after : accounts;
  session_after : session;
  auth_flashed : list flash;
  auth_reply : response
}.

(** The email column is UNIQUE; so is the username column, where NULLs do
    not collide. *)
Definition emails_unique (acc : accounts) : Prop :=
  NoDup (map email (staff_accounts acc)).

Definition usernames_unique (acc : accounts) : Prop :=
  NoDup (flat_map (fun d => option_list (username d)) (doctor_accounts acc)).

Section Accounts.

(** The two functions of [werkzeug.security], which is not part of the
    repository.  [generate_password_hash salt password] is the hash produced
    by a call that draws [salt]. *)
Variable generate_password_hash : string -> string -> string.
Variable check_password_hash : string -> string -> bool.

(** [INSERT INTO staff (name, email, password, hospital_name)]: the UNIQUE
    email makes a second row with the same email an [IntegrityError]. *)
Definition insert_staff (acc : accounts)
  (name' email' pwhash hospital_name' : string) : result accounts :=
  if existsb (fun a => String.eqb (email a) email') (staff_accounts acc)
  then Raise IntegrityError
  else
    let new_id := staff_seq acc + 1 in
    Return {| staff_accounts :=
                (staff_accounts acc ++
                 [{| staff_id := new_id; staff_name := name'; email := email';
                     staff_password := pwhash;
                     hospital_name := hospital_name' |}])%list;
              staff_seq := new_id;
              doctor_accounts := doctor_accounts acc |}.

(** [init_db]: the tables exist; the default admin is created when no staff
    row has its email. *)
Definition init_db (salt : string) (acc : accounts) : accounts :=
  if (List.length (filter (fun a => String.eqb (email a) "admin@hospital.com")
                     (staff_accounts acc)) =? 0)%nat
  then
    match insert_staff acc "Admin" "admin@hospital.com"
            (generate_password_hash salt "admin123") "City General Hospital" with
    | Return acc' => acc'
    | Raise _ => acc
    end
  else acc.

Definition register (salt : string) (acc : accounts) (s : session)
  (req : request) : auth_outcome :=
  if String.eqb (method req) "POST" then
    let name' := strip (form_get (form req) "name") in
    let email' := strip (form_get (form req) "email") in
    let password' := strip (form_get (form req) "password") in
    let hospital_name' := strip (form_get (form req) "hospital_name") in
    if negb (all_truthy [name'; email'; password'; hospital_name'])
    then {| accounts_after := acc; session_after := s;
            auth_flashed := [("All fields are required", "danger")];
            auth_reply := Redirect "register" |}
    else
      match insert_staff acc name' email'
              (generate_password_hash salt password') hospital_name' with
      | Return acc' =>
          {| accounts_after := acc'; session_after := s;
             auth_flashed := [("Registration successful! Please login.",
                               "success")];
             auth_reply := Redirect "login" |}
      | Raise _ =>
          {| accounts_after := acc; session_after := s;
             auth_flashed := [("Email already exists!", "danger")];
             auth_reply := RenderTemplate "auth/register.html" |}
      end
  else {| accounts_after := acc; session_after := s; auth_flashed := [];
          auth_reply := RenderTemplate "auth/register.html" |}.

(** [SELECT * FROM staff WHERE email = ?] *)
Definition staff_by_email (acc : accounts) (email' : string)
  : option staff_account :=
  find (fun a => String.eqb (email a) email') (staff_accounts acc).

(** [SELECT d.*, s.hospital_name FROM doctors d JOIN staff s
    ON d.hospital_id = s.id WHERE d.username = ? AND d.password IS NOT NULL] *)
Definition doctor_by_username (acc : accounts) (username' : string)
  : option doctor_account :=
  find (fun d =>
          match username d, password d with
          | Some n, Some _ =>
              String.eqb n username'
              && existsb (fun a => staff_id a =? doctor_hospital_id (doctor_row d))
                   (staff_accounts acc)
          | _, _ => false
          end)
    (doctor_accounts acc).

(** The part of [login] and [doctor_login] after the doctor query: the
    session of a doctor whose password matches, under the given
    [user_type]. *)
Definition doctor_session (acc : accounts) (username' password' user_type' : string)
  : option user_session :=
  match doctor_by_username acc username' with
  | Some d =>
      match password d with
      | Some pwhash =>
          if check_password_hash pwhash password'
          then Some {| user_id := doctor_key (doctor_row d);
                       user_type := user_type';
                       session_hospital_id := doctor_hospital_id (doctor_row d) |}
          else None
      | None => None
      end
  | None => None
  end.

Definition invalid_credentials (acc : accounts) (s : session) (template : string)
  : auth_outcome :=
  {| accounts_after := acc; session_after := s;
     auth_flashed := [("Invalid credentials or account not setup", "danger")];
     auth_reply := RenderTemplate template |}.

Definition login (acc : accounts) (s : session) (req : request) : auth_outcome :=
  if String.eqb (method req) "POST" then
    let username' := strip (form_get (form req) "username") in
    let password' := strip (form_get (form req) "password") in
    let user_type' := strip (form_get (form req) "user_type") in
    if negb (all_truthy [username'; password'; user_type'])
    then {| accounts_after := acc; session_after := s;
            auth_flashed := [("All fields are required", "danger")];
            auth_reply := Redirect "login" |}
    else if String.eqb user_type' "admin" then
      match staff_by_email acc username' with
      | Some user =>
          if check_password_hash (staff_password user) password'
          then {| accounts_after := acc;
                  session_after :=
                    Some {| user_id := staff_id user; user_type := user_type';
                            session_hospital_id := staff_id user |};
                  auth_flashed := [];
                  auth_reply := Redirect "admin_dashboard" |}
          else invalid_credentials acc s "auth/login.html"
      | None => invalid_credentials acc s "auth/login.html"
      end
    else
      match doctor_session acc username' password' user_type' with
      | Some u =>
          {| accounts_after := acc; session_after := Some u;
             auth_flashed := []; auth_reply := Redirect "doctor_dashboard" |}
      | None => invalid_credentials acc s "auth/login.html"
      end
  else {| accounts_after := acc; session_after := s; auth_flashed := [];
          auth_reply := RenderTemplate "auth/login.html" |}.

Definition doctor_login (acc : accounts) (s : session) (req : request)
  : auth_outcome :=
  if String.eqb (method req) "POST" then
    let username' := strip (form_get (form req) "username") in
    let password' := strip (form_get (form req) "password") in
    if negb (all_truthy [username'; password'])
    then {| accounts_after := acc; session_after := s;
            auth_flashed := [("All fields are required", "danger")];
            auth_reply := Redirect "doctor_login" |}
    else
      match doctor_session acc username' password' "doctor" with
      | Some u =>
          {| accounts_after := acc; session_after := Some u;
             auth_flashed := []; auth_reply := Redirect "doctor_dashboard" |}
      | None => invalid_credentials acc s "doctor/login.html"
      end
  else {| accounts_after := acc; session_after := s; auth_flashed := [];
          auth_reply := RenderTemplate "doctor/login.html" |}.

(** [logout]: [session.clear()] *)
Definition logout (acc : accounts) (s : session) : auth_outcome :=
  {| accounts_after := acc; session_after := None; auth_flashed := [];
     auth_reply := Redirect "home" |}.

(** [home] *)
Definition home (s : session) : response :=
  match s with
  | Some u =>
      if String.eqb (user_type u) "admin" then Redirect "admin_dashboard"
      else Redirect "doctor_dashboard"
  | None => RenderTemplate "auth/login.html"
  end.

(** *** [set_doctor_credentials] *)

(** [WHERE id = ? AND hospital_id = ?] on [doctors] *)
Definition is_doctor_of (doctor_id' hospital : Z) (d : doctor_account) : bool :=
  (doctor_key (doctor_row d) =? doctor_id')
  && (doctor_hospital_id (doctor_row d) =? hospital).

Definition has_username (username' : string) (d : doctor_account) : bool :=
  match username d with
  | Some n => String.eqb n username'
  | None => false
  end.

(** [UPDATE doctors SET username = ?, password = ? WHERE id = ? AND
    hospital_id = ?]; the UNIQUE username makes the update an
    [IntegrityError] when a row that is not updated carries it. *)
Definition update_credentials (acc : accounts) (doctor_id' hospital : Z)
  (username' pwhash : string) : result accounts :=
  if existsb (fun d => has_username username' d
                       && negb (is_doctor_of doctor_id' hospital d))
       (doctor_accounts acc)
     && existsb (is_doctor_of doctor_id' hospital) (doctor_accounts acc)
  then Raise IntegrityError
  else
    Return {| staff_accounts := staff_accounts acc;
              staff_seq := staff_seq acc;
              doctor_accounts :=
                map (fun d => if is_doctor_of doctor_id' hospital d
                              then {| doctor_row := doctor_row d;
                                      username := Some username';
                                      password := Some pwhash |}
                              else d)
                  (doctor_accounts acc) |}.

Definition set_doctor_credentials (salt : string) (acc : accounts) (s : session)
  (req : request) (doctor_id' : Z) : auth_outcome :=
  match logged_in_as "admin" s with
  | None => {| accounts_after := acc; session_after := s; auth_flashed := [];
               auth_reply := Redirect "login" |}
  | Some u =>
      let hospital := session_hospital_id u in
      if negb (existsb (is_doctor_of doctor_id' hospital) (doctor_accounts acc))
      then {| accounts_after := acc; session_after := s;
              auth_flashed := [("Doctor not found", "danger")];
              auth_reply := Redirect "view_doctors" |}
      else if String.eqb (method req) "POST" then
        let username' := strip (form_get (form req) "username") in
        let password' := strip (form_get (form req) "password") in
        if (String.length username' <? 4)%nat
        then {| accounts_after := acc; session_after := s;
                auth_flashed := [("Username must be at least 4 characters",
                                  "danger")];
                auth_reply := Redirect "set_doctor_credentials" |}
        else if (String.length password' <? 8)%nat
        then {| accounts_after := acc; session_after := s;
                auth_flashed := [("Password must be at least 8 characters",
                                  "danger")];
                auth_reply := Redirect "set_doctor_credentials" |}
        else if existsb (fun d =>
                           has_username username' d
                           && negb (doctor_key (doctor_row d) =? doctor_id')
                           && (doctor_hospital_id (doctor_row d) =? hospital))
                  (doctor_accounts acc)
        then {| accounts_after := acc; session_after := s;
                auth_flashed := [("Username already in use", "danger")];
                auth_reply := Redirect "set_doctor_credentials" |}
        else
          match update_credentials acc doctor_id' hospital username'
                  (generate_password_hash salt password') with
          | Return acc' =>
              {| accounts_after := acc'; session_after := s;
                 auth_flashed := [("Doctor credentials updated successfully!",
                                   "success")];
                 auth_reply := Redirect "view_doctors" |}
          | Raise _ =>
              {| accounts_after := acc; session_after := s;
                 auth_flashed := [("Failed to update credentials", "danger")];
                 auth_reply :=
                   RenderTemplate "admin/set_doctor_credentials.html" |}
          end
      else {| accounts_after := acc; session_after := s; auth_flashed := [];
              auth_reply := RenderTemplate "admin/set_doctor_credentials.html" |}
  end.

End Accounts.

(** *** Concrete accounts for the examples *)

(** A stand-in for the hash pair: the hash is the password itself. *)
Definition plain_hash (salt password' : string) : string := password'.
Definition plain_check (pwhash password' : string) : bool :=
  String.eqb pwhash password'.

Definition no_accounts : accounts :=
  {| staff_accounts := []; staff_seq := 0; doctor_accounts := [] |}.

Definition register_request : request :=
  {| method := "POST";
     form := [("name", "Dana"); ("email", " dana@clinic.org ");
              ("password", "s3cret-pw"); ("hospital_name", "North Clinic")] |}.

Definition admin_login_request : request :=
  {| method := "POST";
     form := [("username", "dana@clinic.org"); ("password", "s3cret-pw");
              ("user_type", "admin")] |}.

(** Hospital 1 with doctor 7, who has no credentials yet, and hospital 2
    with doctor 8, whose username is "drsmith". *)
Definition two_hospitals : accounts :=
  {| staff_accounts :=
       [{| staff_id := 1; staff_name := "Dana"; email := "dana@clinic.org";
           staff_password := "s3cret-pw"; hospital_name := "North Clinic" |};
        {| staff_id := 2; staff_name := "Eli"; email := "eli@south.org";
           staff_password := "pass-word"; hospital_name := "South Clinic" |}];
     staff_seq := 2;
     doctor_accounts :=
       [{| doctor_row := {| doctor_key := 7; doctor_hospital_id := 1 |};
           username := None; password := None |};
        {| doctor_row := {| doctor_key := 8; doctor_hospital_id := 2 |};
           username := Some "drsmith"; password := Some "long-password" |}] |}.

Definition credentials_request (username' password' : string) : request :=
  {| method := "POST";
     form := [("username", username'); ("password", password')] |}.

(** A login through the admin form with a role that is neither "admin" nor
    "doctor". *)
Definition nurse_login_request : request :=
  {| method := "POST";
     form := [("username", "drsmith"); ("password", "long-password");
              ("user_type", "nurse")] |}.

(** ** The prescription store: [prescriptions]

    The table [prescriptions] is kept beside the database; its column
    [appointment_id] is UNIQUE. *)

Record prescription : Type := {
  prescription_id : Z;
  appointment_id_ : Z;
  diagnosis : string;
  medicines : string;
  instructions : string;
  prescription_hospital_id : Z
}.

Record prescription_store : Type := {
  prescriptions_ : list prescription;
  prescriptions_seq : Z
}.

(** What [prescriptions] leaves behind; [shown] is the prescription handed
    to the template with its [medicines_parsed], when the page is rendered. *)
Record prescription_outcome : Type := {
  store_after : prescription_store;
  prescription_flashed : list flash;
  prescription_reply : response;
  shown : option (prescription * list medicine)
}.

(** [SELECT a.*, ... FROM appointments a JOIN patients p ON a.patient_id =
    p.id JOIN doctors d ON a.doctor_id = d.id WHERE a.id = ? AND
    a.hospital_id = ?] *)
Definition appointment_of_tenant (db : database) (appointment_id hospital : Z)
  : option appointment :=
  find (fun a => (id a =? appointment_id) && (hospital_id a =? hospital)
                 && mem (patient_id a) (patients db)
                 && existsb (fun d => doctor_key d =? doctor_id a) (doctors db))
    (appointments db).

(** [SELECT * FROM prescriptions WHERE appointment_id = ?] *)
Definition prescription_of (store : prescription_store) (appointment_id : Z)
  : option prescription :=
  find (fun r => appointment_id_ r =? appointment_id) (prescriptions_ store).

(** The [UPDATE] or [INSERT] of a save.  The insert checks the foreign keys
    of [hospital_id] and [appointment_id]; it is reached only when no row
    has the appointment's id, so the UNIQUE check of that column passes. *)
Definition save_prescription (db : database) (store : prescription_store)
  (appointment_id : Z) (diagnosis' medicines' instructions' : string)
  (hospital : Z) : result prescription_store :=
  match prescription_of store appointment_id with
  | Some _ =>
      Return
        {| prescriptions_ :=
             map (fun r => if appointment_id_ r =? appointment_id
                           then {| prescription_id := prescription_id r;
                                   appointment_id_ := appointment_id_ r;
                                   diagnosis := diagnosis';
                                   medicines := medicines';
                                   instructions := instructions';
                                   prescription_hospital_id :=
                                     prescription_hospital_id r |}
                           else r)
               (prescriptions_ store);
           prescriptions_seq := prescriptions_seq store |}
  | None =>
      if mem hospital (staff db)
         && existsb (fun a => id a =? appointment_id) (appointments db)
      then
        let new_id := prescriptions_seq store + 1 in
        Return
          {| prescriptions_ :=
               (prescriptions_ store ++
                [{| prescription_id := new_id;
                    appointment_id_ := appointment_id;
                    diagnosis := diagnosis';
                    medicines := medicines';
                    instructions := instructions';
                    prescription_hospital_id := hospital |}])%list;
             prescriptions_seq := new_id |}
      else Raise IntegrityError
  end.

(** [prescriptions(appointment_id)].  [medicine_count] is the value of
    [int(request.form.get('medicine_count', 1))]; a request on which that
    conversion raises is not covered. *)
Definition prescriptions (db : database) (store : prescription_store)
  (s : session) (req : request) (medicine_count : Z) (appointment_id : Z)
  : prescription_outcome :=
  match logged_in_as "doctor" s with
  | None => {| store_after := store; prescription_flashed := [];
               prescription_reply := Redirect "login"; shown := None |}
  | Some u =>
      match appointment_of_tenant db appointment_id (session_hospital_id u) with
      | None =>
          {| store_after := store;
             prescription_flashed := [("Appointment not found", "danger")];
             prescription_reply := Redirect "doctor_appointments";
             shown := None |}
      | Some _ =>
          if String.eqb (method req) "POST" then
            let diagnosis' := strip (form_get (form req) "diagnosis") in
            let instructions' := strip (form_get (form req) "instructions") in
            match save_prescription db store appointment_id diagnosis'
                    (medicines_str (form req) medicine_count) instructions'
                    (session_hospital_id u) with
            | Return store' =>
                {| store_after := store';
                   prescription_flashed :=
                     [("Prescription saved successfully!", "success")];
                   prescription_reply :=
                     if String.eqb (form_get (form req) "action") "print"
                     then Redirect "print_prescription"
                     else Redirect "prescriptions";
                   shown := None |}
            | Raise _ =>
                (* the page is then read on the closed connection, which
                   is not caught: the 500 handler answers *)
                {| store_after := store;
                   prescription_flashed :=
                     [("Error saving prescription", "danger")];
                   prescription_reply := RenderTemplate "error.html";
                   shown := None |}
            end
          else
            {| store_after := store; prescription_flashed := [];
               prescription_reply := RenderTemplate "doctor/prescriptions.html";
               shown :=
                 match prescription_of store appointment_id with
                 | Some r => Some (r, parse_medicines (Some (medicines r)))
                 | None => None
                 end |}
      end
  end.

(** At most one prescription per appointment. *)
Definition prescriptions_unique (store : prescription_store) : Prop :=
  NoDup (map appointment_id_ (prescriptions_ store)).

(** A save of the example form by doctor 2 of hospital 1, who is not the
    doctor of appointment 1. *)
Definition colleague : session :=
  Some {| user_id := 2; user_type := "doctor"; session_hospital_id := 1 |}.

Definition no_prescriptions : prescription_store :=
  {| prescriptions_ := []; prescriptions_seq := 0 |}.

Definition prescription_request : request :=
  {| method := "POST";
     form := (("diagnosis", " Sinusitis ") :: ("instructions", "Rest")
              :: prescription_form)%list |}.

Definition view_request : request := {| method := "GET"; form := [] |}.

(** ** The date texts of the format ['%Y-%m-%d']

    The texts that the regular expression of the format matches in full,
    written as a grammar: four digits, a dash, a month of one or two
    digits, a dash, and a day of one or two digits or of a space and one
    digit. *)




(** ** The ids of a SQLite database *)

(** The ids held in the tables [doctors] and [appointments] are 64-bit
    integers, as the rows of every SQLite table are. *)
Definition sqlite_rows (db : database) : Prop :=
  Forall (fun r => sqlite_integer (doctor_key r) = true) (doctors db)
  /\ Forall (fun a => sqlite_integer (id a) = true) (appointments db).

(** The smallest id that SQLite cannot bind. *)
Definition unbindable_id : Z := 2 ^ 63.

(** A Monday template for doctor 1, and the clinic once it is stored beside
    the Friday one. *)
Definition monday_request : request :=
  {| method := "POST";
     form := [("day", "Monday"); ("start_time", "08:00"); ("end_time", "09:00")] |}.

Definition clinic_two_days : database :=
  db_after (set_doctor_slots clinic admin1 monday_request 1).

(** * Properties of the time primitives *)

Lemma digit_value_range (c : ascii) (d : Z) :
  digit_value c = Some d -> 0 <= d <= 9.
Proof.
  unfold digit_value.
  destruct ((48 <=? _) && (_ <=? 57))%bool eqn:E; [|discriminate].
  apply andb_prop in E as [E1 E2].
  apply Z.leb_le in E1, E2.
  intros H; injection H as H; lia.
Qed.

Lemma strptime_minute_range (cs : list ascii) (m : Z) :
  strptime_minute cs = Some m -> 0 <= m <= 59.
Proof.
  destruct cs as [|m1 [|m2 [|? ?]]]; cbn [strptime_minute]; try discriminate.
  - intros H. apply digit_value_range in H. lia.
  - destruct (digit_value m1) as [a|] eqn:Ha; [|discriminate].
    destruct (digit_value m2) as [b|] eqn:Hb; [|discriminate].
    destruct (a <=? 5) eqn:E; [|discriminate].
    apply Z.leb_le in E.
    apply digit_value_range in Ha, Hb.
    intros H. assert (m = 10 * a + b) by congruence. lia.
Qed.

Lemma strptime_HM_range (s : string) (t : Z) :
  strptime_HM s = Some t -> 0 <= t <= 1439.
Proof.
  unfold strptime_HM.
  destruct (list_ascii_of_string s) as [|h1 [|h2 rest]]; try discriminate.
  destruct (Ascii.eqb h2 colon).
  - destruct (digit_value h1) as [h|] eqn:Hh; [|discriminate].
    destruct (strptime_minute rest) as [m|] eqn:Hm; [|discriminate].
    apply digit_value_range in Hh. apply strptime_minute_range in Hm.
    intros H. assert (t = 60 * h + m) by congruence. lia.
  - destruct rest as [|c rest']; [discriminate|].
    destruct (Ascii.eqb c colon); [|discriminate].
    destruct (digit_value h1) as [a|] eqn:Ha; [|discriminate].
    destruct (digit_value h2) as [b|] eqn:Hb; [|discriminate].
    destruct (strptime_minute rest') as [m|] eqn:Hm; [|discriminate].
    destruct (10 * a + b <=? 23) eqn:E; [|discriminate].
    apply Z.leb_le in E.
    apply digit_value_range in Ha, Hb. apply strptime_minute_range in Hm.
    intros H. assert (t = 60 * (10 * a + b) + m) by congruence. lia.
Qed.

(** Printing a time of day and parsing it back is the identity; checked on
    each of the 1440 minutes of a day. *)
Lemma reads_back_all : forallb reads_back (seq 0 1440) = true.
Proof. vm_compute. reflexivity. Qed.

Lemma strptime_strftime_HM (t : Z) :
  0 <= t < 1440 -> strptime_HM (strftime_HM t) = Some t.
Proof.
  intros Ht.
  pose proof reads_back_all as H.
  rewrite forallb_forall in H.
  specialize (H (Z.to_nat t)).
  assert (Hin : In (Z.to_nat t) (seq 0 1440)) by (apply in_seq; lia).
  apply H in Hin. unfold reads_back in Hin.
  rewrite Z2Nat.id in Hin by lia.
  destruct (strptime_HM (strftime_HM t)) as [t'|]; [|discriminate].
  apply Z.eqb_eq in Hin. congruence.
Qed.

Lemma slot_times_make_slot (a b : Z) :
  0 <= a < 1440 -> 0 <= b < 1440 -> slot_times (make_slot a b) = Some (a, b).
Proof.
  intros Ha Hb. unfold slot_times, make_slot; simpl.
  rewrite !strptime_strftime_HM by assumption. reflexivity.
Qed.

(** * The range of [datetime] *)

Lemma datetime_min_value : datetime_min = -998776800.
Proof. reflexivity. Qed.

Lemma datetime_max_value : datetime_max = 4260188159.
Proof. reflexivity. Qed.

Lemma in_datetime_range_true (t : Z) :
  in_datetime_range t = true <-> datetime_min <= t <= datetime_max.
Proof.
  unfold in_datetime_range. rewrite andb_true_iff, !Z.leb_le. tauto.
Qed.

Lemma in_datetime_range_false (t : Z) :
  in_datetime_range t = false <-> t < datetime_min \/ datetime_max < t.
Proof.
  unfold in_datetime_range. rewrite andb_false_iff, !Z.leb_gt. tauto.
Qed.

(** The times of day that [strptime] returns are far inside the range. *)
Ltac datetime_values :=
  rewrite ?datetime_min_value, ?datetime_max_value in *.

Lemma break_window_range (break_start break_end : option string) (b1 b2 : Z) :
  break_window break_start break_end = Return (Some (b1, b2)) ->
  0 <= b1 <= 1439 /\ 0 <= b2 <= 1439.
Proof.
  unfold break_window.
  destruct break_start as [bs|], break_end as [be|]; try discriminate.
  destruct (truthy (Some bs) && truthy (Some be))%bool; [|discriminate].
  destruct (strptime_HM bs) as [x|] eqn:Hx; [|discriminate].
  destruct (strptime_HM be) as [y|] eqn:Hy; [|discriminate].
  intros H. assert (x = b1 /\ y = b2) as [<- <-] by (split; congruence).
  split; eapply strptime_HM_range; eassumption.
Qed.

(** * The loop of the slot generator *)

Section Loop.

Variables (end_time : Z) (break_start break_end : option string) (interval : Z).

Lemma iteration_next (w : option (Z * Z)) (st : loop_state) :
  break_window break_start break_end = Return w ->
  in_datetime_range (fst st + interval) = true ->
  iteration end_time break_start break_end interval st
  = Return (next_state end_time interval w st).
Proof.
  intros Hw Hr. destruct st as [cur sl]. cbn [fst] in Hr.
  unfold iteration, next_state, datetime_add. rewrite Hr. cbn [bind].
  rewrite Hw. cbn [bind fst snd].
  destruct w as [[b1 b2]|].
  - destruct ((b1 <=? cur) && (cur + interval <=? b2))%bool; [reflexivity|].
    destruct (cur + interval <=? end_time); reflexivity.
  - destruct (cur + interval <=? end_time); reflexivity.
Qed.

(** [slot_end] is computed before the break strings are read. *)
Lemma iteration_overflow (st : loop_state) :
  in_datetime_range (fst st + interval) = false ->
  iteration end_time break_start break_end interval st = Raise OverflowError.
Proof.
  intros Hr. destruct st as [cur sl]. cbn [fst] in Hr.
  unfold iteration, datetime_add. rewrite Hr. reflexivity.
Qed.

Lemma iteration_raises (e : exn) (st : loop_state) :
  break_window break_start break_end = Raise e ->
  in_datetime_range (fst st + interval) = true ->
  iteration end_time break_start break_end interval st = Raise e.
Proof.
  intros Hw Hr. destruct st as [cur sl]. cbn [fst] in Hr.
  unfold iteration, datetime_add. rewrite Hr. cbn [bind].
  rewrite Hw. reflexivity.
Qed.

(** A pass that returns has found [slot_end] in range and the break strings
    readable. *)
Lemma iteration_return (st st' : loop_state) :
  iteration end_time break_start break_end interval st = Return st' ->
  in_datetime_range (fst st + interval) = true
  /\ exists w,
       break_window break_start break_end = Return w
       /\ st' = next_state end_time interval w st.
Proof.
  intros Hstep.
  destruct (in_datetime_range (fst st + interval)) eqn:Hr.
  - split; [reflexivity|].
    destruct (break_window break_start break_end) as [w|e] eqn:Hw.
    + exists w. split; [reflexivity|].
      rewrite (iteration_next w st Hw Hr) in Hstep. congruence.
    + rewrite (iteration_raises e st Hw Hr) in Hstep. discriminate.
  - rewrite (iteration_overflow st Hr) in Hstep. discriminate.
Qed.

Lemma iteration_return_window (w : option (Z * Z)) (st st' : loop_state) :
  break_window break_start break_end = Return w ->
  iteration end_time break_start break_end interval st = Return st' ->
  st' = next_state end_time interval w st.
Proof.
  intros Hw Hstep.
  apply iteration_return in Hstep as (_ & w' & Hw' & ->).
  congruence.
Qed.

Lemma next_state_progress (w : option (Z * Z)) (st : loop_state) :
  0 < interval -> fst st + interval <= fst (next_state end_time interval w st).
Proof.
  intros Hi. unfold next_state. destruct w as [[b1 b2]|].
  - destruct ((b1 <=? fst st) && (fst st + interval <=? b2))%bool eqn:E.
    + apply andb_prop in E as [_ E]. apply Z.leb_le in E. simpl. lia.
    + destruct (fst st + interval <=? end_time); simpl; lia.
  - destruct (fst st + interval <=? end_time); simpl; lia.
Qed.

(** More fuel never changes a finished run. *)
Lemma while_loop_more_fuel (fuel : nat) :
  forall (st : loop_state) (r : result loop_state) (fuel' : nat),
    while_loop fuel end_time break_start break_end interval st = Some r ->
    (fuel <= fuel')%nat ->
    while_loop fuel' end_time break_start break_end interval st = Some r.
Proof.
  induction fuel as [|n IH]; intros st r fuel' Hrun Hle.
  - discriminate.
  - destruct fuel' as [|n']; [lia|].
    cbn [while_loop] in *.
    destruct (fst st <? end_time); [|assumption].
    destruct (iteration end_time break_start break_end interval st);
      [|assumption].
    apply IH; [assumption | lia].
Qed.

(** With a positive interval the cursor gains at least [interval] on every
    pass, so [end_time - current_time] bounds the number of passes. *)
Lemma while_loop_finishes :
  0 < interval ->
  forall (fuel : nat) (st : loop_state),
    (0 < fuel)%nat -> end_time - fst st < Z.of_nat fuel ->
    exists r, while_loop fuel end_time break_start break_end interval st = Some r.
Proof.
  intros Hi.
  induction fuel as [|n IH]; intros st Hpos Hfuel; [lia|].
  cbn [while_loop].
  destruct (fst st <? end_time) eqn:Hlt; [|eauto].
  apply Z.ltb_lt in Hlt.
  destruct (iteration end_time break_start break_end interval st)
    as [st'|e] eqn:Hstep; [|eauto].
  apply iteration_return in Hstep as (_ & w & _ & ->).
  pose proof (next_state_progress w st Hi).
  apply IH; lia.
Qed.

(** Hoare-style rule for the loop: an invariant of the body holds at exit,
    where the loop condition is false. *)
Lemma while_loop_invariant (Inv : loop_state -> Prop) :
  (forall st st',
      Inv st -> fst st < end_time ->
      iteration end_time break_start break_end interval st = Return st' ->
      Inv st') ->
  forall (fuel : nat) (st st' : loop_state),
    Inv st ->
    while_loop fuel end_time break_start break_end interval st
    = Some (Return st') ->
    Inv st' /\ end_time <= fst st'.
Proof.
  intros Hbody.
  induction fuel as [|n IH]; intros st st' Hinv Hrun; [discriminate|].
  cbn [while_loop] in Hrun.
  destruct (fst st <? end_time) eqn:Hlt.
  - apply Z.ltb_lt in Hlt.
    destruct (iteration end_time break_start break_end interval st)
      as [st1|e] eqn:Hstep; [|discriminate].
    apply (IH st1 st'); [|assumption].
    eapply Hbody; eassumption.
  - apply Z.ltb_ge in Hlt.
    assert (st' = st) by congruence. subst st'. split; [assumption | lia].
Qed.

(** A run that does not raise: when every candidate end below
    [end_time + interval] is in range, enough fuel reaches a final state. *)
Lemma while_loop_returns (w : option (Z * Z)) :
  break_window break_start break_end = Return w ->
  0 < interval ->
  end_time + interval <= datetime_max ->
  forall (fuel : nat) (st : loop_state),
    (0 < fuel)%nat -> end_time - fst st < Z.of_nat fuel ->
    datetime_min <= fst st ->
    exists st',
      while_loop fuel end_time break_start break_end interval st
      = Some (Return st').
Proof.
  intros Hw Hi Hmax.
  induction fuel as [|n IH]; intros st Hpos Hfuel Hmin; [lia|].
  cbn [while_loop].
  destruct (fst st <? end_time) eqn:Hlt; [|eauto].
  apply Z.ltb_lt in Hlt.
  rewrite (iteration_next w st Hw)
    by (apply in_datetime_range_true; lia).
  pose proof (next_state_progress w st Hi).
  apply IH; lia.
Qed.

(** A first candidate end that is out of range ends the run at once. *)
Lemma while_loop_overflow (fuel : nat) (st : loop_state) :
  (0 < fuel)%nat ->
  fst st < end_time ->
  in_datetime_range (fst st + interval) = false ->
  while_loop fuel end_time break_start break_end interval st
  = Some (Raise OverflowError).
Proof.
  intros Hfuel Hlt Hr. destruct fuel as [|n]; [lia|].
  cbn [while_loop]. apply Z.ltb_lt in Hlt. rewrite Hlt.
  rewrite (iteration_overflow st Hr). reflexivity.
Qed.

End Loop.

(** * The slot generator *)

Lemma break_window_unconfigured (break_start break_end : option string) :
  (truthy break_start && truthy break_end)%bool = false ->
  break_window break_start break_end = Return None.
Proof.
  intros H. unfold break_window.
  destruct break_start as [bs|], break_end as [be|]; try reflexivity.
  rewrite H. reflexivity.
Qed.

Lemma generate_time_slots_run (fuel : nat) (start_time end_time : string)
  (break_start break_end : option string) (interval s e : Z)
  (final : loop_state) :
  strptime_HM start_time = Some s ->
  strptime_HM end_time = Some e ->
  while_loop fuel e break_start break_end interval (s, []) = Some (Return final) ->
  generate_time_slots fuel start_time end_time break_start break_end interval
  = Some (Return (snd final)).
Proof.
  intros Hs He Hrun. unfold generate_time_slots.
  rewrite Hs, He, Hrun. reflexivity.
Qed.

Lemma generate_time_slots_raises (fuel : nat) (start_time end_time : string)
  (break_start break_end : option string) (interval s e : Z) (x : exn) :
  strptime_HM start_time = Some s ->
  strptime_HM end_time = Some e ->
  while_loop fuel e break_start break_end interval (s, []) = Some (Raise x) ->
  generate_time_slots fuel start_time end_time break_start break_end interval
  = Some (Raise x).
Proof.
  intros Hs He Hrun. unfold generate_time_slots.
  rewrite Hs, He, Hrun. reflexivity.
Qed.

(** An interval so long that start + interval passes every time of day, yet
    is still a datetime: one pass, no slot. *)
Lemma long_interval_run
  (break_start break_end : option string) (interval s e : Z)
  (w : option (Z * Z)) (acc : list slot) :
  break_window break_start break_end = Return w ->
  0 <= s -> s < e -> e < 1440 ->
  1440 <= interval ->
  s + interval <= datetime_max ->
  forall fuel : nat,
    (1 < fuel)%nat ->
    while_loop fuel e break_start break_end interval (s, acc)
    = Some (Return (s + interval, acc)).
Proof.
  intros Hw Hs Hlt He Hlong Hmax fuel Hfuel.
  destruct fuel as [|[|n]]; [lia | lia |].
  cbn [while_loop fst].
  assert (H1 : (s <? e) = true) by (apply Z.ltb_lt; lia).
  rewrite H1.
  rewrite (iteration_next e break_start break_end interval w (s, acc) Hw)
    by (apply in_datetime_range_true; cbn [fst]; datetime_values; lia).
  assert (Hnext : next_state e interval w (s, acc) = (s + interval, acc)).
  { unfold next_state. cbn [fst snd].
    assert (H2 : (s + interval <=? e) = false) by (apply Z.leb_gt; lia).
    rewrite H2.
    destruct w as [[b1 b2]|]; [|reflexivity].
    apply break_window_range in Hw as [_ Hb2].
    assert (H3 : (s + interval <=? b2) = false) by (apply Z.leb_gt; lia).
    rewrite H3, andb_false_r. reflexivity. }
  rewrite Hnext. cbn [fst].
  assert (H4 : (s + interval <? e) = false) by (apply Z.ltb_ge; lia).
  rewrite H4. reflexivity.
Qed.

(** The run of the loop from the start time when the first candidate end is
    a datetime: one final state, reached with every sufficient amount of
    fuel. *)
Lemma while_loop_from_start
  (break_start break_end : option string) (interval s e : Z)
  (w : option (Z * Z)) :
  break_window break_start break_end = Return w ->
  0 < interval ->
  0 <= s -> e < 1440 ->
  s + interval <= datetime_max \/ e <= s ->
  exists final : loop_state,
    e <= fst final
    /\ forall fuel : nat,
        (Z.to_nat (e - s) < fuel)%nat ->
        while_loop fuel e break_start break_end interval (s, [])
        = Some (Return final).
Proof.
  intros Hw Hi Hs He Hfit.
  destruct (Z_le_gt_dec e s) as [Hle|Hlt].
  { exists (s, []). split; [exact Hle|].
    intros fuel Hfuel. destruct fuel as [|n]; [lia|].
    cbn [while_loop fst].
    assert (H : (s <? e) = false) by (apply Z.ltb_ge; lia).
    rewrite H. reflexivity. }
  assert (Hmax : s + interval <= datetime_max) by (destruct Hfit; [assumption | lia]).
  destruct (Z_lt_le_dec interval 1440) as [Hshort|Hlong].
  - destruct (while_loop_returns e break_start break_end interval w Hw Hi
                ltac:(datetime_values; lia)
                (S (Z.to_nat (e - s))) (s, []))
      as [final Hrun];
      [lia | cbn [fst]; lia | cbn [fst]; datetime_values; lia |].
    exists final. split.
    + eapply (while_loop_invariant e break_start break_end interval
                (fun _ => True)); eauto.
    + intros fuel Hfuel. eapply while_loop_more_fuel; [exact Hrun | lia].
  - exists (s + interval, []). split; [cbn [fst]; lia|].
    intros fuel Hfuel.
    apply (long_interval_run break_start break_end interval s e w);
      try assumption; lia.
Qed.

(** The run of the loop for a positive interval: what it comes to, with every
    sufficient amount of fuel. *)
Lemma while_loop_outcome
  (break_start break_end : option string) (interval s e : Z)
  (w : option (Z * Z)) :
  break_window break_start break_end = Return w ->
  0 < interval ->
  0 <= s -> e < 1440 ->
  exists r : result loop_state,
    (forall fuel : nat,
        (Z.to_nat (e - s) < fuel)%nat ->
        while_loop fuel e break_start break_end interval (s, []) = Some r)
    /\ (e <= s -> r = Return (s, []))
    /\ (s + interval <= datetime_max \/ e <= s ->
        exists final, r = Return final /\ e <= fst final)
    /\ (s < e -> datetime_max < s + interval -> r = Raise OverflowError).
Proof.
  intros Hw Hi Hs He.
  destruct (Z_le_gt_dec e s) as [Hle|Hlt].
  - exists (Return (s, [])).
    assert (Hrun : forall fuel : nat,
               (Z.to_nat (e - s) < fuel)%nat ->
               while_loop fuel e break_start break_end interval (s, [])
               = Some (Return (s, []))).
    { intros fuel Hfuel. destruct fuel as [|n]; [lia|].
      cbn [while_loop fst].
      assert (H : (s <? e) = false) by (apply Z.ltb_ge; lia).
      rewrite H. reflexivity. }
    split; [exact Hrun|]. split; [reflexivity|]. split.
    + intros _. exists (s, []). split; [reflexivity | exact Hle].
    + intros H. lia.
  - destruct (Z_le_gt_dec (s + interval) datetime_max) as [Hfit|Hover].
    + destruct (while_loop_from_start break_start break_end interval s e w
                  Hw Hi Hs He (or_introl Hfit)) as (final & Hexit & Hrun).
      exists (Return final).
      split; [exact Hrun|]. split; [intros H; lia|]. split.
      * intros _. exists final. split; [reflexivity | exact Hexit].
      * intros _ H. lia.
    + exists (Raise OverflowError).
      split; [|split; [intros H; lia|split]].
      * intros fuel Hfuel.
        apply while_loop_overflow; [lia | cbn [fst]; lia |].
        apply in_datetime_range_false. cbn [fst]. right. lia.
      * intros [H|H]; lia.
      * reflexivity.
Qed.

(** C9 (amended): for parsed start and end times, break strings that are
    absent or parse, and a positive interval, the generator terminates: one
    outcome exists that every sufficient amount of fuel ends in.  A template
    with [end <= start] yields the empty list.  When start + interval is a
    datetime, the outcome is a final loop state whose cursor has reached or
    passed the end time, and its list of slots is returned.  When start is
    before end and start + interval is past the last datetime, the outcome
    is the [OverflowError] of the first pass. *)
Theorem generate_time_slots_terminates
  (start_time end_time : string) (break_start break_end : option string)
  (interval s e : Z) (w : option (Z * Z)) :
  strptime_HM start_time = Some s ->
  strptime_HM end_time = Some e ->
  break_window break_start break_end = Return w ->
  0 < interval ->
  exists r : result loop_state,
    (forall fuel : nat,
        (Z.to_nat (e - s) < fuel)%nat ->
        while_loop fuel e break_start break_end interval (s, []) = Some r
        /\ generate_time_slots fuel start_time end_time break_start break_end
             interval
           = Some (final <- r ;; Return (snd final)))
    /\ (e <= s -> r = Return (s, []))
    /\ (s < e -> s + interval <= datetime_max ->
        exists final, r = Return final /\ e <= fst final)
    /\ (s < e -> datetime_max < s + interval -> r = Raise OverflowError).
Proof.
  intros Hs He Hw Hi.
  pose proof (strptime_HM_range _ _ Hs) as Rs.
  pose proof (strptime_HM_range _ _ He) as Re.
  destruct (while_loop_outcome break_start break_end interval s e w Hw Hi
              ltac:(lia) ltac:(lia))
    as (r & Hrun & Hempty & Hfit & Hover).
  exists r. split; [|split; [exact Hempty|split; [|exact Hover]]].
  - intros fuel Hfuel. pose proof (Hrun fuel Hfuel) as Hloop.
    split; [exact Hloop|].
    destruct r as [final|x]; cbn [bind].
    + eapply generate_time_slots_run; eassumption.
    + eapply generate_time_slots_raises; eassumption.
  - intros _ Hmax. apply Hfit. left. exact Hmax.
Qed.

Lemma generate_time_slots_terminates_witness :
  exists r : result loop_state,
    (forall fuel : nat,
        (Z.to_nat (720 - 540) < fuel)%nat ->
        while_loop fuel 720 (Some "10:30") (Some "11:00") 15 (540, [])
        = Some r
        /\ generate_time_slots fuel "09:00" "12:00" (Some "10:30")
             (Some "11:00") 15
           = Some (final <- r ;; Return (snd final)))
    /\ (720 <= 540 -> r = Return (540, []))
    /\ (540 < 720 -> 540 + 15 <= datetime_max ->
        exists final, r = Return final /\ 720 <= fst final)
    /\ (540 < 720 -> datetime_max < 540 + 15 -> r = Raise OverflowError).
Proof.
  apply (generate_time_slots_terminates "09:00" "12:00" (Some "10:30")
           (Some "11:00") 15 540 720 (Some (630, 660)));
    [reflexivity | reflexivity | reflexivity | lia].
Defined.

(** C9 fails as stated: template 09:00-12:00 without a break and the
    positive interval 5000000000.  09:00 plus that many minutes lies after
    the year 9999, so the first pass raises [OverflowError]: the loop does
    not run until the cursor passes the end time and no sequence is
    returned. *)
Lemma generate_time_slots_overflow_counterexample :
  strptime_HM "09:00" = Some 540
  /\ strptime_HM "12:00" = Some 720
  /\ 0 < 5000000000
  /\ (forall fuel : nat,
         (0 < fuel)%nat ->
         generate_time_slots fuel "09:00" "12:00" None None 5000000000
         = Some (Raise OverflowError))
  /\ forall (fuel : nat) (slots : list slot),
       generate_time_slots fuel "09:00" "12:00" None None 5000000000
       <> Some (Return slots).
Proof.
  assert (Hrun : forall fuel : nat,
             (0 < fuel)%nat ->
             generate_time_slots fuel "09:00" "12:00" None None 5000000000
             = Some (Raise OverflowError)).
  { intros fuel Hfuel. destruct fuel as [|n]; [lia|]. reflexivity. }
  repeat split; try reflexivity; try exact Hrun.
  intros fuel slots. destruct fuel as [|n]; [discriminate|].
  rewrite Hrun by lia. discriminate.
Qed.

(** C5: one pass of the loop from a cursor [cur] below the end time, which
    is a time of the day, with the break strings absent or parsed.  When the
    candidate end cur + interval is a datetime, the pass skips, leaving the
    list as it is and moving the cursor to break-end, when a break window is
    configured with break-start <= cur and cur + interval <= break-end; in
    every other case it moves the cursor to cur + interval, and appends a
    slot exactly when cur + interval <= end time: the slot with the 12-hour
    texts of the two times whose printed start and end, for times of the
    day, read back as [cur, cur + interval).  When cur + interval is no
    datetime the pass raises [OverflowError]; from a cursor of the day an
    interval that is not negative never takes it below the range, and above
    the range neither test can hold. *)
Theorem loop_pass_cases
  (fuel : nat) (end_time : Z) (break_start break_end : option string)
  (interval : Z) (w : option (Z * Z)) (cur : Z) (slots : list slot) :
  break_window break_start break_end = Return w ->
  cur < end_time ->
  0 <= end_time < 1440 ->
  let slot_end := cur + interval in
  let inside_break :=
    exists b1 b2, w = Some (b1, b2) /\ b1 <= cur /\ slot_end <= b2 in
  let pass := iteration end_time break_start break_end interval (cur, slots) in
  let continue_from st :=
    while_loop (S fuel) end_time break_start break_end interval (cur, slots)
    = while_loop fuel end_time break_start break_end interval st in
  let emitted := make_slot cur slot_end in
  (forall b1 b2,
      w = Some (b1, b2) -> b1 <= cur -> slot_end <= b2 ->
      datetime_min <= slot_end ->
      pass = Return (b2, slots) /\ continue_from (b2, slots))
  /\ (~ inside_break -> slot_end <= end_time ->
      datetime_min <= slot_end ->
      pass = Return (slot_end, (slots ++ [emitted])%list)
      /\ continue_from (slot_end, (slots ++ [emitted])%list)
      /\ (0 <= cur -> 0 <= slot_end ->
          slot_times emitted = Some (cur, slot_end))
      /\ display_start emitted = strftime_IMp_lower cur
      /\ display_end emitted = strftime_IMp_lower slot_end)
  /\ (~ inside_break -> end_time < slot_end ->
      slot_end <= datetime_max ->
      pass = Return (slot_end, slots) /\ continue_from (slot_end, slots))
  /\ (slot_end < datetime_min \/ datetime_max < slot_end ->
      pass = Raise OverflowError
      /\ while_loop (S fuel) end_time break_start break_end interval
           (cur, slots)
         = Some (Raise OverflowError))
  /\ (0 <= cur -> 0 <= interval -> datetime_min <= slot_end).
Proof.
  intros Hw Hlt Hend slot_end inside_break pass continue_from emitted.
  assert (Hunfold : forall st,
             pass = Return st -> pass = Return st /\ continue_from st).
  { intros st Hst. split; [assumption|].
    unfold continue_from. cbn [while_loop fst].
    apply Z.ltb_lt in Hlt. rewrite Hlt.
    unfold pass in Hst. rewrite Hst. reflexivity. }
  assert (Hpass : datetime_min <= slot_end <= datetime_max ->
                  pass = Return (next_state end_time interval w (cur, slots))).
  { intros Hr. apply iteration_next; [assumption|].
    apply in_datetime_range_true. exact Hr. }
  unfold next_state in Hpass. cbn [fst snd] in Hpass. fold slot_end in Hpass.
  assert (Hb2 : forall b1 b2, w = Some (b1, b2) -> b2 < 1440).
  { intros b1 b2 ->. apply break_window_range in Hw. lia. }
  split; [|split; [|split; [|split]]].
  - intros b1 b2 Hwin H1 H2 Hmin. apply Hunfold.
    pose proof (Hb2 b1 b2 Hwin). subst w.
    rewrite Hpass by (datetime_values; lia).
    apply Z.leb_le in H1, H2. rewrite H1, H2. reflexivity.
  - intros Hout Hfit Hmin.
    assert (Hret : pass = Return (slot_end, (slots ++ [emitted])%list)).
    { rewrite Hpass by (datetime_values; lia).
      apply Z.leb_le in Hfit. rewrite Hfit.
      destruct w as [[b1 b2]|]; [|reflexivity].
      destruct ((b1 <=? cur) && (slot_end <=? b2))%bool eqn:E; [|reflexivity].
      apply andb_prop in E as [E1 E2]. apply Z.leb_le in E1, E2.
      exfalso. apply Hout. exists b1, b2. auto. }
    destruct (Hunfold _ Hret) as [H1 H2].
    split; [exact H1|]. split; [exact H2|]. split; [|split; reflexivity].
    intros Hcur Hpos. apply slot_times_make_slot; lia.
  - intros Hout Hpast Hmax. apply Hunfold.
    rewrite Hpass by (datetime_values; lia).
    apply Z.leb_gt in Hpast. rewrite Hpast.
    destruct w as [[b1 b2]|]; [|reflexivity].
    destruct ((b1 <=? cur) && (slot_end <=? b2))%bool eqn:E; [|reflexivity].
    apply andb_prop in E as [E1 E2]. apply Z.leb_le in E1, E2.
    exfalso. apply Hout. exists b1, b2. auto.
  - intros Hover.
    assert (Hr : in_datetime_range (fst (cur, slots) + interval) = false)
      by (apply in_datetime_range_false; exact Hover).
    split.
    + apply iteration_overflow. exact Hr.
    + apply while_loop_overflow; [lia | exact Hlt | exact Hr].
  - intros Hcur Hi. unfold slot_end. datetime_values. lia.
Qed.

Lemma loop_pass_cases_witness :
  (iteration 720 (Some "10:30") (Some "11:00") 15 (630, [])
   = Return (660, [])
   /\ while_loop 3 720 (Some "10:30") (Some "11:00") 15 (630, [])
      = while_loop 2 720 (Some "10:30") (Some "11:00") 15 (660, []))
  /\ iteration 720 (Some "10:30") (Some "11:00") 15 (615, [])
     = Return (630, [make_slot 615 630])
  /\ slot_times (make_slot 615 630) = Some (615, 630).
Proof.
  split; [|split].
  - refine (proj1 (loop_pass_cases 2 720 (Some "10:30") (Some "11:00") 15
                     (Some (630, 660)) 630 [] _ _ _) 630 660 _ _ _ _);
      try reflexivity; try lia; apply Z.leb_le; reflexivity.
  - refine (proj1 (proj1 (proj2 (loop_pass_cases 2 720 (Some "10:30")
                                   (Some "11:00") 15 (Some (630, 660)) 615 []
                                   _ _ _)) _ _ _));
      try reflexivity; try lia.
    + intros (b1 & b2 & Hw & H1 & H2).
      assert (b1 = 630) by congruence. lia.
    + apply Z.leb_le. reflexivity.
  - refine (proj1 (proj2 (proj2 (proj1 (proj2 (loop_pass_cases 2 720
                                   (Some "10:30") (Some "11:00") 15
                                   (Some (630, 660)) 615 [] _ _ _)) _ _ _)))
              _ _);
      try reflexivity; try lia.
    + intros (b1 & b2 & Hw & H1 & H2).
      assert (b1 = 630) by congruence. lia.
    + apply Z.leb_le. reflexivity.
Defined.

(** The two generator scenarios of the specification: Monday 09:00-12:00
    with break 10:30-11:00 gives ten slots, none between 10:30 and 11:00;
    Tuesday 09:00-09:50 gives three slots, the rest being dropped. *)
Example scenario_with_break :
  generate_time_slots day_fuel "09:00" "12:00" (Some "10:30") (Some "11:00")
    default_interval
  = Some (Return (tiling 540 15 6 ++ tiling 660 15 4)%list).
Proof. vm_compute. reflexivity. Qed.

Example scenario_with_remainder :
  generate_time_slots day_fuel "09:00" "09:50" None None default_interval
  = Some (Return [make_slot 540 555; make_slot 555 570; make_slot 570 585]).
Proof. vm_compute. reflexivity. Qed.

(** ** Without a break: the slots tile the template *)

Lemma tiling_S (s interval : Z) (n : nat) :
  tiling s interval (S n)
  = make_slot s (s + interval) :: tiling (s + interval) interval n.
Proof.
  unfold tiling. cbn [seq map]. f_equal.
  - f_equal; lia.
  - rewrite <- seq_shift, map_map. apply map_ext. intros k.
    f_equal; lia.
Qed.

Lemma tiling_nth (s interval : Z) (n k : nat) :
  (k < n)%nat ->
  nth_error (tiling s interval n) k
  = Some (make_slot (s + Z.of_nat k * interval)
                    (s + Z.of_nat k * interval + interval)).
Proof.
  intros Hk. unfold tiling.
  rewrite nth_error_map, (nth_error_nth' _ O) by (rewrite length_seq; lia).
  rewrite seq_nth by lia. cbn [option_map plus]. do 2 f_equal. lia.
Qed.

Lemma no_break_run (end_time : Z) (break_start break_end : option string)
  (interval : Z) :
  break_window break_start break_end = Return None ->
  0 < interval ->
  end_time + interval <= datetime_max ->
  forall (fuel : nat) (cur : Z) (acc : list slot),
    (0 < fuel)%nat -> end_time - cur < Z.of_nat fuel ->
    datetime_min <= cur ->
    exists final_cursor,
      while_loop fuel end_time break_start break_end interval (cur, acc)
      = Some (Return
                (final_cursor,
                 (acc ++ tiling cur interval
                           (Z.to_nat ((end_time - cur) / interval)))%list)).
Proof.
  intros Hw Hi Hmax.
  induction fuel as [|n IH]; intros cur acc Hpos Hfuel Hmin; [lia|].
  cbn [while_loop fst].
  destruct (cur <? end_time) eqn:Hlt.
  - apply Z.ltb_lt in Hlt.
    rewrite (iteration_next end_time break_start break_end interval None
               (cur, acc) Hw)
      by (apply in_datetime_range_true; cbn [fst]; lia).
    unfold next_state. cbn [fst snd].
    destruct (cur + interval <=? end_time) eqn:Hfit.
    + apply Z.leb_le in Hfit.
      destruct (IH (cur + interval) (acc ++ [make_slot cur (cur + interval)])%list)
        as [c Hc]; [lia | lia | lia |].
      exists c. rewrite Hc. do 3 f_equal.
      replace (end_time - cur) with (end_time - (cur + interval) + 1 * interval)
        by lia.
      rewrite Z.div_add by lia.
      assert (0 <= (end_time - (cur + interval)) / interval)
        by (apply Z.div_pos; lia).
      rewrite Z2Nat.inj_add by lia.
      rewrite Nat.add_comm. change (Z.to_nat 1) with 1%nat. cbn [plus].
      rewrite tiling_S, <- app_assoc. reflexivity.
    + apply Z.leb_gt in Hfit.
      destruct (IH (cur + interval) acc) as [c Hc]; [lia | lia | lia |].
      exists c. rewrite Hc. do 3 f_equal.
      rewrite (Z.div_small (end_time - cur)) by lia.
      assert ((end_time - (cur + interval)) / interval < 0)
        by (apply Z.div_lt_upper_bound; lia).
      replace (Z.to_nat ((end_time - (cur + interval)) / interval)) with O
        by lia.
      reflexivity.
  - apply Z.ltb_ge in Hlt. exists cur.
    assert ((end_time - cur) / interval <= 0)
      by (apply Z.div_le_upper_bound; lia).
    replace (Z.to_nat ((end_time - cur) / interval)) with O by lia.
    unfold tiling. cbn [seq map]. rewrite app_nil_r. reflexivity.
Qed.

(** C2 (amended): for parsed times start < end, a positive interval and no
    break configured, the generator returns, when start + interval is a
    datetime, exactly floor((end - start) / interval) slots; the k-th one is
    [start + k * interval, start + (k + 1) * interval), printed so that it
    reads back as that interval, and ends at or before the end time; the
    remainder after the last slot is shorter than the interval.  When
    start + interval is past the last datetime it raises [OverflowError]. *)
Theorem no_break_slots_tile
  (start_time end_time : string) (break_start break_end : option string)
  (interval s e : Z) :
  strptime_HM start_time = Some s ->
  strptime_HM end_time = Some e ->
  s < e ->
  0 < interval ->
  (truthy break_start && truthy break_end)%bool = false ->
  let n := Z.to_nat ((e - s) / interval) in
  (s + interval <= datetime_max ->
   forall fuel : nat,
     (Z.to_nat (e - s) < fuel)%nat ->
     generate_time_slots fuel start_time end_time break_start break_end interval
     = Some (Return (tiling s interval n)))
  /\ (datetime_max < s + interval ->
      forall fuel : nat,
        (0 < fuel)%nat ->
        generate_time_slots fuel start_time end_time break_start break_end
          interval
        = Some (Raise OverflowError))
  /\ List.length (tiling s interval n) = n
  /\ (forall k : nat,
         (k < n)%nat ->
         let a := s + Z.of_nat k * interval in
         nth_error (tiling s interval n) k = Some (make_slot a (a + interval))
         /\ slot_times (make_slot a (a + interval)) = Some (a, a + interval)
         /\ a + interval <= e)
  /\ 0 <= e - (s + Z.of_nat n * interval) < interval.
Proof.
  intros Hs He Hlt Hi Hbreak n.
  apply break_window_unconfigured in Hbreak.
  pose proof (strptime_HM_range _ _ Hs) as Rs.
  pose proof (strptime_HM_range _ _ He) as Re.
  assert (Hq : 0 <= (e - s) / interval) by (apply Z.div_pos; lia).
  assert (Hn : Z.of_nat n = (e - s) / interval) by (unfold n; lia).
  pose proof (Z.mul_div_le (e - s) interval Hi) as Hfloor.
  pose proof (Z.mod_pos_bound (e - s) interval Hi) as Hmod.
  pose proof (Z.div_mod (e - s) interval ltac:(lia)) as Hdm.
  split; [|split; [|split; [|split]]].
  - intros Hmax fuel Hfuel.
    destruct (Z_lt_le_dec interval 1440) as [Hshort|Hlong].
    + destruct (no_break_run e break_start break_end interval Hbreak Hi
                  ltac:(datetime_values; lia) fuel s [])
        as [c Hc]; [lia | lia | datetime_values; lia |].
      rewrite (generate_time_slots_run _ _ _ _ _ _ _ _ _ Hs He Hc).
      reflexivity.
    + pose proof (long_interval_run break_start break_end interval s e None []
                    Hbreak ltac:(lia) Hlt ltac:(lia) Hlong Hmax fuel
                    ltac:(lia)) as Hc.
      rewrite (generate_time_slots_run _ _ _ _ _ _ _ _ _ Hs He Hc).
      cbn [snd].
      assert (Hzero : (e - s) / interval = 0) by (apply Z.div_small; lia).
      unfold n. rewrite Hzero. reflexivity.
  - intros Hover fuel Hfuel.
    apply (generate_time_slots_raises _ _ _ _ _ _ s e); [assumption..|].
    apply while_loop_overflow; [assumption | exact Hlt |].
    apply in_datetime_range_false. cbn [fst]. right. exact Hover.
  - unfold tiling. rewrite length_map, length_seq. reflexivity.
  - intros k Hk a.
    assert (Hka : a + interval <= e).
    { unfold a. assert (Z.of_nat k + 1 <= Z.of_nat n) by lia. nia. }
    assert (0 <= Z.of_nat k * interval) by nia.
    split; [|split].
    + apply tiling_nth. assumption.
    + apply slot_times_make_slot; unfold a; lia.
    + assumption.
  - rewrite Hn. lia.
Qed.

Lemma no_break_slots_tile_witness :
  (forall fuel : nat,
      (Z.to_nat (590 - 540) < fuel)%nat ->
      generate_time_slots fuel "09:00" "09:50" None None 15
      = Some (Return (tiling 540 15 (Z.to_nat ((590 - 540) / 15)))))
  /\ tiling 540 15 (Z.to_nat ((590 - 540) / 15))
     = [make_slot 540 555; make_slot 555 570; make_slot 570 585].
Proof.
  split; [|reflexivity].
  apply (proj1 (no_break_slots_tile "09:00" "09:50" None None 15 540 590
                  eq_refl eq_refl ltac:(lia) ltac:(lia) eq_refl)).
  apply Z.leb_le. reflexivity.
Defined.

(** C2 fails as stated: template 09:00-12:00 without a break and the
    positive interval 5000000000.  floor((end - start) / interval) is 0, so
    the claim promises the empty list; 09:00 plus the interval is no
    datetime and the generator raises [OverflowError] instead. *)
Lemma tiling_overflow_counterexample :
  strptime_HM "09:00" = Some 540
  /\ strptime_HM "12:00" = Some 720
  /\ 540 < 720 /\ 0 < 5000000000
  /\ tiling 540 5000000000 (Z.to_nat ((720 - 540) / 5000000000)) = []
  /\ generate_time_slots 1000 "09:00" "12:00" None None 5000000000
     = Some (Raise OverflowError)
  /\ generate_time_slots 1000 "09:00" "12:00" None None 5000000000
     <> Some (Return (tiling 540 5000000000
                        (Z.to_nat ((720 - 540) / 5000000000)))).
Proof.
  repeat split; try reflexivity. discriminate.
Qed.

(** ** With a break *)

Section Break.

Variables (interval s e b1 b2 : Z).

Lemma break_invariant_step (break_start break_end : option string)
  (st st' : loop_state) :
  break_window break_start break_end = Return (Some (b1, b2)) ->
  0 < interval ->
  break_invariant interval s e b1 b2 st ->
  fst st < e ->
  iteration e break_start break_end interval st = Return st' ->
  break_invariant interval s e b1 b2 st'.
Proof.
  intros Hw Hi (Hlow & Hall & Hgrid) Hlt Hstep.
  apply (iteration_return_window e break_start break_end interval _ st st' Hw)
    in Hstep.
  subst st'.
  destruct st as [cur sl]. unfold next_state. cbn [fst snd] in *.
  unfold break_invariant.
  destruct ((b1 <=? cur) && (cur + interval <=? b2))%bool eqn:Hskip.
  - apply andb_prop in Hskip as [H1 H2]. apply Z.leb_le in H1, H2.
    cbn [fst snd].
    split; [lia | split; [assumption | intros _; right; lia]].
  - assert (Hout : ~ (b1 <= cur /\ cur + interval <= b2)).
    { intros [H1 H2]. apply Z.leb_le in H1, H2.
      rewrite H1, H2 in Hskip. discriminate. }
    assert (Hnext : break_on_grid interval s b1 b2 ->
                    (cur + interval <= b1 /\ (interval | cur + interval - s))
                    \/ b2 <= cur).
    { intros G. destruct (Hgrid G) as [[Hle Hdiv]|Hge]; [|right; assumption].
      left. destruct G as [Gdiv Glen].
      assert (cur <> b1) by (intros ->; apply Hout; lia).
      assert (Hd : (interval | b1 - cur)).
      { replace (b1 - cur) with ((b1 - s) - (cur - s)) by lia.
        apply Z.divide_sub_r; assumption. }
      apply Z.divide_pos_le in Hd; [|lia].
      split; [lia|].
      replace (cur + interval - s) with ((cur - s) + interval) by lia.
      apply Z.divide_add_r; [assumption | apply Z.divide_refl]. }
    assert (Hcursor : break_on_grid interval s b1 b2 ->
                      (cur + interval <= b1 /\ (interval | cur + interval - s))
                      \/ b2 <= cur + interval).
    { intros G. destruct (Hnext G) as [?|?]; [left; assumption | right; lia]. }
    destruct (cur + interval <=? e) eqn:Hfit; cbn [fst snd].
    + apply Z.leb_le in Hfit.
      split; [lia | split; [|assumption]].
      apply Forall_app. split; [assumption|].
      constructor; [|constructor].
      exists cur.
      split; [reflexivity|]. split; [assumption|]. split; [assumption|].
      split; [assumption|].
      intros G. destruct (Hnext G) as [[? _]|?]; [left | right]; assumption.
    + split; [lia | split; assumption].
Qed.

End Break.

(** C1 (amended): for parsed start and end times, a parsed break window
    [b1, b2) with start <= b1 and a positive interval, the generator comes
    to one outcome: it returns when start + interval is a datetime (or end
    is not after start), and raises [OverflowError], returning no slot,
    otherwise.  No returned slot lies wholly inside the break window
    (starting at or after break-start and ending at or before break-end).
    When moreover break-start lies on the slot grid (b1 - start is a
    multiple of the interval) and the break lasts at least one interval,
    no returned slot overlaps [b1, b2): each ends at or before break-start
    or starts at or after break-end. *)
Theorem break_window_exclusion
  (start_time end_time : string) (break_start break_end : option string)
  (interval s e b1 b2 : Z) :
  strptime_HM start_time = Some s ->
  strptime_HM end_time = Some e ->
  break_window break_start break_end = Return (Some (b1, b2)) ->
  0 < interval ->
  s <= b1 ->
  exists r : result (list slot),
    (forall fuel : nat,
        (Z.to_nat (e - s) < fuel)%nat ->
        generate_time_slots fuel start_time end_time break_start break_end
          interval
        = Some r)
    /\ (s + interval <= datetime_max \/ e <= s -> exists slots, r = Return slots)
    /\ (s < e -> datetime_max < s + interval -> r = Raise OverflowError)
    /\ forall slots : list slot,
        r = Return slots ->
        forall sl : slot,
          In sl slots ->
          exists a b,
            slot_times sl = Some (a, b)
            /\ b = a + interval
            /\ ~ (b1 <= a /\ b <= b2)
            /\ ((interval | b1 - s) -> interval <= b2 - b1 ->
                b <= b1 \/ b2 <= a).
Proof.
  intros Hs He Hw Hi Hb.
  pose proof (strptime_HM_range _ _ Hs) as Rs.
  pose proof (strptime_HM_range _ _ He) as Re.
  destruct (while_loop_outcome break_start break_end interval s e _ Hw Hi
              ltac:(lia) ltac:(lia))
    as (r & Hrun & _ & Hfit & Hover).
  exists (final <- r ;; Return (snd final)).
  split; [|split; [|split]].
  - intros fuel Hfuel. pose proof (Hrun fuel Hfuel) as Hloop.
    destruct r as [final|x]; cbn [bind].
    + eapply generate_time_slots_run; eassumption.
    + eapply generate_time_slots_raises; eassumption.
  - intros H. destruct (Hfit H) as (final & -> & _).
    exists (snd final). reflexivity.
  - intros Hlt H. rewrite (Hover Hlt H). reflexivity.
  - intros slots Hr.
    destruct r as [final|x]; cbn [bind] in Hr; [|discriminate].
    assert (slots = snd final) by congruence. subst slots.
    pose proof (Hrun (S (Z.to_nat (e - s))) ltac:(lia)) as Hloop.
    apply (while_loop_invariant e break_start break_end interval
             (break_invariant interval s e b1 b2)) in Hloop.
    + destruct Hloop as [(_ & Hall & _) _].
      rewrite Forall_forall in Hall.
      intros sl Hin. destruct (Hall sl Hin) as (a & -> & Ha & Hae & Hout & Hg).
      exists a, (a + interval).
      split; [apply slot_times_make_slot; lia|].
      split; [reflexivity|]. split; [assumption|].
      intros Hdiv Hlen. apply Hg. split; assumption.
    + intros st st'. apply break_invariant_step; assumption.
    + unfold break_invariant. cbn [fst snd].
      split; [lia | split; [constructor|]].
      intros _. left. split; [assumption|].
      replace (s - s) with 0 by lia. apply Z.divide_0_r.
Qed.

Lemma break_window_exclusion_witness :
  exists r : result (list slot),
    (forall fuel : nat,
        (Z.to_nat (720 - 540) < fuel)%nat ->
        generate_time_slots fuel "09:00" "12:00" (Some "10:30") (Some "11:00")
          15
        = Some r)
    /\ (540 + 15 <= datetime_max \/ 720 <= 540 -> exists slots, r = Return slots)
    /\ (540 < 720 -> datetime_max < 540 + 15 -> r = Raise OverflowError)
    /\ forall slots : list slot,
        r = Return slots ->
        forall sl : slot,
          In sl slots ->
          exists a b,
            slot_times sl = Some (a, b)
            /\ b = a + 15
            /\ ~ (630 <= a /\ b <= 660)
            /\ ((15 | 630 - 540) -> 15 <= 660 - 630 -> b <= 630 \/ 660 <= a).
Proof.
  apply (break_window_exclusion "09:00" "12:00" (Some "10:30") (Some "11:00")
           15 540 720 630 660);
    [reflexivity | reflexivity | reflexivity | lia | lia].
Defined.

(** C1 fails as stated: template 09:00-12:00 with break 10:20-11:00, which
    lies inside the template, and the default interval.  The slot
    10:15-10:30 starts before the break, so the skip test does not fire,
    and it is returned although it overlaps the break. *)
Lemma break_overlap_counterexample :
  strptime_HM "09:00" = Some 540
  /\ strptime_HM "12:00" = Some 720
  /\ break_window (Some "10:20") (Some "11:00") = Return (Some (620, 660))
  /\ 540 <= 620 < 660 /\ 660 <= 720
  /\ exists slots : list slot,
      generate_time_slots 200 "09:00" "12:00" (Some "10:20") (Some "11:00")
        default_interval
      = Some (Return slots)
      /\ In (make_slot 615 630) slots
      /\ slot_times (make_slot 615 630) = Some (615, 630)
      /\ ~ (630 <= 620 \/ 660 <= 615).
Proof.
  repeat split; try reflexivity; try lia.
  eexists. split; [vm_compute; reflexivity|].
  split; [|split].
  - do 5 right. left. reflexivity.
  - reflexivity.
  - lia.
Qed.

(** * The availability resolver *)

(** The generator run of the resolver never lacks fuel: the times of a
    template lie within one day and the interval is 15 minutes. *)
Lemma generate_default_total
  (start_time' end_time' : string) (break_start' break_end' : option string) :
  generate_time_slots day_fuel start_time' end_time' break_start' break_end'
    default_interval <> None.
Proof.
  unfold generate_time_slots.
  destruct (strptime_HM start_time') as [s|] eqn:Hs; [|discriminate].
  destruct (strptime_HM end_time') as [e|] eqn:He; [|discriminate].
  apply strptime_HM_range in Hs, He.
  destruct (while_loop_finishes e break_start' break_end' default_interval
              ltac:(reflexivity) day_fuel (s, []))
    as [r Hr]; [unfold day_fuel; lia | unfold day_fuel; cbn [fst]; lia |].
  rewrite Hr. destruct r; discriminate.
Qed.


(** An id that cannot be bound fails the first query of the resolver. *)
Lemma get_doctor_slots_unbindable (db : database) (s : session)
  (u : user_session) (doctor_id' : Z) (date' : string) (d : date) :
  logged_in_as "admin" s = Some u ->
  strptime_Ymd date' = Some d ->
  sqlite_integer doctor_id' = false ->
  get_doctor_slots db s doctor_id' date'
  = Some (Jsonify (JError "Server error") 500).
Proof.
  intros Hadmin Hdate Hid. unfold get_doctor_slots.
  rewrite Hadmin, Hdate, Hid. reflexivity.
Qed.

Lemma template_matches_true (doctor_id' : Z) (day' : string) (hospital : Z)
  (r : doctor_slot) :
  template_matches doctor_id' day' hospital r = true
  <-> slot_doctor_id r = doctor_id' /\ day r = day'
      /\ slot_hospital_id r = hospital.
Proof.
  unfold template_matches.
  rewrite !andb_true_iff, !Z.eqb_eq, String.eqb_eq. tauto.
Qed.

(** C6 (amended): for a logged-in admin, a date that parses and a doctor id
    that SQLite can bind, the doctor has no template for the date's weekday
    and the admin's tenant exactly when the resolver answers with the "not
    available" message, status 200; that answer never carries a slot list
    and differs from the validation and server errors.  For an id that
    cannot be bound the answer is "Server error", status 500, whether a
    template exists or not. *)
Theorem no_template_not_available
  (db : database) (s : session) (u : user_session) (doctor_id' : Z)
  (date' : string) (d : date) :
  logged_in_as "admin" s = Some u ->
  strptime_Ymd date' = Some d ->
  let not_available := Jsonify (JError "Doctor not available on this day") 200 in
  (sqlite_integer doctor_id' = true ->
   ((forall r : doctor_slot,
        In r (doctor_slots db) ->
        ~ (slot_doctor_id r = doctor_id' /\ day r = strftime_A d
           /\ slot_hospital_id r = session_hospital_id u))
    <-> get_doctor_slots db s doctor_id' date' = Some not_available))
  /\ (sqlite_integer doctor_id' = false ->
      get_doctor_slots db s doctor_id' date'
      = Some (Jsonify (JError "Server error") 500))
  /\ (forall slots booked code, not_available <> Jsonify (JSlots slots booked) code)
  /\ not_available <> Jsonify (JError "Invalid date format") 400
  /\ not_available <> Jsonify (JError "Server error") 500.
Proof.
  intros Hadmin Hdate not_available.
  split; [|split; [|repeat split; discriminate]].
  - intros Hid. unfold get_doctor_slots. rewrite Hadmin, Hdate, Hid.
    cbn [negb].
    destruct (find _ (doctor_slots db)) as [info|] eqn:Hfind.
    + apply find_some in Hfind as [Hin Hm].
      apply template_matches_true in Hm.
      split.
      * intros Hnone. exfalso. exact (Hnone info Hin Hm).
      * intros Hresp. exfalso.
        pose proof (generate_default_total (start_time info) (end_time info)
                      (break_start info) (break_end info)) as Hgen.
        destruct (generate_time_slots _ _ _ _ _ _) as [[slots|e]|];
          [discriminate | discriminate | contradiction].
    + split; [reflexivity|].
      intros _ r Hin Hm.
      apply template_matches_true in Hm.
      pose proof (find_none _ _ Hfind r Hin) as Hr. congruence.
  - intros Hid. eapply get_doctor_slots_unbindable; eassumption.
Qed.

Lemma no_template_not_available_witness :
  get_doctor_slots clinic admin1 1 "2024-01-03"
  = Some (Jsonify (JError "Doctor not available on this day") 200).
Proof.
  refine (proj1
            (proj1 (no_template_not_available clinic admin1
                      {| user_id := 1; user_type := "admin";
                         session_hospital_id := 1 |}
                      1 "2024-01-03"
                      {| year := 2024; month := 1; day_of_month := 3 |}
                      _ _) _) _);
    [reflexivity | reflexivity | reflexivity |].
  intros r [Hr|[]] (_ & Hday & _). subst r. discriminate.
Defined.

(** C6 fails as stated: the doctor id 2^63, which the route accepts, has no
    template on any weekday, yet the query of the admin for Friday
    2024-01-05 is answered with status 500, "Server error", and not with
    "not available": the id does not fit SQLite's INTEGER and the lookup
    raises. *)
Lemma unbindable_doctor_counterexample :
  strptime_Ymd "2024-01-05"
  = Some {| year := 2024; month := 1; day_of_month := 5 |}
  /\ (forall r : doctor_slot,
         In r (doctor_slots clinic) -> slot_doctor_id r <> unbindable_id)
  /\ get_doctor_slots clinic admin1 unbindable_id "2024-01-05"
     = Some (Jsonify (JError "Server error") 500)
  /\ get_doctor_slots clinic admin1 unbindable_id "2024-01-05"
     <> Some (Jsonify (JError "Doctor not available on this day") 200).
Proof.
  split; [reflexivity|]. split; [|split].
  - intros r [<-|[]]. discriminate.
  - reflexivity.
  - discriminate.
Qed.

(** ** The date texts that the resolver accepts *)








(** * The booking ledger *)

Lemma booked_matches_true (doctor_id' : Z) (date' : string) (hospital : Z)
  (a : appointment) :
  booked_matches doctor_id' date' hospital a = true
  <-> doctor_id a = doctor_id' /\ date_ a = date'
      /\ hospital_id a = hospital /\ status a <> "Cancelled".
Proof.
  unfold booked_matches.
  rewrite !andb_true_iff, negb_true_iff, !Z.eqb_eq, String.eqb_eq, String.eqb_neq.
  tauto.
Qed.

Lemma filter_filter_implied {A : Type} (f g : A -> bool) (l : list A) :
  (forall x, f x = true -> g x = true) ->
  filter f (filter g l) = filter f l.
Proof.
  intros Hfg. induction l as [|x l IH]; [reflexivity|].
  cbn [filter]. destruct (g x) eqn:Hg; cbn [filter].
  - rewrite IH. reflexivity.
  - destruct (f x) eqn:Hf; [|exact IH].
    apply Hfg in Hf. congruence.
Qed.

Lemma filter_map_fixed {A : Type} (f : A -> bool) (m : A -> A) (l : list A) :
  (forall x, f (m x) = f x) ->
  (forall x, f x = true -> m x = x) ->
  filter f (map m l) = filter f l.
Proof.
  intros Hsame Hfix. induction l as [|x l IH]; [reflexivity|].
  cbn [map filter]. rewrite Hsame, IH.
  destruct (f x) eqn:Hf; [|reflexivity].
  rewrite (Hfix x Hf). reflexivity.
Qed.

(** The booked list of a successful answer is read off the ledger. *)
Lemma get_doctor_slots_booked (db : database) (s : session) (u : user_session)
  (doctor_id' : Z) (date' : string) (slots : list slot) (booked : list string)
  (code : Z) :
  logged_in_as "admin" s = Some u ->
  get_doctor_slots db s doctor_id' date' = Some (Jsonify (JSlots slots booked) code) ->
  booked = map time_slot
             (filter (booked_matches doctor_id' date' (session_hospital_id u))
                (appointments db))
  /\ code = 200.
Proof.
  intros Hadmin. unfold get_doctor_slots. rewrite Hadmin.
  destruct (strptime_Ymd date'); [|discriminate].
  destruct (negb (sqlite_integer doctor_id')); [discriminate|].
  destruct (find _ (doctor_slots db)) as [info|]; [|discriminate].
  destruct (generate_time_slots _ _ _ _ _ _) as [[l|e]|]; try discriminate.
  intros H. injection H as _ Hb Hc. auto.
Qed.

(** A slot list is only returned for an id that SQLite can bind. *)
Lemma get_doctor_slots_bindable (db : database) (s : session)
  (doctor_id' : Z) (date' : string) (slots : list slot) (booked : list string)
  (code : Z) :
  get_doctor_slots db s doctor_id' date' = Some (Jsonify (JSlots slots booked) code) ->
  sqlite_integer doctor_id' = true.
Proof.
  unfold get_doctor_slots.
  destruct (logged_in_as "admin" s); [|discriminate].
  destruct (strptime_Ymd date'); [|discriminate].
  destruct (sqlite_integer doctor_id'); [reflexivity | discriminate].
Qed.

(** A row of a SQLite table never carries an id that cannot be bound. *)
Lemma unbindable_id_absent (appointment_id : Z) (rows : list appointment)
  (a : appointment) :
  Forall (fun a => sqlite_integer (id a) = true) rows ->
  sqlite_integer appointment_id = false ->
  In a rows -> id a <> appointment_id.
Proof.
  intros Hall Hid Hin Heq. rewrite Forall_forall in Hall.
  specialize (Hall a Hin). cbn beta in Hall. congruence.
Qed.

(** A template whose generator run returns makes the answer a slot list. *)
Lemma get_doctor_slots_available (db : database) (s : session)
  (u : user_session) (doctor_id' : Z) (date' : string) (d : date)
  (info : doctor_slot) (slots : list slot) :
  logged_in_as "admin" s = Some u ->
  strptime_Ymd date' = Some d ->
  sqlite_integer doctor_id' = true ->
  find (template_matches doctor_id' (strftime_A d) (session_hospital_id u))
    (doctor_slots db) = Some info ->
  generate_time_slots day_fuel (start_time info) (end_time info)
    (break_start info) (break_end info) default_interval
  = Some (Return slots) ->
  get_doctor_slots db s doctor_id' date'
  = Some (Jsonify
            (JSlots slots
               (map time_slot
                  (filter (booked_matches doctor_id' date' (session_hospital_id u))
                     (appointments db))))
            200).
Proof.
  intros Hadmin Hdate Hid Hfind Hgen. unfold get_doctor_slots.
  rewrite Hadmin, Hdate, Hid, Hfind, Hgen. reflexivity.
Qed.

Lemma in_booked_list (doctor_id' : Z) (date' : string) (hospital : Z)
  (keep : appointment -> bool) (rows : list appointment) (t : string) :
  In t (map time_slot
          (filter (fun a => booked_matches doctor_id' date' hospital a && keep a)
             rows))
  <-> exists a,
        In a rows /\ keep a = true
        /\ doctor_id a = doctor_id' /\ date_ a = date'
        /\ hospital_id a = hospital /\ status a <> "Cancelled"
        /\ time_slot a = t.
Proof.
  rewrite in_map_iff. split.
  - intros (a & Ht & Hin). apply filter_In in Hin as [Hin Hm].
    apply andb_true_iff in Hm as [Hm Hk].
    apply booked_matches_true in Hm. exists a. tauto.
  - intros (a & Hin & Hk & Hd & Hdate & Hh & Hs & Ht).
    exists a. split; [assumption|]. apply filter_In. split; [assumption|].
    apply andb_true_iff. split; [|assumption].
    apply booked_matches_true. tauto.
Qed.

(** The ledger rows that still count as booked after the doctor of the
    session has set appointment [appointment_id] to "Cancelled". *)
Lemma booked_after_cancel (doctor_id' : Z) (date' : string)
  (u : user_session) (appointment_id : Z) (rows : list appointment) :
  user_id u = doctor_id' ->
  filter (booked_matches doctor_id' date' (session_hospital_id u))
    (map (fun a => if status_target appointment_id u a
                   then set_status "Cancelled" a else a) rows)
  = filter (fun a => booked_matches doctor_id' date' (session_hospital_id u) a
                     && negb (id a =? appointment_id)) rows.
Proof.
  intros Hdoc. induction rows as [|a rows IH]; [reflexivity|].
  cbn [map filter]. rewrite IH. clear IH.
  unfold status_target.
  destruct (id a =? appointment_id) eqn:Hid; cbn [andb negb].
  - destruct (booked_matches doctor_id' date' (session_hospital_id u) a) eqn:Hm.
    + apply booked_matches_true in Hm as (Hd & _ & Hh & _).
      rewrite Hd, Hh, <- Hdoc, !Z.eqb_refl. cbn [andb].
      unfold booked_matches, set_status. cbn [status doctor_id date_ hospital_id].
      rewrite andb_false_r. reflexivity.
    + cbn [andb].
      destruct ((doctor_id a =? user_id u)
                && (hospital_id a =? session_hospital_id u))%bool;
        [|rewrite Hm; reflexivity].
      unfold booked_matches, set_status. cbn [status doctor_id date_ hospital_id].
      rewrite andb_false_r. reflexivity.
  - rewrite andb_true_r. reflexivity.
Qed.

(** C4 (amended): in every answer of the resolver that carries a booked
    list, the list holds exactly the time-slot strings of the appointments of
    that doctor, date and tenant whose status is not "Cancelled".  After the
    doctor has set appointment [appointment_id] to "Cancelled", the booked
    list of that doctor and date holds exactly the time-slot strings of the
    other non-cancelled appointments: the cancelled appointment's slot is
    still listed exactly when another non-cancelled appointment of the same
    doctor, date and tenant holds the same slot; this holds for every id
    that the doctor submits, the ids of the table being SQLite's. *)
Theorem booked_set_exact
  (db : database) (s : session) (u : user_session) (doctor_id' : Z)
  (date' : string) :
  logged_in_as "admin" s = Some u ->
  let h := session_hospital_id u in
  (forall slots booked code,
      get_doctor_slots db s doctor_id' date'
      = Some (Jsonify (JSlots slots booked) code) ->
      forall t : string,
        In t booked
        <-> exists a,
              In a (appointments db)
              /\ doctor_id a = doctor_id' /\ date_ a = date'
              /\ hospital_id a = h /\ status a <> "Cancelled"
              /\ time_slot a = t)
  /\ (forall (sd : session) (ud : user_session) (req : request)
        (appointment_id : Z),
         logged_in_as "doctor" sd = Some ud ->
         user_id ud = doctor_id' ->
         session_hospital_id ud = h ->
         strip (form_get (form req) "status") = "Cancelled" ->
         sqlite_rows db ->
         let db' :=
           db_after (update_appointment_status db sd req appointment_id) in
         forall slots booked code,
           get_doctor_slots db' s doctor_id' date'
           = Some (Jsonify (JSlots slots booked) code) ->
           forall t : string,
             In t booked
             <-> exists a,
                   In a (appointments db)
                   /\ id a <> appointment_id
                   /\ doctor_id a = doctor_id' /\ date_ a = date'
                   /\ hospital_id a = h /\ status a <> "Cancelled"
                   /\ time_slot a = t).
Proof.
  intros Hadmin h. split.
  - intros slots booked code Hresp t.
    apply (get_doctor_slots_booked _ _ u) in Hresp as [-> _]; [|assumption].
    rewrite in_map_iff. split.
    + intros (a & Ht & Hin). apply filter_In in Hin as [Hin Hm].
      apply booked_matches_true in Hm. exists a. tauto.
    + intros (a & Hin & Hd & Hdate & Hh & Hs & Ht).
      exists a. split; [assumption|]. apply filter_In. split; [assumption|].
      apply booked_matches_true. tauto.
  - intros sd ud req appointment_id Hdoc Huser Hhosp Hstatus [_ Hrows] db'
      slots booked code Hresp t.
    apply (get_doctor_slots_booked _ _ u) in Hresp as [-> _]; [|assumption].
    unfold db', update_appointment_status.
    rewrite Hdoc, Hstatus.
    change (String.eqb "Cancelled" "") with false. cbv iota.
    destruct (sqlite_integer appointment_id) eqn:Hid; cbn [negb db_after].
    + cbn [with_appointments appointments].
      fold h. rewrite <- Hhosp.
      rewrite booked_after_cancel by assumption.
      rewrite in_booked_list. rewrite Hhosp.
      split; intros (a & Hin & Hk & Hrest); exists a.
      * apply negb_true_iff, Z.eqb_neq in Hk. tauto.
      * apply Z.eqb_neq, negb_true_iff in Hk. tauto.
    + rewrite in_map_iff. split.
      * intros (a & Ht & Hin). apply filter_In in Hin as [Hin Hm].
        apply booked_matches_true in Hm. exists a.
        pose proof (unbindable_id_absent appointment_id _ a Hrows Hid Hin).
        tauto.
      * intros (a & Hin & _ & Hd & Hdate & Hh & Hs & Ht).
        exists a. split; [assumption|]. apply filter_In. split; [assumption|].
        apply booked_matches_true. tauto.
Qed.

Lemma booked_set_exact_witness :
  In "09:00" []
  <-> exists a,
        In a (appointments booked_once)
        /\ id a <> 1
        /\ doctor_id a = 1 /\ date_ a = "2024-01-05"
        /\ hospital_id a = 1 /\ status a <> "Cancelled"
        /\ time_slot a = "09:00".
Proof.
  refine (proj2
            (booked_set_exact booked_once admin1
               {| user_id := 1; user_type := "admin"; session_hospital_id := 1 |}
               1 "2024-01-05" _)
            doctor1
            {| user_id := 1; user_type := "doctor"; session_hospital_id := 1 |}
            cancel_request 1 _ _ _ _ _
            [make_slot 540 555; make_slot 555 570; make_slot 570 585;
             make_slot 585 600]
            [] 200 _ "09:00");
    try reflexivity.
  split; repeat constructor.
Defined.

(** C4 fails as stated: the same booking is submitted twice, then the
    doctor cancels the first appointment; its slot 09:00 is still in the
    booked list, held by the second appointment. *)
Lemma cancel_keeps_slot_counterexample :
  let db' :=
    db_after (update_appointment_status booked_twice doctor1 cancel_request 1) in
  map (fun a => (id a, doctor_id a, date_ a, time_slot a, status a))
    (appointments db')
  = [(1, 1, "2024-01-05", "09:00", "Cancelled");
     (2, 1, "2024-01-05", "09:00", "Scheduled")]
  /\ get_doctor_slots db' admin1 1 "2024-01-05"
     = Some (Jsonify
               (JSlots [make_slot 540 555; make_slot 555 570;
                        make_slot 570 585; make_slot 585 600]
                  ["09:00"])
               200).
Proof. split; vm_compute; reflexivity. Qed.

(** ** The write path *)

Lemma occupies_true (d : Z) (date' time_slot' : string) (h : Z)
  (a : appointment) :
  occupies d date' time_slot' h a = true
  <-> doctor_id a = d /\ date_ a = date' /\ time_slot a = time_slot'
      /\ hospital_id a = h /\ status a <> "Cancelled".
Proof.
  unfold occupies.
  rewrite andb_true_iff, booked_matches_true, String.eqb_eq. tauto.
Qed.

(** C3 (amended): a booking submitted by a logged-in admin with the required
    fields present and with an existing patient, doctor and tenant succeeds
    whatever the ledger holds: it appends one "Scheduled" appointment with
    the submitted doctor, date and slot and the admin's tenant, so the slot
    then holds one more non-cancelled appointment than before, also when it
    was occupied already.  The outcome does not depend on the ledger. *)
Theorem booking_never_conflicts
  (integer_affinity : string -> option Z) (db : database) (s : session)
  (u : user_session) (req : request) (p d : Z) :
  logged_in_as "admin" s = Some u ->
  method req = "POST" ->
  let patient_id' := strip (form_get (form req) "patient_id") in
  let doctor_id' := strip (form_get (form req) "doctor_id") in
  let date' := strip (form_get (form req) "date") in
  let time_slot' := strip (form_get (form req) "time_slot") in
  let notes' := strip (form_get (form req) "notes") in
  let h := session_hospital_id u in
  all_truthy [patient_id'; doctor_id'; date'; time_slot'] = true ->
  integer_affinity patient_id' = Some p ->
  integer_affinity doctor_id' = Some d ->
  mem p (patients db) = true ->
  existsb (fun r => doctor_key r =? d) (doctors db) = true ->
  mem h (staff db) = true ->
  let out := schedule_appointment integer_affinity db s req in
  flashed out = [("Appointment scheduled successfully!", "success")]
  /\ reply out = Redirect "view_appointments"
  /\ appointments (db_after out)
     = (appointments db ++
        [{| id := appointments_seq db + 1; patient_id := p; doctor_id := d;
            date_ := date'; time_slot := time_slot'; status := "Scheduled";
            notes := notes'; hospital_id := h |}])%list
  /\ List.length (filter (occupies d date' time_slot' h)
                    (appointments (db_after out)))
     = S (List.length (filter (occupies d date' time_slot' h)
                         (appointments db)))
  /\ forall rows : list appointment,
      let out' :=
        schedule_appointment integer_affinity (with_appointments db rows) s req in
      flashed out' = flashed out /\ reply out' = reply out.
Proof.
  intros Hadmin Hpost patient_id' doctor_id' date' time_slot' notes' h
    Hfields Hp Hd Hpat Hdoc Hstaff out.
  assert (Hout : forall rows,
             schedule_appointment integer_affinity (with_appointments db rows) s req
             = {| db_after :=
                    {| staff := staff db; doctors := doctors db;
                       patients := patients db;
                       appointments :=
                         (rows ++
                          [{| id := appointments_seq db + 1; patient_id := p;
                              doctor_id := d; date_ := date';
                              time_slot := time_slot'; status := "Scheduled";
                              notes := notes'; hospital_id := h |}])%list;
                       appointments_seq := appointments_seq db + 1;
                       doctor_slots := doctor_slots db;
                       doctor_slots_seq := doctor_slots_seq db |};
                  flashed := [("Appointment scheduled successfully!", "success")];
                  reply := Redirect "view_appointments" |}).
  { intros rows. unfold schedule_appointment.
    rewrite Hadmin, Hpost. cbn [String.eqb Ascii.eqb Bool.eqb].
    fold patient_id' doctor_id' date' time_slot' notes'.
    rewrite Hfields. cbn [negb].
    unfold insert_appointment.
    rewrite Hp, Hd. cbn [with_appointments patients doctors staff].
    fold h. rewrite Hpat, Hdoc, Hstaff. reflexivity. }
  assert (Hdb : with_appointments db (appointments db) = db)
    by (destruct db; reflexivity).
  pose proof (Hout (appointments db)) as Hthis. rewrite Hdb in Hthis.
  fold out in Hthis.
  rewrite Hthis. cbn [flashed reply db_after appointments].
  split; [reflexivity|]. split; [reflexivity|]. split; [reflexivity|].
  split.
  - rewrite filter_app, length_app. cbn [filter].
    assert (Hnew : occupies d date' time_slot' h
                     {| id := appointments_seq db + 1; patient_id := p;
                        doctor_id := d; date_ := date'; time_slot := time_slot';
                        status := "Scheduled"; notes := notes';
                        hospital_id := h |} = true).
    { apply occupies_true. cbn. repeat split; try reflexivity. discriminate. }
    rewrite Hnew. cbn [List.length]. lia.
  - intros rows. cbv zeta. rewrite Hout. split; reflexivity.
Qed.

Lemma booking_never_conflicts_witness :
  flashed (schedule_appointment decimal_affinity booked_once admin1
             booking_request)
  = [("Appointment scheduled successfully!", "success")].
Proof.
  refine (proj1
            (booking_never_conflicts decimal_affinity booked_once admin1
               {| user_id := 1; user_type := "admin"; session_hospital_id := 1 |}
               booking_request 1 1 _ _ _ _ _ _ _ _));
    reflexivity.
Defined.

(** C3 fails as stated: slot 09:00 of doctor 1 on 2024-01-05 is held by a
    "Scheduled" appointment; the same booking submitted again is accepted
    and the slot holds two non-cancelled appointments. *)
Lemma double_booking_counterexample :
  map (fun a => (id a, status a))
    (filter (occupies 1 "2024-01-05" "09:00" 1) (appointments booked_once))
  = [(1, "Scheduled")]
  /\ flashed (schedule_appointment decimal_affinity booked_once admin1
                booking_request)
     = [("Appointment scheduled successfully!", "success")]
  /\ reply (schedule_appointment decimal_affinity booked_once admin1
              booking_request)
     = Redirect "view_appointments"
  /\ map (fun a => (id a, status a))
       (filter (occupies 1 "2024-01-05" "09:00" 1) (appointments booked_twice))
     = [(1, "Scheduled"); (2, "Scheduled")].
Proof. repeat split; vm_compute; reflexivity. Qed.

(** * The schedule template store *)

Lemma replace_template_rows (db : database) (doctor_id' : Z)
  (day' start_time' end_time' : string) (break_start' break_end' : option string)
  (hospital : Z) (db' : database) :
  replace_template db doctor_id' day' start_time' end_time' break_start'
    break_end' hospital = Return db' ->
  doctor_slots db'
  = (filter (fun r => negb (template_matches doctor_id' day' hospital r))
       (doctor_slots db)
     ++ [{| slot_id := doctor_slots_seq db + 1; slot_doctor_id := doctor_id';
            day := day'; start_time := start_time'; end_time := end_time';
            break_start := break_start'; break_end := break_end';
            slot_hospital_id := hospital |}])%list.
Proof.
  unfold replace_template.
  destruct (existsb _ (doctors db) && mem hospital (staff db))%bool;
    [|discriminate].
  intros H. injection H as <-. reflexivity.
Qed.

(** The rows under one key after a replacement under a key. *)
Lemma filter_after_replace (key key' : doctor_slot -> bool)
  (new : doctor_slot) (rows : list doctor_slot) :
  key new = true ->
  (key' new = true -> forall r, key' r = key r) ->
  (key' new = false -> forall r, key' r = true -> key r = false) ->
  filter key' (filter (fun r => negb (key r)) rows ++ [new])%list
  = if key' new then [new] else filter key' rows.
Proof.
  intros Hnew Hsame Hother. rewrite filter_app. cbn [filter].
  destruct (key' new) eqn:Hk.
  - assert (Hnone : filter key' (filter (fun r => negb (key r)) rows) = []).
    { induction rows as [|r rows IH]; [reflexivity|].
      cbn [filter]. destruct (key r) eqn:Hr; cbn [negb filter]; [exact IH|].
      rewrite (Hsame eq_refl r), Hr. exact IH. }
    rewrite Hnone. reflexivity.
  - rewrite app_nil_r. apply filter_filter_implied.
    intros r Hr. rewrite (Hother eq_refl r Hr). reflexivity.
Qed.

Lemma replace_template_filter (db : database) (doctor_id' : Z)
  (day' start_time' end_time' : string) (break_start' break_end' : option string)
  (hospital : Z) (db' : database) (d : Z) (dy : string) (h : Z) :
  replace_template db doctor_id' day' start_time' end_time' break_start'
    break_end' hospital = Return db' ->
  let new := {| slot_id := doctor_slots_seq db + 1; slot_doctor_id := doctor_id';
                day := day'; start_time := start_time'; end_time := end_time';
                break_start := break_start'; break_end := break_end';
                slot_hospital_id := hospital |} in
  filter (template_matches d dy h) (doctor_slots db')
  = if template_matches d dy h new then [new]
    else filter (template_matches d dy h) (doctor_slots db).
Proof.
  intros Hrep new. rewrite (replace_template_rows _ _ _ _ _ _ _ _ _ Hrep).
  fold new.
  apply (filter_after_replace (template_matches doctor_id' day' hospital)).
  - apply template_matches_true. repeat split.
  - intros Hk r. apply template_matches_true in Hk as (Hd & Hday & Hh).
    cbn in Hd, Hday, Hh. subst. reflexivity.
  - intros Hk r Hr.
    destruct (template_matches doctor_id' day' hospital r) eqn:Hr'; [|reflexivity].
    apply template_matches_true in Hr as (Hd & Hday & Hh).
    apply template_matches_true in Hr' as (Hd' & Hday' & Hh').
    assert (Hnew : template_matches d dy h new = true).
    { apply template_matches_true. cbn. repeat split; congruence. }
    congruence.
Qed.

(** C8: a schedule-management action keeps the store at one template at
    most per (doctor, weekday, tenant).  A submission by a logged-in admin
    for a doctor of the tenant, with the required fields present, leaves
    exactly one template under the submitted (doctor, weekday, tenant): the
    lookup of the resolver finds the row with the submitted start, end and
    break values, whatever was stored under that key before. *)
Theorem template_replaced
  (db : database) (s : session) (req : request) (doctor_id' : Z) :
  let out := set_doctor_slots db s req doctor_id' in
  (unique_templates db -> unique_templates (db_after out))
  /\ forall u : user_session,
      logged_in_as "admin" s = Some u ->
      let h := session_hospital_id u in
      existsb (fun d => (doctor_key d =? doctor_id') && (doctor_hospital_id d =? h))
        (doctors db) = true ->
      mem h (staff db) = true ->
      method req = "POST" ->
      let day' := strip (form_get (form req) "day") in
      let start_time' := strip (form_get (form req) "start_time") in
      let end_time' := strip (form_get (form req) "end_time") in
      let break_start' :=
        none_if_empty (strip (form_get (form req) "break_start")) in
      let break_end' :=
        none_if_empty (strip (form_get (form req) "break_end")) in
      all_truthy [day'; start_time'; end_time'] = true ->
      let new := {| slot_id := doctor_slots_seq db + 1;
                    slot_doctor_id := doctor_id'; day := day';
                    start_time := start_time'; end_time := end_time';
                    break_start := break_start'; break_end := break_end';
                    slot_hospital_id := h |} in
      flashed out
      = [("Doctor availability slots updated successfully!", "success")]
      /\ filter (template_matches doctor_id' day' h) (doctor_slots (db_after out))
         = [new]
      /\ find (template_matches doctor_id' day' h) (doctor_slots (db_after out))
         = Some new.
Proof.
  intros out. split.
  - intros Huniq. unfold out, set_doctor_slots.
    destruct (logged_in_as "admin" s) as [u|]; [|exact Huniq].
    destruct (negb _); [exact Huniq|].
    destruct (String.eqb (method req) "POST"); [|exact Huniq].
    destruct (negb _); [exact Huniq|].
    destruct (replace_template _ _ _ _ _ _ _ _) as [db'|e] eqn:Hrep;
      [|exact Huniq].
    cbn [db_after]. intros d dy h.
    rewrite (replace_template_filter _ _ _ _ _ _ _ _ _ d dy h Hrep).
    destruct (template_matches d dy h _); [cbn; lia | apply Huniq].
  - intros u Hadmin h Hdoc Hstaff Hpost day' start_time' end_time'
      break_start' break_end' Hfields new.
    assert (Hrep : exists db',
               replace_template db doctor_id' day' start_time' end_time'
                 break_start' break_end' h = Return db').
    { unfold replace_template.
      assert (Hany : existsb (fun d => doctor_key d =? doctor_id') (doctors db)
                     = true).
      { apply existsb_exists in Hdoc as (d & Hin & Hd).
        apply andb_true_iff in Hd as [Hd _].
        apply existsb_exists. eauto. }
      rewrite Hany, Hstaff. cbn [andb]. eauto. }
    destruct Hrep as [db' Hrep].
    assert (Hout : out
                   = {| db_after := db';
                        flashed :=
                          [("Doctor availability slots updated successfully!",
                            "success")];
                        reply := Redirect "view_doctors" |}).
    { unfold out, set_doctor_slots.
      rewrite Hadmin. fold h. rewrite Hdoc, Hpost.
      cbn [negb String.eqb Ascii.eqb Bool.eqb].
      fold day' start_time' end_time' break_start' break_end'.
      rewrite Hfields. cbn [negb]. rewrite Hrep. reflexivity. }
    rewrite Hout. cbn [flashed db_after].
    assert (Hfilter : filter (template_matches doctor_id' day' h) (doctor_slots db')
                      = [new]).
    { rewrite (replace_template_filter _ _ _ _ _ _ _ _ _ doctor_id' day' h Hrep).
      fold new.
      assert (Hnew : template_matches doctor_id' day' h new = true)
        by (apply template_matches_true; repeat split).
      rewrite Hnew. reflexivity. }
    split; [reflexivity|]. split; [exact Hfilter|].
    clear Hout. revert Hfilter.
    induction (doctor_slots db') as [|r rows IH]; [discriminate|].
    cbn [filter find].
    destruct (template_matches doctor_id' day' h r); [congruence | exact IH].
Qed.

Lemma template_replaced_witness :
  unique_templates
    (db_after (set_doctor_slots clinic admin1 template_request 1))
  /\ filter (template_matches 1 "Friday" 1)
       (doctor_slots (db_after (set_doctor_slots clinic admin1 template_request 1)))
     = [{| slot_id := 2; slot_doctor_id := 1; day := "Friday";
           start_time := "10:00"; end_time := "12:00";
           break_start := Some "11:00"; break_end := Some "11:30";
           slot_hospital_id := 1 |}].
Proof.
  split.
  - apply (proj1 (template_replaced clinic admin1 template_request 1)).
    intros d dy h. cbn [clinic doctor_slots filter].
    destruct (template_matches d dy h _); cbn [List.length]; lia.
  - refine (proj1
              (proj2
                 (proj2 (template_replaced clinic admin1 template_request 1)
                    {| user_id := 1; user_type := "admin";
                       session_hospital_id := 1 |}
                    _ _ _ _ _)));
      reflexivity.
Defined.

(** * Tenant scoping of the ledger *)

Lemma foreign_rows_app (h : Z) (rows more : list appointment) :
  foreign_rows h (rows ++ more)%list
  = (foreign_rows h rows ++ foreign_rows h more)%list.
Proof. apply filter_app. Qed.

(** What [schedule_appointment] does to the ledger: under the success
    message it has appended one row, which carries the tenant of the session
    and the submitted date and slot; under every other outcome it has left
    the ledger as it was. *)
Lemma schedule_appointment_rows (integer_affinity : string -> option Z)
  (db : database) (u : user_session) (req : request) :
  let out := schedule_appointment integer_affinity db (Some u) req in
  (flashed out <> [("Appointment scheduled successfully!", "success")]
   /\ appointments (db_after out) = appointments db)
  \/ (flashed out = [("Appointment scheduled successfully!", "success")]
      /\ exists a,
           appointments (db_after out) = (appointments db ++ [a])%list
           /\ hospital_id a = session_hospital_id u
           /\ id a = appointments_seq db + 1
           /\ date_ a = strip (form_get (form req) "date")
           /\ time_slot a = strip (form_get (form req) "time_slot")
           /\ status a = "Scheduled").
Proof.
  unfold schedule_appointment, logged_in_as.
  destruct (String.eqb (user_type u) "admin");
    [|left; split; [discriminate | reflexivity]].
  destruct (String.eqb (method req) "POST");
    [|left; split; [discriminate | reflexivity]].
  destruct (negb _); [left; split; [discriminate | reflexivity]|].
  unfold insert_appointment.
  destruct (integer_affinity _) as [p|];
    [|left; split; [discriminate | reflexivity]].
  destruct (integer_affinity _) as [d|];
    [|left; split; [discriminate | reflexivity]].
  destruct (mem p (patients db) && _ && _)%bool;
    [|left; split; [discriminate | reflexivity]].
  right. split; [reflexivity|].
  eexists. cbn [db_after appointments].
  split; [reflexivity|]. cbn. auto 6.
Qed.

(** C10: for every operation on the ledger by a session of tenant [h]:
    a booking that is accepted appends exactly one appointment, which
    carries [h], and a booking that is not accepted appends none; a booking
    with the required fields and existing patient, doctor and tenant is
    accepted; creation, deletion and status update leave the rows of every
    other tenant as they are; and every entry of a booked list comes from a
    row of tenant [h]. *)
Theorem tenant_isolation
  (integer_affinity : string -> option Z) (db : database) (u : user_session) :
  let h := session_hospital_id u in
  let s := Some u in
  let accepted := [("Appointment scheduled successfully!", "success")] in
  (forall req : request,
      let out := schedule_appointment integer_affinity db s req in
      let db' := db_after out in
      (flashed out = accepted ->
       exists a,
         appointments db' = (appointments db ++ [a])%list
         /\ hospital_id a = h
         /\ date_ a = strip (form_get (form req) "date")
         /\ time_slot a = strip (form_get (form req) "time_slot")
         /\ status a = "Scheduled")
      /\ (flashed out <> accepted -> appointments db' = appointments db)
      /\ (forall p d : Z,
             user_type u = "admin" ->
             method req = "POST" ->
             all_truthy [strip (form_get (form req) "patient_id");
                         strip (form_get (form req) "doctor_id");
                         strip (form_get (form req) "date");
                         strip (form_get (form req) "time_slot")] = true ->
             integer_affinity (strip (form_get (form req) "patient_id"))
             = Some p ->
             integer_affinity (strip (form_get (form req) "doctor_id"))
             = Some d ->
             mem p (patients db) = true ->
             existsb (fun r => doctor_key r =? d) (doctors db) = true ->
             mem h (staff db) = true ->
             flashed out = accepted)
      /\ foreign_rows h (appointments db') = foreign_rows h (appointments db))
  /\ (forall appointment_id : Z,
         foreign_rows h
           (appointments (db_after (delete_appointment db s appointment_id)))
         = foreign_rows h (appointments db))
  /\ (forall (req : request) (appointment_id : Z),
         foreign_rows h
           (appointments
              (db_after (update_appointment_status db s req appointment_id)))
         = foreign_rows h (appointments db))
  /\ (forall (doctor_id' : Z) (date' : string) (slots : list slot)
        (booked : list string) (code : Z),
         get_doctor_slots db s doctor_id' date'
         = Some (Jsonify (JSlots slots booked) code) ->
         forall t : string,
           In t booked ->
           exists a,
             In a (appointments db) /\ hospital_id a = h /\ time_slot a = t).
Proof.
  intros h s accepted. split; [|split; [|split]].
  - intros req out db'.
    pose proof (schedule_appointment_rows integer_affinity db u req) as Hrows.
    cbv zeta in Hrows. fold s out h accepted in Hrows. fold db' in Hrows.
    split; [|split; [|split]].
    + intros Hflash.
      destruct Hrows as [[Hno _]|[_ (a & Ha & Hh & _ & Hd & Ht & Hs)]];
        [contradiction|].
      exists a. auto 6.
    + intros Hflash.
      destruct Hrows as [[_ Hsame]|[Hyes _]]; [exact Hsame | contradiction].
    + intros p d Htype Hpost Hfields Hp Hd Hpat Hdoc Hstaff.
      unfold out, schedule_appointment, s, logged_in_as.
      rewrite Htype, Hpost. cbn [String.eqb Ascii.eqb Bool.eqb].
      rewrite Hfields. cbn [negb]. unfold insert_appointment.
      rewrite Hp, Hd, Hpat, Hdoc. fold h. rewrite Hstaff. reflexivity.
    + destruct Hrows as [[_ ->]|[_ (a & -> & Ha & _)]]; [reflexivity|].
      rewrite foreign_rows_app. unfold foreign_rows at 2. cbn [filter].
      fold h in Ha. rewrite Ha, Z.eqb_refl. cbn [negb]. apply app_nil_r.
  - intros appointment_id. unfold delete_appointment, s, logged_in_as.
    destruct (String.eqb (user_type u) "admin"); [|reflexivity].
    destruct (negb (sqlite_integer appointment_id)); [reflexivity|].
    cbn [db_after with_appointments appointments].
    apply filter_filter_implied. intros a Ha.
    apply negb_true_iff in Ha. fold h. rewrite Ha, andb_false_r. reflexivity.
  - intros req appointment_id.
    unfold update_appointment_status, s, logged_in_as.
    destruct (String.eqb (user_type u) "doctor"); [|reflexivity].
    destruct (String.eqb (strip _) ""); [reflexivity|].
    destruct (negb (sqlite_integer appointment_id)); [reflexivity|].
    cbn [db_after with_appointments appointments].
    apply filter_map_fixed.
    + intros a. destruct (status_target appointment_id u a); reflexivity.
    + intros a Ha. apply negb_true_iff in Ha.
      unfold status_target. fold h. rewrite Ha, andb_false_r. reflexivity.
  - intros doctor_id' date' slots booked code Hresp t Hin.
    unfold get_doctor_slots, s, logged_in_as in Hresp.
    destruct (String.eqb (user_type u) "admin"); [|discriminate].
    destruct (strptime_Ymd date'); [|discriminate].
    destruct (negb (sqlite_integer doctor_id')); [discriminate|].
    destruct (find _ (doctor_slots db)); [|discriminate].
    destruct (generate_time_slots _ _ _ _ _ _) as [[l|e]|]; try discriminate.
    injection Hresp as _ <- _.
    apply in_map_iff in Hin as (a & Ht & Ha).
    apply filter_In in Ha as [Ha Hm].
    apply booked_matches_true in Hm as (_ & _ & Hh & _).
    exists a. auto.
Qed.

(** The booking of the example, by the admin of hospital 1, is recorded
    under hospital 1, and leaves the ledger of hospital 2 empty. *)
Lemma tenant_isolation_witness :
  (exists a,
      appointments booked_once = (appointments clinic ++ [a])%list
      /\ hospital_id a = 1
      /\ date_ a = "2024-01-05"
      /\ time_slot a = "09:00"
      /\ status a = "Scheduled")
  /\ foreign_rows 1 (appointments booked_once)
     = foreign_rows 1 (appointments clinic).
Proof.
  pose proof (proj1 (tenant_isolation decimal_affinity clinic
                       {| user_id := 1; user_type := "admin";
                          session_hospital_id := 1 |})
                booking_request) as H.
  cbv zeta in H. destruct H as (Hrow & _ & _ & Hframe).
  split; [exact (Hrow eq_refl) | exact Hframe].
Defined.

(** * Further properties of the slot generator *)

Lemma StronglySorted_snoc {A : Type} (R : A -> A -> Prop) (l : list A) (x : A) :
  StronglySorted R l -> Forall (fun y => R y x) l ->
  StronglySorted R (l ++ [x])%list.
Proof.
  induction 1 as [|y l Hl IH Hy]; intros Hall; cbn [app].
  - repeat constructor.
  - inversion Hall as [|? ? Hyx Hrest]; subst.
    constructor; [apply IH; assumption|].
    apply Forall_app. split; [assumption | repeat constructor; assumption].
Qed.

(** The loop invariant of ordered generation: the slots appended so far are
    intervals of the interval's length inside the template, each following
    the one before, and all end at or before the cursor. *)
Lemma ordered_invariant_step (break_start break_end : option string)
  (interval s e : Z) (w : option (Z * Z)) (st st' : loop_state) :
  break_window break_start break_end = Return w ->
  0 < interval ->
  (s <= fst st
   /\ exists times,
        snd st = map slot_of_times times
        /\ Forall (fun p => s <= fst p /\ snd p = fst p + interval
                            /\ snd p <= e /\ snd p <= fst st) times
        /\ StronglySorted follows times) ->
  fst st < e ->
  iteration e break_start break_end interval st = Return st' ->
  s <= fst st'
  /\ exists times,
       snd st' = map slot_of_times times
       /\ Forall (fun p => s <= fst p /\ snd p = fst p + interval
                           /\ snd p <= e /\ snd p <= fst st') times
       /\ StronglySorted follows times.
Proof.
  intros Hw Hi (Hlow & times & Hacc & Hall & Hsorted) Hlt Hstep.
  apply (iteration_return_window e break_start break_end interval w st st' Hw)
    in Hstep.
  subst st'.
  pose proof (next_state_progress e interval w st Hi) as Hprog.
  split; [lia|].
  assert (Hweak : Forall (fun p => s <= fst p /\ snd p = fst p + interval
                                   /\ snd p <= e
                                   /\ snd p <= fst (next_state e interval w st))
                    times).
  { eapply Forall_impl; [|exact Hall]. cbn beta. intros p Hp. lia. }
  assert (Hkeep : snd (next_state e interval w st) = snd st ->
                  exists times0,
                    snd (next_state e interval w st) = map slot_of_times times0
                    /\ Forall (fun p => s <= fst p /\ snd p = fst p + interval
                                        /\ snd p <= e
                                        /\ snd p <= fst (next_state e interval w st))
                         times0
                    /\ StronglySorted follows times0).
  { intros Heq. exists times. rewrite Heq. auto. }
  assert (Hemit : fst st + interval <= e ->
                  next_state e interval w st
                  = (fst st + interval,
                     (snd st ++ [make_slot (fst st) (fst st + interval)])%list) ->
                  exists times0,
                    snd (next_state e interval w st) = map slot_of_times times0
                    /\ Forall (fun p => s <= fst p /\ snd p = fst p + interval
                                        /\ snd p <= e
                                        /\ snd p <= fst (next_state e interval w st))
                         times0
                    /\ StronglySorted follows times0).
  { intros Hfit Heq. exists (times ++ [(fst st, fst st + interval)])%list.
    rewrite Heq in *. cbn [fst snd] in *.
    split; [rewrite Hacc, map_app; reflexivity|]. split.
    - apply Forall_app. split; [assumption|].
      repeat constructor; cbn [fst snd]; lia.
    - apply StronglySorted_snoc; [assumption|].
      eapply Forall_impl; [|exact Hall]. unfold follows. cbn [fst snd].
      intros p Hp. lia. }
  unfold next_state in *.
  destruct w as [[b1 b2]|].
  - destruct ((b1 <=? fst st) && (fst st + interval <=? b2))%bool;
      [apply Hkeep; reflexivity|].
    destruct (fst st + interval <=? e) eqn:Hfit;
      [apply Hemit; [apply Z.leb_le; assumption | reflexivity]
      | apply Hkeep; reflexivity].
  - destruct (fst st + interval <=? e) eqn:Hfit;
      [apply Hemit; [apply Z.leb_le; assumption | reflexivity]
      | apply Hkeep; reflexivity].
Qed.

(** X1: with or without a break, when start + interval is a datetime, the
    generator returns, and the returned slots are intervals of the
    interval's length inside [start, end], in increasing order and without
    overlap: each starts at or after the end of every earlier one; their
    printed times read back as these intervals. *)
Theorem slots_ordered_and_inside
  (start_time end_time : string) (break_start break_end : option string)
  (interval s e : Z) (w : option (Z * Z)) :
  strptime_HM start_time = Some s ->
  strptime_HM end_time = Some e ->
  break_window break_start break_end = Return w ->
  0 < interval ->
  s + interval <= datetime_max ->
  exists times : list (Z * Z),
    (forall fuel : nat,
        (Z.to_nat (e - s) < fuel)%nat ->
        generate_time_slots fuel start_time end_time break_start break_end
          interval
        = Some (Return (map slot_of_times times)))
    /\ map slot_times (map slot_of_times times) = map Some times
    /\ Forall (fun p => s <= fst p /\ snd p = fst p + interval /\ snd p <= e)
         times
    /\ StronglySorted follows times.
Proof.
  intros Hs He Hw Hi Hmax.
  pose proof (strptime_HM_range _ _ Hs) as Rs.
  pose proof (strptime_HM_range _ _ He) as Re.
  destruct (while_loop_from_start break_start break_end interval s e w Hw Hi
              ltac:(lia) ltac:(lia) (or_introl Hmax))
    as (final & _ & Hrun).
  pose proof (Hrun (S (Z.to_nat (e - s))) ltac:(lia)) as Hloop.
  apply (while_loop_invariant e break_start break_end interval
           (fun st =>
              s <= fst st
              /\ exists times,
                   snd st = map slot_of_times times
                   /\ Forall (fun p => s <= fst p /\ snd p = fst p + interval
                                       /\ snd p <= e /\ snd p <= fst st) times
                   /\ StronglySorted follows times)) in Hloop.
  - destruct Hloop as [(_ & times & Hacc & Hall & Hsorted) _].
    exists times. split; [|split; [|split]].
    + intros fuel Hfuel. rewrite <- Hacc.
      eapply generate_time_slots_run; eauto.
    + rewrite map_map. apply map_ext_in. intros [a b] Hin.
      rewrite Forall_forall in Hall. specialize (Hall _ Hin).
      cbn [fst snd] in Hall. unfold slot_of_times. cbn [fst snd].
      apply slot_times_make_slot; lia.
    + eapply Forall_impl; [|exact Hall]. cbn beta. intros p Hp. lia.
    + assumption.
  - intros st st'. apply (ordered_invariant_step _ _ _ _ _ w); assumption.
  - cbn [fst snd]. split; [lia|]. exists []. repeat constructor.
Qed.

Lemma slots_ordered_and_inside_witness :
  exists times : list (Z * Z),
    (forall fuel : nat,
        (Z.to_nat (720 - 540) < fuel)%nat ->
        generate_time_slots fuel "09:00" "12:00" (Some "10:20") (Some "11:00")
          15
        = Some (Return (map slot_of_times times)))
    /\ map slot_times (map slot_of_times times) = map Some times
    /\ Forall (fun p => 540 <= fst p /\ snd p = fst p + 15 /\ snd p <= 720)
         times
    /\ StronglySorted follows times.
Proof.
  apply (slots_ordered_and_inside "09:00" "12:00" (Some "10:20") (Some "11:00")
           15 540 720 (Some (620, 660)));
    [reflexivity | reflexivity | reflexivity | lia
    | apply Z.leb_le; reflexivity].
Defined.

(** Once the cursor has passed break-end, the loop runs as without a break. *)
Lemma while_loop_past_break (end_time : Z) (break_start break_end : option string)
  (interval b1 b2 : Z) :
  break_window break_start break_end = Return (Some (b1, b2)) ->
  0 < interval ->
  forall (fuel : nat) (st : loop_state),
    b2 <= fst st ->
    while_loop fuel end_time break_start break_end interval st
    = while_loop fuel end_time None None interval st.
Proof.
  intros Hw Hi. induction fuel as [|n IH]; intros st Hpast; [reflexivity|].
  cbn [while_loop]. destruct (fst st <? end_time); [|reflexivity].
  destruct (in_datetime_range (fst st + interval)) eqn:Hr;
    [|rewrite !iteration_overflow by exact Hr; reflexivity].
  rewrite (iteration_next end_time break_start break_end interval _ st Hw Hr).
  rewrite (iteration_next end_time None None interval None st eq_refl Hr).
  assert (Hsame : next_state end_time interval (Some (b1, b2)) st
                  = next_state end_time interval None st).
  { unfold next_state.
    destruct (fst st + interval <=? b2) eqn:E;
      [apply Z.leb_le in E; lia|].
    rewrite andb_false_r. reflexivity. }
  rewrite Hsame. apply IH.
  pose proof (next_state_progress end_time interval None st Hi). lia.
Qed.

Lemma grid_break_run (end_time : Z) (break_start break_end : option string)
  (interval b1 b2 : Z) :
  break_window break_start break_end = Return (Some (b1, b2)) ->
  0 < interval ->
  interval <= b2 - b1 ->
  b1 <= end_time ->
  end_time <= 1439 ->
  forall (fuel : nat) (cur : Z) (acc : list slot),
    (0 < fuel)%nat -> end_time - cur < Z.of_nat fuel ->
    0 <= cur ->
    cur <= b1 -> (interval | b1 - cur) ->
    exists final_cursor,
      while_loop fuel end_time break_start break_end interval (cur, acc)
      = Some (Return
                (final_cursor,
                 (acc ++ tiling cur interval (Z.to_nat ((b1 - cur) / interval))
                      ++ tiling b2 interval
                           (Z.to_nat ((end_time - b2) / interval)))%list)).
Proof.
  intros Hw Hi Hlen Hb1 Hend.
  pose proof (break_window_range _ _ _ _ Hw) as [Rb1 Rb2].
  induction fuel as [|n IH]; intros cur acc Hpos Hfuel Hlow Hcur Hdiv; [lia|].
  cbn [while_loop fst].
  destruct (cur <? end_time) eqn:Hlt.
  - apply Z.ltb_lt in Hlt.
    rewrite (iteration_next end_time break_start break_end interval _
               (cur, acc) Hw)
      by (apply in_datetime_range_true; cbn [fst]; datetime_values; lia).
    unfold next_state. cbn [fst snd].
    destruct (Z.eq_dec cur b1) as [->|Hne].
    + (* at break-start: skip to break-end *)
      assert (H1 : (b1 <=? b1) = true) by (apply Z.leb_le; lia).
      assert (H2 : (b1 + interval <=? b2) = true) by (apply Z.leb_le; lia).
      rewrite H1, H2. cbn [andb].
      rewrite (while_loop_past_break end_time break_start break_end interval
                 b1 b2 Hw Hi n (b2, acc)) by (cbn [fst]; lia).
      destruct (no_break_run end_time None None interval eq_refl Hi
                  ltac:(datetime_values; lia) n b2 acc)
        as [c Hc]; [lia | lia | datetime_values; lia |].
      exists c. rewrite Hc.
      replace (b1 - b1) with 0 by lia.
      rewrite Z.div_0_l by lia. reflexivity.
    + (* before the break: the candidate ends at or before break-start *)
      assert (Hgap : interval <= b1 - cur)
        by (apply Z.divide_pos_le; [lia | assumption]).
      assert (Hskip : ((b1 <=? cur) && (cur + interval <=? b2))%bool = false).
      { destruct (b1 <=? cur) eqn:E; [apply Z.leb_le in E; lia | reflexivity]. }
      assert (Hfit : (cur + interval <=? end_time) = true)
        by (apply Z.leb_le; lia).
      rewrite Hskip, Hfit.
      destruct (IH (cur + interval)
                  (acc ++ [make_slot cur (cur + interval)])%list)
        as [c Hc]; [lia | lia | lia | lia | |].
      { replace (b1 - (cur + interval)) with ((b1 - cur) - interval) by lia.
        apply Z.divide_sub_r; [assumption | apply Z.divide_refl]. }
      exists c. rewrite Hc. do 3 f_equal.
      replace (b1 - cur) with (b1 - (cur + interval) + 1 * interval) by lia.
      rewrite Z.div_add by lia.
      assert (0 <= (b1 - (cur + interval)) / interval)
        by (apply Z.div_pos; lia).
      rewrite Z2Nat.inj_add by lia.
      rewrite Nat.add_comm. change (Z.to_nat 1) with 1%nat. cbn [plus].
      rewrite tiling_S, <- !app_assoc. reflexivity.
  - apply Z.ltb_ge in Hlt. exists cur.
    assert (cur = b1) by lia. subst cur.
    replace (b1 - b1) with 0 by lia. rewrite Z.div_0_l by lia.
    assert ((end_time - b2) / interval < 0)
      by (apply Z.div_lt_upper_bound; lia).
    replace (Z.to_nat ((end_time - b2) / interval)) with O by lia.
    unfold tiling. cbn [seq map Z.to_nat app]. rewrite app_nil_r. reflexivity.
Qed.

(** X2: when the break starts on the slot grid inside the template and
    lasts at least one interval, the generator returns the slots that tile
    [start, break-start) followed by the slots that tile from break-end: the
    grid restarts at break-end, whether or not break-end is on the grid. *)
Theorem grid_break_slots
  (start_time end_time : string) (break_start break_end : option string)
  (interval s e b1 b2 : Z) :
  strptime_HM start_time = Some s ->
  strptime_HM end_time = Some e ->
  break_window break_start break_end = Return (Some (b1, b2)) ->
  0 < interval ->
  s <= b1 -> b1 <= e ->
  (interval | b1 - s) ->
  interval <= b2 - b1 ->
  forall fuel : nat,
    (Z.to_nat (e - s) < fuel)%nat ->
    generate_time_slots fuel start_time end_time break_start break_end interval
    = Some (Return
              (tiling s interval (Z.to_nat ((b1 - s) / interval))
               ++ tiling b2 interval (Z.to_nat ((e - b2) / interval)))%list).
Proof.
  intros Hs He Hw Hi Hsb Hbe Hdiv Hlen fuel Hfuel.
  pose proof (strptime_HM_range _ _ Hs) as Rs.
  pose proof (strptime_HM_range _ _ He) as Re.
  destruct (grid_break_run e break_start break_end interval b1 b2 Hw Hi Hlen
              Hbe ltac:(lia) fuel s [])
    as [c Hc]; [lia | lia | lia | lia | assumption |].
  rewrite (generate_time_slots_run _ _ _ _ _ _ _ _ _ Hs He Hc). reflexivity.
Qed.

Lemma grid_break_slots_witness :
  generate_time_slots day_fuel "09:00" "12:00" (Some "10:30") (Some "11:10") 15
  = Some (Return
            (tiling 540 15 (Z.to_nat ((630 - 540) / 15))
             ++ tiling 670 15 (Z.to_nat ((720 - 670) / 15)))%list).
Proof.
  apply (grid_break_slots "09:00" "12:00" (Some "10:30") (Some "11:10") 15
           540 720 630 670);
    [reflexivity | reflexivity | reflexivity | lia | lia | lia
    | exists 6; reflexivity | lia | unfold day_fuel; lia].
Defined.

(** X3: a break window that covers the whole template (break-start at or
    before start, break-end at or after end) leaves no slot, for every
    positive interval with which start + interval is a datetime. *)
Theorem covering_break_no_slots
  (start_time end_time : string) (break_start break_end : option string)
  (interval s e b1 b2 : Z) :
  strptime_HM start_time = Some s ->
  strptime_HM end_time = Some e ->
  break_window break_start break_end = Return (Some (b1, b2)) ->
  0 < interval ->
  s + interval <= datetime_max ->
  b1 <= s -> e <= b2 ->
  forall fuel : nat,
    (Z.to_nat (e - s) < fuel)%nat ->
    generate_time_slots fuel start_time end_time break_start break_end interval
    = Some (Return []).
Proof.
  intros Hs He Hw Hi Hmax Hb1 Hb2 fuel Hfuel.
  pose proof (strptime_HM_range _ _ Hs) as Rs.
  pose proof (strptime_HM_range _ _ He) as Re.
  destruct (while_loop_from_start break_start break_end interval s e _ Hw Hi
              ltac:(lia) ltac:(lia) (or_introl Hmax))
    as (final & _ & Hrun).
  pose proof (Hrun fuel Hfuel) as Hloop.
  rewrite (generate_time_slots_run _ _ _ _ _ _ _ _ _ Hs He Hloop).
  apply (while_loop_invariant e break_start break_end interval
           (fun st => snd st = [] /\ (fst st = s \/ e <= fst st))) in Hloop.
  - destruct Hloop as [[-> _] _]. reflexivity.
  - intros [cur acc] st' [Hacc Hcur] Hlt Hstep. cbn [fst snd] in *. subst acc.
    apply (iteration_return_window e break_start break_end interval _
             (cur, []) st' Hw) in Hstep.
    subst st'. unfold next_state. cbn [fst snd].
    destruct Hcur as [->|Hge]; [|lia].
    destruct ((b1 <=? s) && (s + interval <=? b2))%bool eqn:Hskip.
    + cbn [fst snd]. auto.
    + destruct (s + interval <=? e) eqn:Hfit; cbn [fst snd].
      * apply Z.leb_le in Hfit.
        assert (H1 : (b1 <=? s) = true) by (apply Z.leb_le; lia).
        assert (H2 : (s + interval <=? b2) = true) by (apply Z.leb_le; lia).
        rewrite H1, H2 in Hskip. discriminate.
      * apply Z.leb_gt in Hfit. split; [reflexivity | right; lia].
  - cbn [fst snd]. auto.
Qed.

Lemma covering_break_no_slots_witness :
  generate_time_slots day_fuel "09:00" "12:00" (Some "08:00") (Some "12:30") 15
  = Some (Return []).
Proof.
  apply (covering_break_no_slots "09:00" "12:00" (Some "08:00") (Some "12:30")
           15 540 720 480 750);
    [reflexivity | reflexivity | reflexivity | lia
    | apply Z.leb_le; reflexivity | lia | lia | unfold day_fuel; lia].
Defined.

(** X4: the break strings are parsed inside the loop only, after the first
    candidate end has been computed.  A template whose end is not after its
    start returns the empty list whatever the break strings and the interval
    are.  A template with start before end and a configured break of which
    one string is not a time raises [ValueError] when start + interval is a
    datetime, and [OverflowError] when it is not, whatever the break strings
    are.  A start or end string that is not a time raises [ValueError]. *)
Theorem break_strings_parsed_lazily
  (start_time end_time : string) (break_start break_end : option string)
  (interval : Z) (fuel : nat) :
  (0 < fuel)%nat ->
  (forall s e,
      strptime_HM start_time = Some s -> strptime_HM end_time = Some e ->
      e <= s ->
      generate_time_slots fuel start_time end_time break_start break_end
        interval
      = Some (Return []))
  /\ (forall s e bs be,
         strptime_HM start_time = Some s -> strptime_HM end_time = Some e ->
         s < e ->
         datetime_min <= s + interval <= datetime_max ->
         break_start = Some bs -> break_end = Some be ->
         bs <> "" -> be <> "" ->
         strptime_HM bs = None \/ strptime_HM be = None ->
         generate_time_slots fuel start_time end_time break_start break_end
           interval
         = Some (Raise ValueError))
  /\ (forall s e,
         strptime_HM start_time = Some s -> strptime_HM end_time = Some e ->
         s < e ->
         s + interval < datetime_min \/ datetime_max < s + interval ->
         generate_time_slots fuel start_time end_time break_start break_end
           interval
         = Some (Raise OverflowError))
  /\ (strptime_HM start_time = None \/ strptime_HM end_time = None ->
      generate_time_slots fuel start_time end_time break_start break_end
        interval
      = Some (Raise ValueError)).
Proof.
  intros Hfuel. destruct fuel as [|n]; [lia|].
  split; [|split; [|split]].
  - intros s e Hs He Hle. unfold generate_time_slots. rewrite Hs, He.
    cbn [while_loop fst].
    destruct (s <? e) eqn:Hlt; [apply Z.ltb_lt in Hlt; lia | reflexivity].
  - intros s e bs be Hs He Hlt Hr -> -> Hbs Hbe Hbad.
    apply in_datetime_range_true in Hr.
    unfold generate_time_slots. rewrite Hs, He. cbn [while_loop fst].
    apply Z.ltb_lt in Hlt. rewrite Hlt.
    assert (Hw : break_window (Some bs) (Some be) = Raise ValueError).
    { unfold break_window, truthy.
      apply String.eqb_neq in Hbs, Hbe. rewrite Hbs, Hbe. cbn [negb andb].
      destruct Hbad as [H|H].
      - rewrite H. reflexivity.
      - rewrite H. destruct (strptime_HM bs); reflexivity. }
    rewrite (iteration_raises e _ _ interval _ _ Hw) by exact Hr.
    reflexivity.
  - intros s e Hs He Hlt Hr.
    apply (generate_time_slots_raises _ _ _ _ _ _ s e); [assumption..|].
    apply while_loop_overflow; [lia | exact Hlt |].
    apply in_datetime_range_false. exact Hr.
  - intros [H|H]; unfold generate_time_slots.
    + rewrite H. reflexivity.
    + rewrite H. destruct (strptime_HM start_time); reflexivity.
Qed.

Lemma break_strings_parsed_lazily_witness :
  generate_time_slots 5 "12:00" "09:00" (Some "lunch") (Some "13:00") 15
  = Some (Return [])
  /\ generate_time_slots 5 "09:00" "12:00" (Some "lunch") (Some "13:00") 15
     = Some (Raise ValueError)
  /\ generate_time_slots 5 "09:00" "12:00" (Some "lunch") (Some "13:00")
       5000000000
     = Some (Raise OverflowError).
Proof.
  split; [|split].
  - apply (proj1 (break_strings_parsed_lazily "12:00" "09:00" (Some "lunch")
                    (Some "13:00") 15 5 ltac:(lia)) 720 540);
      [reflexivity | reflexivity | lia].
  - apply (proj1 (proj2 (break_strings_parsed_lazily "09:00" "12:00"
                           (Some "lunch") (Some "13:00") 15 5 ltac:(lia)))
             540 720 "lunch" "13:00");
      [reflexivity | reflexivity | lia
      | split; apply Z.leb_le; reflexivity | reflexivity | reflexivity
      | discriminate | discriminate | left; reflexivity].
  - apply (proj1 (proj2 (proj2 (break_strings_parsed_lazily "09:00" "12:00"
                                  (Some "lunch") (Some "13:00") 5000000000 5
                                  ltac:(lia))))
             540 720);
      [reflexivity | reflexivity | lia |].
    right. apply Z.ltb_lt. reflexivity.
Defined.

(** * Further properties of the template store and the resolver *)

Lemma find_of_filter_singleton {A : Type} (f : A -> bool) (l : list A) (x : A) :
  filter f l = [x] -> find f l = Some x.
Proof.
  induction l as [|y l IH]; [discriminate|].
  cbn [filter find]. destruct (f y); [congruence | exact IH].
Qed.

(** An accepted submission: the outcome and the row it leaves under its key. *)
Lemma set_doctor_slots_accepts
  (db : database) (s : session) (u : user_session) (req : request)
  (doctor_id' : Z) :
  logged_in_as "admin" s = Some u ->
  existsb (fun d => (doctor_key d =? doctor_id')
                    && (doctor_hospital_id d =? session_hospital_id u))
    (doctors db) = true ->
  mem (session_hospital_id u) (staff db) = true ->
  method req = "POST" ->
  all_truthy [strip (form_get (form req) "day");
              strip (form_get (form req) "start_time");
              strip (form_get (form req) "end_time")] = true ->
  exists db' : database,
    set_doctor_slots db s req doctor_id'
    = {| db_after := db';
         flashed := [("Doctor availability slots updated successfully!",
                      "success")];
         reply := Redirect "view_doctors" |}
    /\ appointments db' = appointments db
    /\ find (template_matches doctor_id' (strip (form_get (form req) "day"))
               (session_hospital_id u))
         (doctor_slots db')
       = Some {| slot_id := doctor_slots_seq db + 1;
                 slot_doctor_id := doctor_id';
                 day := strip (form_get (form req) "day");
                 start_time := strip (form_get (form req) "start_time");
                 end_time := strip (form_get (form req) "end_time");
                 break_start :=
                   none_if_empty (strip (form_get (form req) "break_start"));
                 break_end :=
                   none_if_empty (strip (form_get (form req) "break_end"));
                 slot_hospital_id := session_hospital_id u |}.
Proof.
  intros Hadmin Hdoc Hstaff Hpost Hfields.
  set (h := session_hospital_id u) in *.
  set (day' := strip (form_get (form req) "day")) in *.
  set (start_time' := strip (form_get (form req) "start_time")) in *.
  set (end_time' := strip (form_get (form req) "end_time")) in *.
  set (break_start' := none_if_empty (strip (form_get (form req) "break_start"))).
  set (break_end' := none_if_empty (strip (form_get (form req) "break_end"))).
  assert (Hrep : exists db',
             replace_template db doctor_id' day' start_time' end_time'
               break_start' break_end' h = Return db'
             /\ appointments db' = appointments db).
  { unfold replace_template.
    assert (Hany : existsb (fun d => doctor_key d =? doctor_id') (doctors db)
                   = true).
    { apply existsb_exists in Hdoc as (d & Hin & Hd).
      apply andb_true_iff in Hd as [Hd _].
      apply existsb_exists. eauto. }
    rewrite Hany, Hstaff. cbn [andb]. eexists. split; reflexivity. }
  destruct Hrep as (db' & Hrep & Happ).
  exists db'. split; [|split; [exact Happ|]].
  - unfold set_doctor_slots.
    rewrite Hadmin. fold h. rewrite Hdoc, Hpost.
    cbn [negb String.eqb Ascii.eqb Bool.eqb].
    fold day' start_time' end_time' break_start' break_end'.
    rewrite Hfields. cbn [negb]. rewrite Hrep. reflexivity.
  - apply find_of_filter_singleton.
    rewrite (replace_template_filter _ _ _ _ _ _ _ _ _ doctor_id' day' h Hrep).
    match goal with
    | |- (if template_matches _ _ _ ?new then _ else _) = _ =>
        assert (Hnew : template_matches doctor_id' day' h new = true)
          by (apply template_matches_true; repeat split)
    end.
    rewrite Hnew. reflexivity.
Qed.

(** The id of a doctor that the table holds can be bound. *)
Lemma stored_doctor_bindable (db : database) (doctor_id' h : Z) :
  sqlite_rows db ->
  existsb (fun r => (doctor_key r =? doctor_id') && (doctor_hospital_id r =? h))
    (doctors db) = true ->
  sqlite_integer doctor_id' = true.
Proof.
  intros [Hrows _] Hdoc.
  apply existsb_exists in Hdoc as (r & Hin & Hr).
  apply andb_true_iff in Hr as [Hr _]. apply Z.eqb_eq in Hr. subst doctor_id'.
  rewrite Forall_forall in Hrows. exact (Hrows r Hin).
Qed.

(** X5: a template accepted by [set_doctor_slots] is what the resolver
    answers from: for every date whose weekday is the submitted day, the
    query of that tenant runs the generator on the submitted (stripped)
    start, end and break values and returns its slots with the booked list
    of the unchanged ledger, or "Server error" (500) if the generator
    raises.  The ids of the tables are SQLite's. *)
Theorem template_then_query
  (db : database) (s : session) (u : user_session) (req : request)
  (doctor_id' : Z) (date' : string) (d : date) :
  logged_in_as "admin" s = Some u ->
  let h := session_hospital_id u in
  existsb (fun r => (doctor_key r =? doctor_id') && (doctor_hospital_id r =? h))
    (doctors db) = true ->
  mem h (staff db) = true ->
  sqlite_rows db ->
  method req = "POST" ->
  let day' := strip (form_get (form req) "day") in
  let start_time' := strip (form_get (form req) "start_time") in
  let end_time' := strip (form_get (form req) "end_time") in
  let break_start' :=
    none_if_empty (strip (form_get (form req) "break_start")) in
  let break_end' :=
    none_if_empty (strip (form_get (form req) "break_end")) in
  all_truthy [day'; start_time'; end_time'] = true ->
  strptime_Ymd date' = Some d ->
  strftime_A d = day' ->
  get_doctor_slots (db_after (set_doctor_slots db s req doctor_id')) s
    doctor_id' date'
  = match generate_time_slots day_fuel start_time' end_time' break_start'
            break_end' default_interval with
    | Some (Return slots) =>
        Some (Jsonify
                (JSlots slots
                   (map time_slot
                      (filter (booked_matches doctor_id' date' h)
                         (appointments db))))
                200)
    | Some (Raise _) => Some (Jsonify (JError "Server error") 500)
    | None => None
    end.
Proof.
  intros Hadmin h Hdoc Hstaff Hrows Hpost day' start_time' end_time'
    break_start' break_end' Hfields Hdate Hday.
  pose proof (stored_doctor_bindable db doctor_id' h Hrows Hdoc) as Hid.
  destruct (set_doctor_slots_accepts db s u req doctor_id' Hadmin Hdoc Hstaff
              Hpost Hfields) as (db' & -> & Happ & Hfind).
  cbn [db_after]. unfold get_doctor_slots.
  rewrite Hadmin, Hdate, Hday, Hid. cbn [negb]. fold h day' in Hfind |- *.
  rewrite Hfind. cbn [start_time end_time break_start break_end].
  rewrite Happ. reflexivity.
Qed.

Lemma template_then_query_witness :
  get_doctor_slots (db_after (set_doctor_slots clinic admin1 template_request 1))
    admin1 1 "2024-01-05"
  = Some (Jsonify
            (JSlots (tiling 600 15 4 ++ tiling 690 15 2)%list []) 200).
Proof.
  refine (eq_trans
            (template_then_query clinic admin1
               {| user_id := 1; user_type := "admin"; session_hospital_id := 1 |}
               template_request 1 "2024-01-05"
               {| year := 2024; month := 1; day_of_month := 5 |}
               _ _ _ _ _ _ _ _) _);
    try reflexivity.
  split; repeat constructor.
Defined.

(** X6: [set_doctor_slots] does not check that the submitted times are
    times: a non-empty start or end text that [strptime] rejects is stored
    with the success message, and every later query of that tenant for a
    date on that weekday answers "Server error" with status 500. *)
Theorem unvalidated_times_break_queries
  (db : database) (s : session) (u : user_session) (req : request)
  (doctor_id' : Z) (date' : string) (d : date) :
  logged_in_as "admin" s = Some u ->
  let h := session_hospital_id u in
  existsb (fun r => (doctor_key r =? doctor_id') && (doctor_hospital_id r =? h))
    (doctors db) = true ->
  mem h (staff db) = true ->
  method req = "POST" ->
  let day' := strip (form_get (form req) "day") in
  let start_time' := strip (form_get (form req) "start_time") in
  let end_time' := strip (form_get (form req) "end_time") in
  all_truthy [day'; start_time'; end_time'] = true ->
  strptime_HM start_time' = None \/ strptime_HM end_time' = None ->
  strptime_Ymd date' = Some d ->
  strftime_A d = day' ->
  let out := set_doctor_slots db s req doctor_id' in
  flashed out = [("Doctor availability slots updated successfully!", "success")]
  /\ get_doctor_slots (db_after out) s doctor_id' date'
     = Some (Jsonify (JError "Server error") 500).
Proof.
  intros Hadmin h Hdoc Hstaff Hpost day' start_time' end_time' Hfields Hbad
    Hdate Hday out.
  destruct (set_doctor_slots_accepts db s u req doctor_id' Hadmin Hdoc Hstaff
              Hpost Hfields) as (db' & Hout & Happ & Hfind).
  unfold out. rewrite Hout. cbn [flashed db_after]. split; [reflexivity|].
  unfold get_doctor_slots.
  rewrite Hadmin, Hdate, Hday.
  destruct (negb (sqlite_integer doctor_id')); [reflexivity|].
  fold h day' in Hfind |- *.
  rewrite Hfind. cbn [start_time end_time break_start break_end].
  fold start_time' end_time'.
  unfold generate_time_slots.
  destruct Hbad as [H|H].
  - rewrite H. reflexivity.
  - rewrite H. destruct (strptime_HM start_time'); reflexivity.
Qed.

Lemma unvalidated_times_break_queries_witness :
  flashed (set_doctor_slots clinic admin1 sloppy_template_request 1)
  = [("Doctor availability slots updated successfully!", "success")]
  /\ get_doctor_slots
       (db_after (set_doctor_slots clinic admin1 sloppy_template_request 1))
       admin1 1 "2024-01-05"
     = Some (Jsonify (JError "Server error") 500).
Proof.
  refine (unvalidated_times_break_queries clinic admin1
            {| user_id := 1; user_type := "admin"; session_hospital_id := 1 |}
            sloppy_template_request 1 "2024-01-05"
            {| year := 2024; month := 1; day_of_month := 5 |}
            _ _ _ _ _ _ _ _);
    try reflexivity.
  left. reflexivity.
Defined.

(** X7: [set_doctor_slots] touches only the rows under the submitted
    (doctor, weekday, tenant): in every outcome the templates under all
    other keys, in particular those of other tenants, stay as they are and
    in their order, and the ledger and the other tables are unchanged. *)
Theorem template_store_frame
  (db : database) (s : session) (u : user_session) (req : request)
  (doctor_id' : Z) :
  logged_in_as "admin" s = Some u ->
  let out := set_doctor_slots db s req doctor_id' in
  let key := template_matches doctor_id' (strip (form_get (form req) "day"))
               (session_hospital_id u) in
  filter (fun r => negb (key r)) (doctor_slots (db_after out))
  = filter (fun r => negb (key r)) (doctor_slots db)
  /\ appointments (db_after out) = appointments db
  /\ appointments_seq (db_after out) = appointments_seq db
  /\ staff (db_after out) = staff db
  /\ doctors (db_after out) = doctors db
  /\ patients (db_after out) = patients db.
Proof.
  intros Hadmin out key. unfold out, set_doctor_slots. rewrite Hadmin.
  destruct (negb (existsb _ (doctors db))); [cbn; auto 6|].
  destruct (String.eqb (method req) "POST"); [|cbn; auto 6].
  destruct (negb (all_truthy _)); [cbn; auto 6|].
  destruct (replace_template _ _ _ _ _ _ _ _) as [db'|e] eqn:Hrep;
    [|cbn; auto 6].
  cbn [db_after].
  pose proof (replace_template_rows _ _ _ _ _ _ _ _ _ Hrep) as Hrows.
  unfold replace_template in Hrep.
  destruct (existsb _ (doctors db) && mem _ (staff db))%bool; [|discriminate].
  injection Hrep as <-. cbn [appointments appointments_seq staff doctors patients
                               doctor_slots] in *.
  split; [|auto 6].
  rewrite filter_app. cbn [filter]. fold key.
  assert (Hnew : key {| slot_id := doctor_slots_seq db + 1;
                        slot_doctor_id := doctor_id';
                        day := strip (form_get (form req) "day");
                        start_time := strip (form_get (form req) "start_time");
                        end_time := strip (form_get (form req) "end_time");
                        break_start :=
                          none_if_empty (strip (form_get (form req) "break_start"));
                        break_end :=
                          none_if_empty (strip (form_get (form req) "break_end"));
                        slot_hospital_id := session_hospital_id u |} = true)
    by (apply template_matches_true; repeat split).
  rewrite Hnew. cbn [negb]. rewrite app_nil_r.
  apply filter_filter_implied. auto.
Qed.

Lemma template_store_frame_witness :
  filter (fun r => negb (template_matches 1 "Friday" 1 r))
    (doctor_slots
       (db_after (set_doctor_slots clinic_two_days admin1 template_request 1)))
  = filter (fun r => negb (template_matches 1 "Friday" 1 r))
      (doctor_slots clinic_two_days)
  /\ map (fun r => (slot_id r, day r, start_time r))
       (doctor_slots clinic_two_days)
     = [(1, "Friday", "09:00"); (2, "Monday", "08:00")]
  /\ map (fun r => (slot_id r, day r, start_time r))
       (doctor_slots
          (db_after
             (set_doctor_slots clinic_two_days admin1 template_request 1)))
     = [(2, "Monday", "08:00"); (3, "Friday", "10:00")].
Proof.
  split; [|split; reflexivity].
  refine (proj1
            (template_store_frame clinic_two_days admin1
               {| user_id := 1; user_type := "admin"; session_hospital_id := 1 |}
               template_request 1 _));
    reflexivity.
Defined.

(** * Further properties of the booking ledger *)

Lemma with_appointments_same (db : database) :
  with_appointments db (appointments db) = db.
Proof. destruct db; reflexivity. Qed.

Lemma filter_all {A : Type} (f : A -> bool) (l : list A) :
  (forall x, In x l -> f x = true) -> filter f l = l.
Proof.
  induction l as [|x l IH]; intros H; [reflexivity|].
  cbn [filter]. rewrite (H x (or_introl eq_refl)), IH; [reflexivity|].
  intros y Hy. apply H. right. assumption.
Qed.

Lemma map_all_fixed {A : Type} (f : A -> A) (l : list A) :
  (forall x, In x l -> f x = x) -> map f l = l.
Proof.
  induction l as [|x l IH]; intros H; [reflexivity|].
  cbn [map]. rewrite (H x (or_introl eq_refl)), IH; [reflexivity|].
  intros y Hy. apply H. right. assumption.
Qed.

(** The booked rows of a tenant after that tenant has deleted an id. *)
Lemma booked_after_delete (doctor_id' : Z) (date' : string) (h : Z)
  (appointment_id : Z) (rows : list appointment) :
  filter (booked_matches doctor_id' date' h)
    (filter (fun a => negb ((id a =? appointment_id) && (hospital_id a =? h)))
       rows)
  = filter (fun a => booked_matches doctor_id' date' h a
                     && negb (id a =? appointment_id)) rows.
Proof.
  induction rows as [|a rows IH]; [reflexivity|].
  cbn [filter].
  destruct (booked_matches doctor_id' date' h a) eqn:Hm.
  - pose proof Hm as Hm'.
    apply booked_matches_true in Hm' as (_ & _ & Hh & _).
    rewrite Hh, Z.eqb_refl, andb_true_r.
    destruct (id a =? appointment_id); cbn [negb andb filter].
    + exact IH.
    + rewrite Hm, IH. reflexivity.
  - cbn [andb].
    destruct (negb _); cbn [filter]; [rewrite Hm|]; exact IH.
Qed.

(** X8: deleting an appointment frees its slot for the tenant: a query that
    returned a slot list before returns the same slots after a deletion
    that SQLite can bind, with the booked list of the remaining
    non-cancelled appointments of that doctor and date, i.e. those whose id
    differs from the deleted one.  An id that cannot be bound is answered
    with "Error deleting appointment"; the database and the answer of the
    query stay as they were. *)
Theorem delete_frees_slot
  (db : database) (s : session) (u : user_session) (doctor_id' : Z)
  (date' : string) (appointment_id : Z) (slots : list slot)
  (booked : list string) :
  logged_in_as "admin" s = Some u ->
  get_doctor_slots db s doctor_id' date' = Some (Jsonify (JSlots slots booked) 200) ->
  let out := delete_appointment db s appointment_id in
  (sqlite_integer appointment_id = true ->
   flashed out = [("Appointment deleted successfully!", "success")]
   /\ get_doctor_slots (db_after out) s doctor_id' date'
      = Some (Jsonify
                (JSlots slots
                   (map time_slot
                      (filter (fun a =>
                                 booked_matches doctor_id' date'
                                   (session_hospital_id u) a
                                 && negb (id a =? appointment_id))
                         (appointments db))))
                200))
  /\ (sqlite_integer appointment_id = false ->
      flashed out = [("Error deleting appointment", "danger")]
      /\ db_after out = db
      /\ get_doctor_slots (db_after out) s doctor_id' date'
         = Some (Jsonify (JSlots slots booked) 200)).
Proof.
  intros Hadmin Hresp out. unfold out, delete_appointment. rewrite Hadmin.
  split; intros Hid; rewrite Hid; cbn [negb flashed db_after].
  - split; [reflexivity|].
    unfold get_doctor_slots in *. rewrite Hadmin in *.
    destruct (strptime_Ymd date'); [|discriminate].
    destruct (negb (sqlite_integer doctor_id')); [discriminate|].
    cbn [with_appointments doctor_slots appointments].
    destruct (find _ (doctor_slots db)) as [info|]; [|discriminate].
    destruct (generate_time_slots _ _ _ _ _ _) as [[l|e]|]; try discriminate.
    injection Hresp as -> _.
    rewrite booked_after_delete. reflexivity.
  - split; [reflexivity|]. split; [reflexivity | exact Hresp].
Qed.

Lemma delete_frees_slot_witness :
  get_doctor_slots (db_after (delete_appointment booked_once admin1 1)) admin1 1
    "2024-01-05"
  = Some (Jsonify (JSlots (tiling 540 15 4) []) 200)
  /\ flashed (delete_appointment booked_once admin1 unbindable_id)
     = [("Error deleting appointment", "danger")].
Proof.
  split.
  - refine (proj2
              (proj1
                 (delete_frees_slot booked_once admin1
                    {| user_id := 1; user_type := "admin";
                       session_hospital_id := 1 |}
                    1 "2024-01-05" 1 (tiling 540 15 4) ["09:00"] _ _) _));
      reflexivity.
  - refine (proj1
              (proj2
                 (delete_frees_slot booked_once admin1
                    {| user_id := 1; user_type := "admin";
                       session_hospital_id := 1 |}
                    1 "2024-01-05" unbindable_id (tiling 540 15 4) ["09:00"]
                    _ _) _));
      reflexivity.
Defined.

(** X9: [delete_appointment] and [update_appointment_status] report success
    also when they change nothing: an id that SQLite can bind and that no
    appointment of the admin's tenant carries (an unknown id, or an
    appointment of another hospital) leaves the database as it is under the
    message "Appointment deleted successfully!", and a status update by a
    doctor for such an id that is not one of that doctor's own appointments
    leaves it as it is under "Appointment status updated successfully!".
    Only an id that cannot be bound is reported as an error. *)
Theorem silent_no_ops
  (db : database) (u : user_session) (req : request) (appointment_id : Z) :
  (user_type u = "admin" ->
   sqlite_integer appointment_id = true ->
   (forall a, In a (appointments db) ->
              ~ (id a = appointment_id /\ hospital_id a = session_hospital_id u)) ->
   delete_appointment db (Some u) appointment_id
   = {| db_after := db;
        flashed := [("Appointment deleted successfully!", "success")];
        reply := Redirect "view_appointments" |})
  /\ (user_type u = "doctor" ->
      strip (form_get (form req) "status") <> "" ->
      sqlite_integer appointment_id = true ->
      (forall a, In a (appointments db) ->
                 ~ (id a = appointment_id /\ doctor_id a = user_id u
                    /\ hospital_id a = session_hospital_id u)) ->
      update_appointment_status db (Some u) req appointment_id
      = {| db_after := db;
           flashed := [("Appointment status updated successfully!", "success")];
           reply := Redirect "doctor_appointments" |})
  /\ (user_type u = "admin" ->
      sqlite_integer appointment_id = false ->
      delete_appointment db (Some u) appointment_id
      = {| db_after := db;
           flashed := [("Error deleting appointment", "danger")];
           reply := Redirect "view_appointments" |})
  /\ (user_type u = "doctor" ->
      strip (form_get (form req) "status") <> "" ->
      sqlite_integer appointment_id = false ->
      update_appointment_status db (Some u) req appointment_id
      = {| db_after := db;
           flashed := [("Error updating status", "danger")];
           reply := Redirect "doctor_appointments" |}).
Proof.
  split; [|split; [|split]].
  - intros Htype Hid Hnone. unfold delete_appointment, logged_in_as.
    rewrite Htype, Hid. cbn [String.eqb Ascii.eqb Bool.eqb negb].
    rewrite filter_all.
    + rewrite with_appointments_same. reflexivity.
    + intros a Hin. apply negb_true_iff.
      destruct ((id a =? appointment_id)
                && (hospital_id a =? session_hospital_id u))%bool eqn:E;
        [|reflexivity].
      apply andb_true_iff in E as [E1 E2]. apply Z.eqb_eq in E1, E2.
      exfalso. apply (Hnone a Hin). auto.
  - intros Htype Hstatus Hid Hnone.
    unfold update_appointment_status, logged_in_as.
    rewrite Htype, Hid. cbn [String.eqb Ascii.eqb Bool.eqb negb].
    apply String.eqb_neq in Hstatus. rewrite Hstatus.
    rewrite map_all_fixed.
    + rewrite with_appointments_same. reflexivity.
    + intros a Hin.
      destruct (status_target appointment_id u a) eqn:E; [|reflexivity].
      unfold status_target in E.
      apply andb_true_iff in E as [E E3]. apply andb_true_iff in E as [E1 E2].
      apply Z.eqb_eq in E1, E2, E3.
      exfalso. apply (Hnone a Hin). auto.
  - intros Htype Hid. unfold delete_appointment, logged_in_as.
    rewrite Htype, Hid. reflexivity.
  - intros Htype Hstatus Hid. unfold update_appointment_status, logged_in_as.
    rewrite Htype, Hid. cbn [String.eqb Ascii.eqb Bool.eqb negb].
    apply String.eqb_neq in Hstatus. rewrite Hstatus. reflexivity.
Qed.

Lemma silent_no_ops_witness :
  delete_appointment booked_once admin2 1
  = {| db_after := booked_once;
       flashed := [("Appointment deleted successfully!", "success")];
       reply := Redirect "view_appointments" |}
  /\ update_appointment_status booked_once doctor2 cancel_request 1
     = {| db_after := booked_once;
          flashed := [("Appointment status updated successfully!", "success")];
          reply := Redirect "doctor_appointments" |}
  /\ update_appointment_status booked_once doctor1 cancel_request unbindable_id
     = {| db_after := booked_once;
          flashed := [("Error updating status", "danger")];
          reply := Redirect "doctor_appointments" |}.
Proof.
  split; [|split].
  - apply (proj1 (silent_no_ops booked_once
                    {| user_id := 2; user_type := "admin";
                       session_hospital_id := 2 |} cancel_request 1));
      [reflexivity | reflexivity |].
    intros a [<-|[]] [_ H]. discriminate.
  - apply (proj1 (proj2 (silent_no_ops booked_once
                           {| user_id := 2; user_type := "doctor";
                              session_hospital_id := 2 |} cancel_request 1)));
      [reflexivity | discriminate | reflexivity |].
    intros a [<-|[]] (_ & H & _). discriminate.
  - apply (proj2 (proj2 (proj2 (silent_no_ops booked_once
                                  {| user_id := 1; user_type := "doctor";
                                     session_hospital_id := 1 |}
                                  cancel_request unbindable_id))));
      [reflexivity | discriminate | reflexivity].
Defined.

Lemma booked_after_status (doctor_id' : Z) (date' : string) (u : user_session)
  (appointment_id : Z) (new_status : string) (rows : list appointment) :
  user_id u = doctor_id' ->
  new_status <> "Cancelled" ->
  map time_slot
    (filter (booked_matches doctor_id' date' (session_hospital_id u))
       (map (fun a => if status_target appointment_id u a
                      then set_status new_status a else a) rows))
  = map time_slot
      (filter (fun a =>
                 slot_key_matches doctor_id' date' (session_hospital_id u) a
                 && (negb (String.eqb (status a) "Cancelled")
                     || (id a =? appointment_id)))
         rows).
Proof.
  intros Hdoc Hnew. apply String.eqb_neq in Hnew.
  induction rows as [|a rows IH]; [reflexivity|].
  cbn [map filter].
  assert (Hhead :
            booked_matches doctor_id' date' (session_hospital_id u)
              (if status_target appointment_id u a
               then set_status new_status a else a)
            = slot_key_matches doctor_id' date' (session_hospital_id u) a
              && (negb (String.eqb (status a) "Cancelled")
                  || (id a =? appointment_id))).
  { unfold status_target, booked_matches, slot_key_matches. rewrite <- Hdoc.
    destruct (id a =? appointment_id) eqn:Hid,
             (doctor_id a =? user_id u) eqn:Hd,
             (hospital_id a =? session_hospital_id u) eqn:Hh;
      cbn [andb orb negb set_status doctor_id date_ status hospital_id];
      rewrite ?Hd, ?Hh, ?Hnew; cbn [andb orb negb];
      destruct (String.eqb (date_ a) date'),
               (String.eqb (status a) "Cancelled");
      reflexivity. }
  rewrite Hhead.
  destruct (slot_key_matches _ _ _ a && _)%bool; cbn [map]; rewrite IH.
  - f_equal. destruct (status_target appointment_id u a); reflexivity.
  - reflexivity.
Qed.

(** X10: only the exact text "Cancelled" frees a slot.  After the doctor has
    set appointment [appointment_id] to any other non-empty status, the
    booked list of that doctor and date holds the time-slot strings of the
    appointments that were not cancelled and of the updated appointment
    itself: a "Completed" or "cancelled" appointment keeps its slot, and a
    cancelled appointment that is reopened occupies its slot again.  The
    ids of the tables are SQLite's; an id that cannot be bound changes
    nothing. *)
Theorem other_status_keeps_slot
  (db : database) (s sd : session) (u ud : user_session) (req : request)
  (doctor_id' : Z) (date' : string) (appointment_id : Z)
  (slots : list slot) (booked : list string) :
  logged_in_as "admin" s = Some u ->
  logged_in_as "doctor" sd = Some ud ->
  user_id ud = doctor_id' ->
  session_hospital_id ud = session_hospital_id u ->
  strip (form_get (form req) "status") <> "" ->
  strip (form_get (form req) "status") <> "Cancelled" ->
  sqlite_rows db ->
  get_doctor_slots db s doctor_id' date' = Some (Jsonify (JSlots slots booked) 200) ->
  get_doctor_slots
    (db_after (update_appointment_status db sd req appointment_id)) s
    doctor_id' date'
  = Some (Jsonify
            (JSlots slots
               (map time_slot
                  (filter (fun a =>
                             slot_key_matches doctor_id' date'
                               (session_hospital_id u) a
                             && (negb (String.eqb (status a) "Cancelled")
                                 || (id a =? appointment_id)))
                     (appointments db))))
            200).
Proof.
  intros Hadmin Hdoc Huser Hhosp Hne Hnc [_ Hrows] Hresp.
  unfold update_appointment_status. rewrite Hdoc.
  apply String.eqb_neq in Hne. rewrite Hne.
  destruct (sqlite_integer appointment_id) eqn:Hid; cbn [negb db_after].
  - unfold get_doctor_slots in *. rewrite Hadmin in *.
    destruct (strptime_Ymd date'); [|discriminate].
    destruct (negb (sqlite_integer doctor_id')); [discriminate|].
    cbn [with_appointments doctor_slots appointments].
    destruct (find _ (doctor_slots db)) as [info|]; [|discriminate].
    destruct (generate_time_slots _ _ _ _ _ _) as [[l|e]|]; try discriminate.
    injection Hresp as -> _.
    rewrite <- Hhosp.
    rewrite (booked_after_status doctor_id' date' ud appointment_id _
               (appointments db) Huser Hnc).
    reflexivity.
  - rewrite Hresp.
    apply (get_doctor_slots_booked _ _ u) in Hresp as [-> _]; [|assumption].
    do 4 f_equal. apply filter_ext_in. intros a Hin.
    pose proof (unbindable_id_absent appointment_id _ a Hrows Hid Hin) as Ha.
    apply Z.eqb_neq in Ha. rewrite Ha, orb_false_r.
    unfold booked_matches, slot_key_matches.
    destruct (doctor_id a =? doctor_id'), (String.eqb (date_ a) date'),
             (negb (String.eqb (status a) "Cancelled")),
             (hospital_id a =? session_hospital_id u);
      reflexivity.
Qed.

Lemma other_status_keeps_slot_witness :
  get_doctor_slots
    (db_after
       (update_appointment_status
          (db_after (update_appointment_status booked_once doctor1
                       cancel_request 1))
          doctor1 reopen_request 1))
    admin1 1 "2024-01-05"
  = Some (Jsonify (JSlots (tiling 540 15 4) ["09:00"]) 200).
Proof.
  refine (other_status_keeps_slot
            (db_after (update_appointment_status booked_once doctor1
                         cancel_request 1))
            admin1 doctor1
            {| user_id := 1; user_type := "admin"; session_hospital_id := 1 |}
            {| user_id := 1; user_type := "doctor"; session_hospital_id := 1 |}
            reopen_request 1 "2024-01-05" 1 (tiling 540 15 4) []
            _ _ _ _ _ _ _ _);
    try reflexivity; try discriminate.
  split; repeat constructor.
Defined.

(** ** Consistency of the tables *)



Lemma rowids_ok_bump (ids : list Z) (seq : Z) :
  rowids_ok ids seq -> rowids_ok ids (seq + 1).
Proof.
  intros [Hsorted Hbound]. split; [assumption|].
  eapply Forall_impl; [|exact Hbound]. cbn beta. intros i Hi. lia.
Qed.









(** The handlers keep the ids of [doctors] and [appointments] within
    SQLite's range, as long as the AUTOINCREMENT counter of [appointments]
    has not reached its end. *)
Lemma handlers_keep_sqlite_rows
  (integer_affinity : string -> option Z) (db : database) (s : session)
  (req : request) (n : Z) :
  sqlite_rows db ->
  sqlite_integer (appointments_seq db + 1) = true ->
  sqlite_rows (db_after (schedule_appointment integer_affinity db s req))
  /\ sqlite_rows (db_after (delete_appointment db s n))
  /\ sqlite_rows (db_after (update_appointment_status db s req n))
  /\ sqlite_rows (db_after (set_doctor_slots db s req n)).
Proof.
  intros Hrows Hseq. pose proof Hrows as [Hdoc Happ].
  split; [|split; [|split]].
  - unfold schedule_appointment.
    destruct (logged_in_as "admin" s) as [u|]; [|exact Hrows].
    destruct (String.eqb (method req) "POST"); [|exact Hrows].
    destruct (negb _); [exact Hrows|].
    unfold insert_appointment.
    destruct (integer_affinity _) as [p|]; [|exact Hrows].
    destruct (integer_affinity _) as [d|]; [|exact Hrows].
    destruct (mem p (patients db) && _ && _)%bool; [|exact Hrows].
    split; cbn [db_after doctors appointments]; [exact Hdoc|].
    apply Forall_app. split; [exact Happ|].
    repeat constructor. exact Hseq.
  - unfold delete_appointment.
    destruct (logged_in_as "admin" s) as [u|]; [|exact Hrows].
    destruct (negb (sqlite_integer n)); [exact Hrows|].
    split; cbn [db_after with_appointments doctors appointments];
      [exact Hdoc|].
    rewrite Forall_forall in *. intros a Ha.
    apply filter_In in Ha as [Ha _]. exact (Happ a Ha).
  - unfold update_appointment_status.
    destruct (logged_in_as "doctor" s) as [u|]; [|exact Hrows].
    destruct (String.eqb (strip _) ""); [exact Hrows|].
    destruct (negb (sqlite_integer n)); [exact Hrows|].
    split; cbn [db_after with_appointments doctors appointments];
      [exact Hdoc|].
    rewrite Forall_forall in *. intros a' Ha'.
    apply in_map_iff in Ha' as (a & <- & Ha). specialize (Happ a Ha).
    destruct (status_target n u a); exact Happ.
  - unfold set_doctor_slots.
    destruct (logged_in_as "admin" s) as [u|]; [|exact Hrows].
    destruct (negb (existsb _ (doctors db))); [exact Hrows|].
    destruct (String.eqb (method req) "POST"); [|exact Hrows].
    destruct (negb (all_truthy _)); [exact Hrows|].
    unfold replace_template.
    destruct (existsb _ (doctors db) && mem _ (staff db))%bool;
      [|exact Hrows].
    split; cbn [db_after doctors appointments]; assumption.
Qed.

(** * Upload names *)

Lemma contains_app (c : ascii) (a b : string) :
  contains c (a ++ b) = (contains c a || contains c b)%bool.
Proof.
  induction a as [|x a IH]; [reflexivity|].
  cbn [append contains]. rewrite IH, orb_assoc. reflexivity.
Qed.

Lemma rsplit_last_none (c : ascii) (s : string) :
  rsplit_last c s = None <-> contains c s = false.
Proof.
  induction s as [|x s IH]; cbn [rsplit_last contains]; [tauto|].
  destruct (rsplit_last c s) as [[h t]|].
  - split; [discriminate|]. intros H.
    apply orb_false_iff in H as [_ H]. apply IH in H. discriminate.
  - destruct (Ascii.eqb x c); cbn [orb].
    + split; discriminate.
    + split; [intros _; apply IH; reflexivity | reflexivity].
Qed.

Lemma rsplit_last_app (c : ascii) (h t : string) :
  contains c t = false -> rsplit_last c (h ++ String c t) = Some (h, t).
Proof.
  intros Ht. induction h as [|y h IH]; cbn [append rsplit_last].
  - apply rsplit_last_none in Ht. rewrite Ht, Ascii.eqb_refl. reflexivity.
  - rewrite IH. reflexivity.
Qed.

Lemma rsplit_last_sound (c : ascii) (s : string) :
  forall h t : string,
    rsplit_last c s = Some (h, t) ->
    s = h ++ String c t /\ contains c t = false.
Proof.
  induction s as [|x s IH]; intros h t H; cbn [rsplit_last] in H;
    [discriminate|].
  destruct (rsplit_last c s) as [[h' t']|] eqn:Hrec.
  - injection H as <- <-.
    destruct (IH h' t' eq_refl) as [-> Ht]. auto.
  - destruct (Ascii.eqb x c) eqn:Hx; [|discriminate].
    apply Ascii.eqb_eq in Hx. subst x. injection H as <- <-.
    apply rsplit_last_none in Hrec. auto.
Qed.

Lemma rsplit_last_some (c : ascii) (s h t : string) :
  rsplit_last c s = Some (h, t) <->
  s = h ++ String c t /\ contains c t = false.
Proof.
  split; [apply rsplit_last_sound|].
  intros [-> Ht]. apply rsplit_last_app. assumption.
Qed.

(** X12: [allowed_file] accepts a name exactly when it is [stem.ext] where
    [ext], the text after the last dot, is "png", "jpg" or "jpeg" in any
    letter case; the stem is free, so "x.php.PNG" and ".jpg" are accepted,
    while a name without a dot, one ending in a dot, and "x.png.exe" are
    refused. *)
Theorem allowed_file_spec (filename : string) :
  allowed_file filename = true
  <-> exists stem ext : string,
        filename = stem ++ "." ++ ext
        /\ contains dot ext = false
        /\ In (lower ext) ALLOWED_EXTENSIONS.
Proof.
  unfold allowed_file, rsplit1.
  destruct (rsplit_last dot filename) as [[h t]|] eqn:Hsplit.
  - apply rsplit_last_some in Hsplit as [Hname Ht].
    assert (Hdot : contains dot filename = true).
    { rewrite Hname, contains_app. cbn [contains].
      rewrite Ascii.eqb_refl, orb_true_r. reflexivity. }
    rewrite Hdot. cbn [andb nth]. rewrite existsb_exists. split.
    + intros (x & Hin & Hx). apply String.eqb_eq in Hx. subst x.
      exists h, t. auto.
    + intros (stem & ext & Hname' & Hext & Hin).
      assert (Hsame : rsplit_last dot filename = Some (stem, ext))
        by (apply rsplit_last_some; auto).
      assert (Hthis : rsplit_last dot filename = Some (h, t))
        by (apply rsplit_last_some; auto).
      assert (t = ext) by congruence. subst t.
      exists (lower ext). split; [assumption | apply String.eqb_refl].
  - apply rsplit_last_none in Hsplit. rewrite Hsplit. cbn [andb].
    split; [discriminate|].
    intros (stem & ext & Hname & _ & _). exfalso.
    rewrite Hname, contains_app in Hsplit. cbn [append contains] in Hsplit.
    rewrite Ascii.eqb_refl, orb_true_r in Hsplit. discriminate.
Qed.

(** * The medicine lines of a prescription *)

Lemma split_without_sep (sep : ascii) (s : string) :
  contains sep s = false -> split sep s = [s].
Proof.
  induction s as [|c s IH]; cbn [contains split]; [reflexivity|].
  intros H. apply orb_false_iff in H as [Hc Hs].
  rewrite Hc, (IH Hs). reflexivity.
Qed.

Lemma split_app_sep (sep : ascii) (a b : string) :
  contains sep a = false ->
  split sep (a ++ String sep b) = a :: split sep b.
Proof.
  induction a as [|c a IH]; cbn [contains append split].
  - intros _. rewrite Ascii.eqb_refl. reflexivity.
  - intros H. apply orb_false_iff in H as [Hc Ha].
    rewrite Hc, (IH Ha). reflexivity.
Qed.

Lemma split_length (sep : ascii) (s : string) :
  List.length (split sep s) = S (count sep s).
Proof.
  induction s as [|c s IH]; cbn [split count]; [reflexivity|].
  destruct (Ascii.eqb c sep); cbn [List.length plus].
  - rewrite IH. reflexivity.
  - destruct (split sep s) as [|part parts]; cbn [List.length] in *; lia.
Qed.

Lemma count_app (c : ascii) (a b : string) :
  count c (a ++ b) = (count c a + count c b)%nat.
Proof.
  induction a as [|x a IH]; cbn [append count]; [reflexivity|].
  rewrite IH. lia.
Qed.

Lemma contains_count (c : ascii) (s : string) :
  contains c s = true -> (1 <= count c s)%nat.
Proof.
  induction s as [|x s IH]; cbn [contains count]; [discriminate|].
  destruct (Ascii.eqb x c); cbn [orb]; [lia|].
  intros H. apply IH in H. lia.
Qed.

Lemma contains_nonempty (c : ascii) (s : string) :
  contains c s = true -> s <> "".
Proof. destruct s; [discriminate | discriminate]. Qed.

(** [strip] keeps every character that is not white space. *)
Lemma lstrip_keeps (c : ascii) (cs : list ascii) :
  In c cs -> is_space c = false -> In c (lstrip cs).
Proof.
  intros Hin Hc. induction cs as [|x cs IH]; [contradiction|].
  cbn [lstrip]. destruct (is_space x) eqn:Hx; [|assumption].
  destruct Hin as [->|Hin]; [congruence | apply IH; assumption].
Qed.

Lemma contains_In (c : ascii) (s : string) :
  contains c s = true -> In c (list_ascii_of_string s).
Proof.
  induction s as [|x s IH]; cbn [contains list_ascii_of_string];
    [discriminate|].
  destruct (Ascii.eqb x c) eqn:Hx; cbn [orb].
  - apply Ascii.eqb_eq in Hx. left. assumption.
  - intros H. right. apply IH. assumption.
Qed.

Lemma strip_keeps_pipe (s : string) :
  contains pipe s = true -> strip s <> "".
Proof.
  intros H. apply contains_In in H. unfold strip.
  assert (Hin : In pipe (rev (lstrip (rev (lstrip (list_ascii_of_string s)))))).
  { apply in_rev. rewrite rev_involutive.
    apply lstrip_keeps; [|reflexivity].
    apply in_rev. rewrite rev_involutive.
    apply lstrip_keeps; [assumption | reflexivity]. }
  destruct (rev _) as [|x l]; [contradiction | discriminate].
Qed.

Lemma field_free_fields (c : ascii) (m : medicine) :
  field_free c m = true ->
  contains c (name m) = false /\ contains c (dosage m) = false
  /\ contains c (frequency m) = false /\ contains c (morning m) = false
  /\ contains c (afternoon m) = false /\ contains c (evening m) = false
  /\ contains c (meal m) = false.
Proof.
  unfold field_free. rewrite negb_true_iff, !orb_false_iff. tauto.
Qed.

Lemma format_medicine_has_pipe (m : medicine) :
  contains pipe (format_medicine m) = true.
Proof.
  unfold format_medicine. rewrite contains_app. cbn [append contains].
  rewrite Ascii.eqb_refl. cbn [orb]. apply orb_true_r.
Qed.

Lemma format_medicine_one_line (m : medicine) :
  field_free newline m = true ->
  contains newline (format_medicine m) = false.
Proof.
  intros H. apply field_free_fields in H as (H0 & H1 & H2 & H3 & H4 & H5 & H6).
  unfold format_medicine.
  repeat (rewrite contains_app; cbn [append contains]).
  rewrite H0, H1, H2, H3, H4, H5, H6. reflexivity.
Qed.

Lemma parse_clean_line (m : medicine) :
  field_free pipe m = true ->
  parse_medicine_line (format_medicine m) = Some m.
Proof.
  intros H. unfold parse_medicine_line.
  pose proof (strip_keeps_pipe _ (format_medicine_has_pipe m)) as Hs.
  apply String.eqb_neq in Hs. rewrite Hs. cbn [negb].
  apply field_free_fields in H as (H0 & H1 & H2 & H3 & H4 & H5 & H6).
  unfold format_medicine. cbn [append].
  rewrite !split_app_sep by assumption.
  pose proof (split_without_sep pipe (meal m) H6) as Hm.
  unfold pipe in Hm. rewrite Hm.
  destruct m; reflexivity.
Qed.

Lemma parse_line_with_stray_pipe (m : medicine) :
  field_free pipe m = false ->
  parse_medicine_line (format_medicine m) = None.
Proof.
  intros H. unfold parse_medicine_line.
  destruct (negb _); [|reflexivity].
  assert (Hlen : (8 <= List.length (split pipe (format_medicine m)))%nat).
  { rewrite split_length. unfold format_medicine.
    repeat (rewrite count_app; cbn [append count]).
    rewrite !Ascii.eqb_refl.
    unfold field_free in H. apply negb_false_iff in H.
    repeat (apply orb_true_iff in H as [H|H]);
      apply contains_count in H; lia. }
  destruct (split pipe (format_medicine m))
    as [|? [|? [|? [|? [|? [|? [|? [|? ?]]]]]]]];
    cbn [List.length] in Hlen; try reflexivity; lia.
Qed.

Lemma split_joined_lines (x : string) (rest : list string) :
  Forall (fun l => contains newline l = false) (x :: rest) ->
  split newline (String.concat (String newline EmptyString) (x :: rest))
  = x :: rest.
Proof.
  revert x. induction rest as [|y rest IH]; intros x Hall.
  - inversion Hall; subst. cbn [String.concat].
    apply split_without_sep. assumption.
  - inversion Hall as [|? ? Hx Hrest]; subst.
    specialize (IH y Hrest).
    cbn [String.concat append] in *.
    pose proof (split_app_sep newline x
                  (match rest with
                   | [] => y
                   | _ :: _ =>
                       y ++ String newline
                              (String.concat (String newline "") rest)
                   end) Hx) as Hhead.
    unfold newline in *. rewrite Hhead, IH. reflexivity.
Qed.

(** Reading back stored medicines whose fields hold no line break: those
    with a ['|'] inside a field are lost, the others come back unchanged. *)
Lemma parse_stored_medicines (ms : list medicine) :
  Forall (fun m => field_free newline m = true) ms ->
  parse_medicines (Some (join_lines (map format_medicine ms)))
  = filter (field_free pipe) ms.
Proof.
  intros Hall. destruct ms as [|m ms]; [reflexivity|].
  assert (Hlines : Forall (fun l => contains newline l = false)
                     (format_medicine m :: map format_medicine ms)).
  { change (Forall (fun l => contains newline l = false)
              (map format_medicine (m :: ms))).
    apply Forall_map. eapply Forall_impl; [|exact Hall].
    intros m' Hm'. apply format_medicine_one_line. assumption. }
  assert (Hparse : forall l : list medicine,
             flat_map (fun line => option_list (parse_medicine_line line))
               (map format_medicine l)
             = filter (field_free pipe) l).
  { induction l as [|m' l IH]; [reflexivity|].
    cbn [map flat_map filter]. rewrite IH.
    destruct (field_free pipe m') eqn:Hfree.
    - rewrite (parse_clean_line m' Hfree). reflexivity.
    - rewrite (parse_line_with_stray_pipe m' Hfree). reflexivity. }
  rewrite <- Hparse.
  change (map format_medicine (m :: ms))
    with (format_medicine m :: map format_medicine ms).
  set (rest := map format_medicine ms) in *.
  pose proof (split_joined_lines _ _ Hlines) as Hsplit.
  assert (Htext : String.concat (String newline "") (format_medicine m :: rest)
                  <> "").
  { apply (contains_nonempty pipe).
    destruct rest; cbn [String.concat].
    - apply format_medicine_has_pipe.
    - rewrite contains_app, format_medicine_has_pipe. reflexivity. }
  apply String.eqb_neq in Htext.
  unfold parse_medicines, join_lines, truthy.
  rewrite Htext. cbn [negb]. rewrite Hsplit. reflexivity.
Qed.

(** X13: the medicines round trip.  When no value that the form supplies for
    a kept medicine contains ['|'] or a line break, the text that
    [prescriptions] stores parses back, in [prescriptions],
    [print_prescription] and [patient_history], to exactly the medicines
    that were kept, in their order; no medicine kept gives the empty text
    and the empty list. *)
Theorem medicines_round_trip (form : form_data) (medicine_count : Z) :
  Forall (fun m => field_free newline m = true /\ field_free pipe m = true)
    (collect_medicines form medicine_count) ->
  parse_medicines (Some (medicines_str form medicine_count))
  = collect_medicines form medicine_count.
Proof.
  intros Hall. unfold medicines_str.
  rewrite parse_stored_medicines.
  - apply filter_all. intros m Hin.
    rewrite Forall_forall in Hall. apply (Hall m Hin).
  - eapply Forall_impl; [|exact Hall]. cbn beta. tauto.
Qed.

Lemma medicines_round_trip_witness :
  parse_medicines (Some (medicines_str prescription_form 1))
  = [{| name := "Amoxicillin"; dosage := "500mg"; frequency := "3x";
        morning := "1"; afternoon := "0"; evening := "1";
        meal := "before" |}].
Proof.
  refine (medicines_round_trip prescription_form 1 _).
  repeat constructor.
Defined.

(** X14: a ['|'] typed into a medicine field loses that medicine on
    display: for stored medicines without line breaks in their fields, the
    parse returns exactly those whose fields hold no ['|'], without any
    error; the others are dropped because their line has more than seven
    parts. *)
Theorem stray_pipe_drops_medicine (form : form_data) (medicine_count : Z) :
  Forall (fun m => field_free newline m = true)
    (collect_medicines form medicine_count) ->
  parse_medicines (Some (medicines_str form medicine_count))
  = filter (field_free pipe) (collect_medicines form medicine_count).
Proof.
  intros Hall. unfold medicines_str. apply parse_stored_medicines. assumption.
Qed.

Lemma stray_pipe_drops_medicine_witness :
  parse_medicines (Some (medicines_str prescription_form 2))
  = [{| name := "Amoxicillin"; dosage := "500mg"; frequency := "3x";
        morning := "1"; afternoon := "0"; evening := "1";
        meal := "before" |}].
Proof.
  refine (stray_pipe_drops_medicine prescription_form 2 _).
  repeat constructor.
Defined.

(** * Accounts *)

Lemma find_app_none {A : Type} (f : A -> bool) (l l' : list A) :
  existsb f l = false -> find f (l ++ l')%list = find f l'.
Proof.
  induction l as [|x l IH]; [reflexivity|].
  cbn [existsb app find]. intros H. apply orb_false_iff in H as [Hx Hl].
  rewrite Hx. apply IH. assumption.
Qed.

Lemma NoDup_snoc {A : Type} (l : list A) (x : A) :
  NoDup l -> ~ In x l -> NoDup (l ++ [x])%list.
Proof.
  induction 1 as [|y l Hy Hl IH]; intros Hx; cbn [app].
  - repeat constructor. intros [].
  - constructor.
    + rewrite in_app_iff. intros [H|[H|[]]]; [contradiction|].
      subst. apply Hx. left. reflexivity.
    + apply IH. intros H. apply Hx. right. assumption.
Qed.

Lemma existsb_email_In (acc : accounts) (email' : string) :
  existsb (fun a => String.eqb (email a) email') (staff_accounts acc) = true
  <-> In email' (map email (staff_accounts acc)).
Proof.
  rewrite existsb_exists, in_map_iff. split.
  - intros (a & Hin & Ha). apply String.eqb_eq in Ha. eauto.
  - intros (a & Ha & Hin). exists a. split; [assumption|].
    apply String.eqb_eq. assumption.
Qed.

Lemma insert_staff_unique (acc acc' : accounts)
  (name' email' pwhash hospital_name' : string) :
  emails_unique acc ->
  insert_staff acc name' email' pwhash hospital_name' = Return acc' ->
  emails_unique acc'.
Proof.
  unfold insert_staff, emails_unique. intros Huniq.
  destruct (existsb _ (staff_accounts acc)) eqn:Hex; [discriminate|].
  intros H. injection H as <-. cbn [staff_accounts].
  rewrite map_app. cbn [map email].
  apply NoDup_snoc; [assumption|].
  intros Hin. apply existsb_email_In in Hin. congruence.
Qed.

(** X15: registration keeps the staff emails pairwise distinct and never
    touches the session; a registration with all fields present whose email
    (after stripping) is already registered changes nothing and answers
    "Email already exists!". *)
Theorem register_keeps_emails_unique
  (generate_password_hash : string -> string -> string) (salt : string)
  (acc : accounts) (s : session) (req : request) :
  emails_unique acc ->
  let out := register generate_password_hash salt acc s req in
  emails_unique (accounts_after out)
  /\ session_after out = s
  /\ (method req = "POST" ->
      all_truthy [strip (form_get (form req) "name");
                  strip (form_get (form req) "email");
                  strip (form_get (form req) "password");
                  strip (form_get (form req) "hospital_name")] = true ->
      In (strip (form_get (form req) "email")) (map email (staff_accounts acc)) ->
      accounts_after out = acc
      /\ auth_flashed out = [("Email already exists!", "danger")]).
Proof.
  intros Huniq out. unfold out, register.
  destruct (String.eqb (method req) "POST") eqn:Hpost;
    [|split; [exact Huniq|split; [reflexivity|]];
      intros Hm; rewrite Hm in Hpost; discriminate].
  destruct (negb (all_truthy _)) eqn:Hfields.
  - split; [exact Huniq|split; [reflexivity|]].
    intros _ Hall. rewrite Hall in Hfields. discriminate.
  - destruct (insert_staff _ _ _ _ _) as [acc'|e] eqn:Hins.
    + split; [eapply insert_staff_unique; eassumption|split; [reflexivity|]].
      intros _ _ Hin. apply existsb_email_In in Hin.
      unfold insert_staff in Hins. rewrite Hin in Hins. discriminate.
    + split; [exact Huniq|split; [reflexivity|]]. auto.
Qed.

Lemma two_hospitals_emails_unique : emails_unique two_hospitals.
Proof.
  unfold emails_unique, two_hospitals; cbn.
  constructor; [intros [H|[]]; discriminate|].
  constructor; [intros []|constructor].
Qed.

Lemma register_keeps_emails_unique_witness :
  accounts_after (register plain_hash "salt" two_hospitals None register_request)
  = two_hospitals
  /\ auth_flashed (register plain_hash "salt" two_hospitals None register_request)
     = [("Email already exists!", "danger")].
Proof.
  refine (proj2 (proj2 (register_keeps_emails_unique plain_hash "salt"
                          two_hospitals None register_request
                          two_hospitals_emails_unique)) _ _ _);
    [reflexivity | reflexivity | left; reflexivity].
Defined.

(** X16: registration followed by an admin login.  When the hash pair
    accepts the password it hashed, a registration with all fields present
    and a new email succeeds, and a later login through the admin form with
    the same email and password opens a session whose user id and tenant
    are both the id of the new staff row, the counter plus one. *)
Theorem register_then_login
  (generate_password_hash : string -> string -> string)
  (check_password_hash : string -> string -> bool)
  (salt : string) (acc : accounts) (s s' : session) (req req' : request) :
  (forall salt' p, check_password_hash (generate_password_hash salt' p) p = true) ->
  method req = "POST" ->
  let email' := strip (form_get (form req) "email") in
  let password' := strip (form_get (form req) "password") in
  all_truthy [strip (form_get (form req) "name"); email'; password';
              strip (form_get (form req) "hospital_name")] = true ->
  ~ In email' (map email (staff_accounts acc)) ->
  method req' = "POST" ->
  strip (form_get (form req') "username") = email' ->
  strip (form_get (form req') "password") = password' ->
  strip (form_get (form req') "user_type") = "admin" ->
  let out := register generate_password_hash salt acc s req in
  auth_flashed out = [("Registration successful! Please login.", "success")]
  /\ login check_password_hash (accounts_after out) s' req'
     = {| accounts_after := accounts_after out;
          session_after :=
            Some {| user_id := staff_seq acc + 1; user_type := "admin";
                    session_hospital_id := staff_seq acc + 1 |};
          auth_flashed := [];
          auth_reply := Redirect "admin_dashboard" |}.
Proof.
  intros Hhash Hpost email' password' Hfields Hnew Hpost' Huser Hpass Htype out.
  assert (Hex : existsb (fun a => String.eqb (email a) email') (staff_accounts acc)
                = false).
  { destruct (existsb _ (staff_accounts acc)) eqn:E; [|reflexivity].
    apply existsb_email_In in E. contradiction. }
  assert (Hout : out
                 = {| accounts_after :=
                        {| staff_accounts :=
                             (staff_accounts acc ++
                              [{| staff_id := staff_seq acc + 1;
                                  staff_name := strip (form_get (form req) "name");
                                  email := email';
                                  staff_password :=
                                    generate_password_hash salt password';
                                  hospital_name :=
                                    strip (form_get (form req) "hospital_name") |}])%list;
                           staff_seq := staff_seq acc + 1;
                           doctor_accounts := doctor_accounts acc |};
                      session_after := s;
                      auth_flashed := [("Registration successful! Please login.",
                                        "success")];
                      auth_reply := Redirect "login" |}).
  { unfold out, register. rewrite Hpost. cbn [String.eqb Ascii.eqb Bool.eqb].
    fold email' password'. rewrite Hfields. cbn [negb].
    unfold insert_staff. rewrite Hex. reflexivity. }
  rewrite Hout. cbn [auth_flashed accounts_after]. split; [reflexivity|].
  unfold login. rewrite Hpost'. cbn [String.eqb Ascii.eqb Bool.eqb].
  rewrite Huser, Hpass, Htype.
  assert (Hlogin : all_truthy [email'; password'; "admin"] = true).
  { cbn [all_truthy forallb] in Hfields |- *.
    apply andb_true_iff in Hfields as [_ Hfields].
    apply andb_true_iff in Hfields as [He Hfields].
    apply andb_true_iff in Hfields as [Hp _].
    rewrite He, Hp. reflexivity. }
  rewrite Hlogin. cbn [negb String.eqb Ascii.eqb Bool.eqb].
  unfold staff_by_email. cbn [staff_accounts].
  rewrite find_app_none by assumption.
  cbn [find email]. rewrite String.eqb_refl. cbn [staff_password].
  rewrite Hhash. reflexivity.
Qed.

Lemma register_then_login_witness :
  login plain_check
    (accounts_after (register plain_hash "salt" no_accounts None register_request))
    None admin_login_request
  = {| accounts_after :=
         accounts_after (register plain_hash "salt" no_accounts None
                           register_request);
       session_after :=
         Some {| user_id := 1; user_type := "admin"; session_hospital_id := 1 |};
       auth_flashed := [];
       auth_reply := Redirect "admin_dashboard" |}.
Proof.
  refine (proj2 (register_then_login plain_hash plain_check "salt" no_accounts
                   None None register_request admin_login_request
                   _ _ _ _ _ _ _ _));
    try reflexivity.
  - intros salt' p. apply String.eqb_refl.
  - intros [].
Defined.

Lemma doctor_session_user_type
  (check_password_hash : string -> string -> bool) (acc : accounts)
  (username' password' role role' : string) (u : user_session) :
  doctor_session check_password_hash acc username' password' role = Some u ->
  doctor_session check_password_hash acc username' password' role'
  = Some {| user_id := user_id u; user_type := role';
            session_hospital_id := session_hospital_id u |}.
Proof.
  unfold doctor_session.
  destruct (doctor_by_username acc username') as [d|]; [|discriminate].
  destruct (password d) as [pwhash|]; [|discriminate].
  destruct (check_password_hash pwhash password'); [|discriminate].
  intros H. injection H as <-. reflexivity.
Qed.

(** X17: the admin login form serves doctors under whatever role text was
    submitted.  Credentials with which [doctor_login] would open a doctor's
    session open, through [login] with a role other than "admin", a session
    for the same doctor and tenant whose role is the submitted text; unless
    that text is "doctor", the session passes neither the admin nor the
    doctor check, so a status update with it only redirects to the login
    page and leaves the ledger as it is. *)
Theorem login_keeps_submitted_role
  (check_password_hash : string -> string -> bool) (acc : accounts)
  (s : session) (req : request) (u : user_session) :
  method req = "POST" ->
  let username' := strip (form_get (form req) "username") in
  let password' := strip (form_get (form req) "password") in
  let role := strip (form_get (form req) "user_type") in
  all_truthy [username'; password'; role] = true ->
  role <> "admin" ->
  doctor_session check_password_hash acc username' password' "doctor" = Some u ->
  let out := login check_password_hash acc s req in
  session_after out
  = Some {| user_id := user_id u; user_type := role;
            session_hospital_id := session_hospital_id u |}
  /\ auth_reply out = Redirect "doctor_dashboard"
  /\ (role <> "doctor" ->
      logged_in_as "admin" (session_after out) = None
      /\ logged_in_as "doctor" (session_after out) = None
      /\ forall (db : database) (req' : request) (n : Z),
           update_appointment_status db (session_after out) req' n
           = {| db_after := db; flashed := []; reply := Redirect "login" |}).
Proof.
  intros Hpost username' password' role Hfields Hrole Hdoc out.
  assert (Hout : out
                 = {| accounts_after := acc;
                      session_after :=
                        Some {| user_id := user_id u; user_type := role;
                                session_hospital_id := session_hospital_id u |};
                      auth_flashed := [];
                      auth_reply := Redirect "doctor_dashboard" |}).
  { unfold out, login. rewrite Hpost. cbn [String.eqb Ascii.eqb Bool.eqb].
    fold username' password' role. rewrite Hfields. cbn [negb].
    apply String.eqb_neq in Hrole. rewrite Hrole.
    rewrite (doctor_session_user_type _ _ _ _ _ role _ Hdoc). reflexivity. }
  rewrite Hout. cbn [session_after auth_reply].
  split; [reflexivity|split; [reflexivity|]].
  intros Hnd.
  assert (Ha : logged_in_as "admin"
                 (Some {| user_id := user_id u; user_type := role;
                          session_hospital_id := session_hospital_id u |})
               = None).
  { unfold logged_in_as. cbn [user_type].
    apply String.eqb_neq in Hrole. rewrite Hrole. reflexivity. }
  assert (Hd : logged_in_as "doctor"
                 (Some {| user_id := user_id u; user_type := role;
                          session_hospital_id := session_hospital_id u |})
               = None).
  { unfold logged_in_as. cbn [user_type].
    apply String.eqb_neq in Hnd. rewrite Hnd. reflexivity. }
  split; [exact Ha|split; [exact Hd|]].
  intros db req' n. unfold update_appointment_status. rewrite Hd. reflexivity.
Qed.

Lemma login_keeps_submitted_role_witness :
  session_after (login plain_check two_hospitals None nurse_login_request)
  = Some {| user_id := 8; user_type := "nurse"; session_hospital_id := 2 |}.
Proof.
  refine (proj1 (login_keeps_submitted_role plain_check two_hospitals None
                   nurse_login_request
                   {| user_id := 8; user_type := "doctor";
                      session_hospital_id := 2 |} _ _ _ _));
    try reflexivity.
  discriminate.
Defined.

(** ** Doctor credentials *)

(** The outcome of [set_doctor_credentials] once the form has passed the
    checks that precede the database. *)
Lemma set_doctor_credentials_checked
  (generate_password_hash : string -> string -> string) (salt : string)
  (acc : accounts) (s : session) (u : user_session) (req : request)
  (doctor_id' : Z) :
  logged_in_as "admin" s = Some u ->
  existsb (is_doctor_of doctor_id' (session_hospital_id u)) (doctor_accounts acc)
  = true ->
  method req = "POST" ->
  (4 <= String.length (strip (form_get (form req) "username")))%nat ->
  (8 <= String.length (strip (form_get (form req) "password")))%nat ->
  set_doctor_credentials generate_password_hash salt acc s req doctor_id'
  = let hospital := session_hospital_id u in
    let username' := strip (form_get (form req) "username") in
    let password' := strip (form_get (form req) "password") in
    if existsb (fun d =>
                  has_username username' d
                  && negb (doctor_key (doctor_row d) =? doctor_id')
                  && (doctor_hospital_id (doctor_row d) =? hospital))
         (doctor_accounts acc)
    then {| accounts_after := acc; session_after := s;
            auth_flashed := [("Username already in use", "danger")];
            auth_reply := Redirect "set_doctor_credentials" |}
    else
      match update_credentials acc doctor_id' hospital username'
              (generate_password_hash salt password') with
      | Return acc' =>
          {| accounts_after := acc'; session_after := s;
             auth_flashed := [("Doctor credentials updated successfully!",
                               "success")];
             auth_reply := Redirect "view_doctors" |}
      | Raise _ =>
          {| accounts_after := acc; session_after := s;
             auth_flashed := [("Failed to update credentials", "danger")];
             auth_reply := RenderTemplate "admin/set_doctor_credentials.html" |}
      end.
Proof.
  intros Hadmin Hdoc Hpost Hu Hp. unfold set_doctor_credentials.
  rewrite Hadmin, Hdoc, Hpost. cbn [negb String.eqb Ascii.eqb Bool.eqb].
  apply Nat.ltb_ge in Hu, Hp. rewrite Hu, Hp. reflexivity.
Qed.

Lemma find_updated_doctor (acc : accounts) (doctor_id' hospital : Z)
  (username' pwhash : string) (l : list doctor_account) :
  existsb (fun a => staff_id a =? hospital) (staff_accounts acc) = true ->
  (forall d, In d l -> has_username username' d = true ->
             is_doctor_of doctor_id' hospital d = true) ->
  existsb (is_doctor_of doctor_id' hospital) l = true ->
  exists d,
    is_doctor_of doctor_id' hospital d = true
    /\ find (fun d =>
               match username d, password d with
               | Some n, Some _ =>
                   String.eqb n username'
                   && existsb (fun a => staff_id a
                                        =? doctor_hospital_id (doctor_row d))
                        (staff_accounts acc)
               | _, _ => false
               end)
         (map (fun d => if is_doctor_of doctor_id' hospital d
                        then {| doctor_row := doctor_row d;
                                username := Some username';
                                password := Some pwhash |}
                        else d) l)
       = Some {| doctor_row := doctor_row d; username := Some username';
                 password := Some pwhash |}.
Proof.
  intros Hstaff. induction l as [|d l IH]; intros Honly Hex; [discriminate|].
  cbn [existsb] in Hex. cbn [map find].
  destruct (is_doctor_of doctor_id' hospital d) eqn:Ht.
  - exists d. split; [assumption|].
    cbn [username password doctor_row]. rewrite String.eqb_refl. cbn [andb].
    unfold is_doctor_of in Ht. apply andb_true_iff in Ht as [_ Hh].
    apply Z.eqb_eq in Hh. rewrite Hh, Hstaff. reflexivity.
  - cbn [orb] in Hex.
    assert (Hskip : match username d, password d with
                    | Some n, Some _ =>
                        String.eqb n username'
                        && existsb (fun a => staff_id a
                                             =? doctor_hospital_id (doctor_row d))
                             (staff_accounts acc)
                    | _, _ => false
                    end = false).
    { pose proof (Honly d (or_introl eq_refl)) as Hd. unfold has_username in Hd.
      destruct (username d) as [n|]; [|reflexivity].
      destruct (password d); [|reflexivity].
      destruct (String.eqb n username'); [|reflexivity].
      specialize (Hd eq_refl). congruence. }
    rewrite Hskip. apply IH; [|assumption].
    intros d' Hin. apply Honly. right. assumption.
Qed.

(** X18: credentials set by the admin open the doctor's session.  When the
    hash pair accepts the password it hashed, a submission for a doctor of
    the admin's tenant with a username of at least 4 and a password of at
    least 8 characters that no other doctor carries succeeds, and
    [doctor_login] with that username and password then opens a session
    for that doctor with role "doctor" in the admin's tenant. *)
Theorem credentials_then_login
  (generate_password_hash : string -> string -> string)
  (check_password_hash : string -> string -> bool)
  (salt : string) (acc : accounts) (s s' : session) (u : user_session)
  (req req' : request) (doctor_id' : Z) :
  (forall salt' p, check_password_hash (generate_password_hash salt' p) p = true) ->
  logged_in_as "admin" s = Some u ->
  let h := session_hospital_id u in
  existsb (is_doctor_of doctor_id' h) (doctor_accounts acc) = true ->
  existsb (fun a => staff_id a =? h) (staff_accounts acc) = true ->
  method req = "POST" ->
  let username' := strip (form_get (form req) "username") in
  let password' := strip (form_get (form req) "password") in
  (4 <= String.length username')%nat ->
  (8 <= String.length password')%nat ->
  (forall d, In d (doctor_accounts acc) -> has_username username' d = true ->
             is_doctor_of doctor_id' h d = true) ->
  method req' = "POST" ->
  strip (form_get (form req') "username") = username' ->
  strip (form_get (form req') "password") = password' ->
  let out :=
    set_doctor_credentials generate_password_hash salt acc s req doctor_id' in
  auth_flashed out = [("Doctor credentials updated successfully!", "success")]
  /\ session_after
       (doctor_login check_password_hash (accounts_after out) s' req')
     = Some {| user_id := doctor_id'; user_type := "doctor";
               session_hospital_id := h |}.
Proof.
  intros Hhash Hadmin h Hdoc Hstaff Hpost username' password' Hu Hp Honly
    Hpost' Huser Hpass out.
  assert (Hfree : forall keep : doctor_account -> bool,
             (forall d, keep d = true -> is_doctor_of doctor_id' h d = false) ->
             existsb (fun d => has_username username' d && keep d)
               (doctor_accounts acc) = false).
  { intros keep Hkeep.
    destruct (existsb (fun d => has_username username' d && keep d)
                (doctor_accounts acc)) eqn:E; [|reflexivity].
    apply existsb_exists in E as (d & Hin & Hd).
    apply andb_true_iff in Hd as [Hn Hk].
    specialize (Hkeep d Hk). rewrite (Honly d Hin Hn) in Hkeep. discriminate. }
  assert (Hout : out
                 = {| accounts_after :=
                        {| staff_accounts := staff_accounts acc;
                           staff_seq := staff_seq acc;
                           doctor_accounts :=
                             map (fun d =>
                                    if is_doctor_of doctor_id' h d
                                    then {| doctor_row := doctor_row d;
                                            username := Some username';
                                            password :=
                                              Some (generate_password_hash salt
                                                      password') |}
                                    else d)
                               (doctor_accounts acc) |};
                      session_after := s;
                      auth_flashed := [("Doctor credentials updated successfully!",
                                        "success")];
                      auth_reply := Redirect "view_doctors" |}).
  { unfold out.
    rewrite (set_doctor_credentials_checked _ _ _ _ u) by assumption.
    cbv zeta. fold h username' password'.
    assert (H1 : existsb
                   (fun d =>
                      has_username username' d
                      && negb (doctor_key (doctor_row d) =? doctor_id')
                      && (doctor_hospital_id (doctor_row d) =? h))
                   (doctor_accounts acc) = false).
    { destruct (existsb
                  (fun d =>
                     has_username username' d
                     && negb (doctor_key (doctor_row d) =? doctor_id')
                     && (doctor_hospital_id (doctor_row d) =? h))
                  (doctor_accounts acc)) eqn:E; [|reflexivity].
      apply existsb_exists in E as (d & Hin & Hd).
      apply andb_true_iff in Hd as [Hd _].
      apply andb_true_iff in Hd as [Hn Hk].
      pose proof (Honly d Hin Hn) as Ht. unfold is_doctor_of in Ht.
      apply andb_true_iff in Ht as [Ht _].
      rewrite Ht in Hk. discriminate. }
    rewrite H1. unfold update_credentials.
    rewrite (Hfree (fun d => negb (is_doctor_of doctor_id' h d))).
    + reflexivity.
    + intros d Hd. apply negb_true_iff in Hd. assumption. }
  rewrite Hout. cbn [auth_flashed accounts_after]. split; [reflexivity|].
  unfold doctor_login. rewrite Hpost'. cbn [String.eqb Ascii.eqb Bool.eqb].
  rewrite Huser, Hpass.
  assert (Hfields : all_truthy [username'; password'] = true).
  { cbn [all_truthy forallb].
    destruct username'; [cbn in Hu; lia|].
    destruct password'; [cbn in Hp; lia|]. reflexivity. }
  rewrite Hfields. cbn [negb].
  unfold doctor_session, doctor_by_username. cbn [staff_accounts doctor_accounts].
  destruct (find_updated_doctor acc doctor_id' h username'
              (generate_password_hash salt password') (doctor_accounts acc)
              Hstaff Honly Hdoc) as (d & Hd & Hfind).
  rewrite Hfind. cbn [password doctor_row]. rewrite Hhash.
  cbn [session_after].
  unfold is_doctor_of in Hd. apply andb_true_iff in Hd as [Hk Hh].
  apply Z.eqb_eq in Hk, Hh. rewrite Hk, Hh. reflexivity.
Qed.

Lemma credentials_then_login_witness :
  session_after
    (doctor_login plain_check
       (accounts_after
          (set_doctor_credentials plain_hash "salt" two_hospitals admin1
             (credentials_request "drjones" "eight-chars") 7))
       None (credentials_request "drjones" "eight-chars"))
  = Some {| user_id := 7; user_type := "doctor"; session_hospital_id := 1 |}.
Proof.
  refine (proj2 (credentials_then_login plain_hash plain_check "salt"
                   two_hospitals admin1 None
                   {| user_id := 1; user_type := "admin";
                      session_hospital_id := 1 |}
                   (credentials_request "drjones" "eight-chars")
                   (credentials_request "drjones" "eight-chars") 7
                   _ _ _ _ _ _ _ _ _ _ _));
    try reflexivity.
  - intros salt' p. apply String.eqb_refl.
  - cbn. lia.
  - cbn. lia.
  - intros d [<-|[<-|[]]]; discriminate.
Defined.

(** X19: a username collision is reported in two ways.  For a submission
    that passes the length checks: when another doctor of the admin's own
    tenant carries the username, the answer is "Username already in use";
    when only doctors of other tenants carry it, the pre-check does not
    see them, the UNIQUE column rejects the update, and the answer is
    "Failed to update credentials".  Neither changes the accounts. *)
Theorem username_collisions
  (generate_password_hash : string -> string -> string) (salt : string)
  (acc : accounts) (s : session) (u : user_session) (req : request)
  (doctor_id' : Z) :
  logged_in_as "admin" s = Some u ->
  let h := session_hospital_id u in
  existsb (is_doctor_of doctor_id' h) (doctor_accounts acc) = true ->
  method req = "POST" ->
  let username' := strip (form_get (form req) "username") in
  (4 <= String.length username')%nat ->
  (8 <= String.length (strip (form_get (form req) "password")))%nat ->
  let out :=
    set_doctor_credentials generate_password_hash salt acc s req doctor_id' in
  ((exists d, In d (doctor_accounts acc) /\ has_username username' d = true
              /\ doctor_key (doctor_row d) <> doctor_id'
              /\ doctor_hospital_id (doctor_row d) = h) ->
   accounts_after out = acc
   /\ auth_flashed out = [("Username already in use", "danger")])
  /\ ((forall d, In d (doctor_accounts acc) -> has_username username' d = true ->
                 doctor_hospital_id (doctor_row d) <> h) ->
      (exists d, In d (doctor_accounts acc) /\ has_username username' d = true) ->
      accounts_after out = acc
      /\ auth_flashed out = [("Failed to update credentials", "danger")]).
Proof.
  intros Hadmin h Hdoc Hpost username' Hu Hp out. unfold out.
  rewrite (set_doctor_credentials_checked _ _ _ _ u) by assumption.
  cbv zeta. fold h username'. split.
  - intros (d & Hin & Hn & Hk & Hh).
    assert (Hex : existsb
                    (fun d =>
                       has_username username' d
                       && negb (doctor_key (doctor_row d) =? doctor_id')
                       && (doctor_hospital_id (doctor_row d) =? h))
                    (doctor_accounts acc) = true).
    { apply existsb_exists. exists d. split; [assumption|].
      apply Z.eqb_neq in Hk. apply Z.eqb_eq in Hh.
      rewrite Hn, Hk, Hh. reflexivity. }
    rewrite Hex. auto.
  - intros Hforeign (d & Hin & Hn).
    assert (Hex : existsb
                    (fun d =>
                       has_username username' d
                       && negb (doctor_key (doctor_row d) =? doctor_id')
                       && (doctor_hospital_id (doctor_row d) =? h))
                    (doctor_accounts acc) = false).
    { destruct (existsb
                  (fun d =>
                     has_username username' d
                     && negb (doctor_key (doctor_row d) =? doctor_id')
                     && (doctor_hospital_id (doctor_row d) =? h))
                  (doctor_accounts acc)) eqn:E; [|reflexivity].
      apply existsb_exists in E as (d' & Hin' & Hd').
      apply andb_true_iff in Hd' as [Hd' Hh'].
      apply andb_true_iff in Hd' as [Hn' _].
      apply Z.eqb_eq in Hh'. exfalso. exact (Hforeign d' Hin' Hn' Hh'). }
    rewrite Hex. unfold update_credentials.
    assert (Hclash : existsb
                       (fun d => has_username username' d
                                 && negb (is_doctor_of doctor_id' h d))
                       (doctor_accounts acc) = true).
    { apply existsb_exists. exists d. split; [assumption|].
      rewrite Hn. cbn [andb]. apply negb_true_iff. unfold is_doctor_of.
      pose proof (Hforeign d Hin Hn) as Hh. apply Z.eqb_neq in Hh.
      rewrite Hh. apply andb_false_r. }
    rewrite Hclash, Hdoc. auto.
Qed.

Lemma username_collisions_witness :
  accounts_after
    (set_doctor_credentials plain_hash "salt" two_hospitals admin1
       (credentials_request "drsmith" "eight-chars") 7)
  = two_hospitals
  /\ auth_flashed
       (set_doctor_credentials plain_hash "salt" two_hospitals admin1
          (credentials_request "drsmith" "eight-chars") 7)
     = [("Failed to update credentials", "danger")].
Proof.
  refine (proj2 (username_collisions plain_hash "salt" two_hospitals admin1
                   {| user_id := 1; user_type := "admin";
                      session_hospital_id := 1 |}
                   (credentials_request "drsmith" "eight-chars") 7
                   _ _ _ _ _) _ _);
    try reflexivity.
  - cbn. lia.
  - cbn. lia.
  - intros d [<-|[<-|[]]]; cbn; [discriminate | lia].
  - eexists. split; [right; left; reflexivity | reflexivity].
Defined.

(** ** The default administrator *)

(** X20: [init_db] creates the default administrator once.  Running it
    again, with whatever salt, changes nothing; it keeps the staff emails
    pairwise distinct; and when no staff row had the default email before,
    a login through the admin form with "admin@hospital.com" and "admin123"
    opens an admin session for the new row, provided the hash pair accepts
    the password it hashed. *)
Theorem init_db_default_admin
  (generate_password_hash : string -> string -> string)
  (check_password_hash : string -> string -> bool)
  (salt salt2 : string) (acc : accounts) (s : session) (req : request) :
  init_db generate_password_hash salt2 (init_db generate_password_hash salt acc)
  = init_db generate_password_hash salt acc
  /\ (emails_unique acc -> emails_unique (init_db generate_password_hash salt acc))
  /\ In "admin@hospital.com"
       (map email (staff_accounts (init_db generate_password_hash salt acc)))
  /\ ((forall salt' p,
          check_password_hash (generate_password_hash salt' p) p = true) ->
      ~ In "admin@hospital.com" (map email (staff_accounts acc)) ->
      method req = "POST" ->
      strip (form_get (form req) "username") = "admin@hospital.com" ->
      strip (form_get (form req) "password") = "admin123" ->
      strip (form_get (form req) "user_type") = "admin" ->
      session_after
        (login check_password_hash (init_db generate_password_hash salt acc) s req)
      = Some {| user_id := staff_seq acc + 1; user_type := "admin";
                session_hospital_id := staff_seq acc + 1 |}).
Proof.
  assert (Hcount : forall a : accounts,
             (List.length (filter (fun r => String.eqb (email r) "admin@hospital.com")
                             (staff_accounts a)) =? 0)%nat
             = negb (existsb (fun r => String.eqb (email r) "admin@hospital.com")
                       (staff_accounts a))).
  { intros a. induction (staff_accounts a) as [|r l IH]; [reflexivity|].
    cbn [filter existsb]. destruct (String.eqb (email r) "admin@hospital.com");
      [reflexivity | exact IH]. }
  assert (Hinit : forall sl,
             init_db generate_password_hash sl acc
             = if existsb (fun r => String.eqb (email r) "admin@hospital.com")
                    (staff_accounts acc)
               then acc
               else {| staff_accounts :=
                         (staff_accounts acc ++
                          [{| staff_id := staff_seq acc + 1;
                              staff_name := "Admin";
                              email := "admin@hospital.com";
                              staff_password :=
                                generate_password_hash sl "admin123";
                              hospital_name := "City General Hospital" |}])%list;
                       staff_seq := staff_seq acc + 1;
                       doctor_accounts := doctor_accounts acc |}).
  { intros sl. unfold init_db, insert_staff. rewrite Hcount.
    destruct (existsb _ (staff_accounts acc)); reflexivity. }
  assert (Hthere : existsb (fun r => String.eqb (email r) "admin@hospital.com")
                     (staff_accounts (init_db generate_password_hash salt acc))
                   = true).
  { rewrite Hinit.
    destruct (existsb _ (staff_accounts acc)) eqn:E; [exact E|].
    cbn [staff_accounts]. rewrite existsb_app. cbn [existsb email].
    rewrite String.eqb_refl. apply orb_true_r. }
  split; [|split; [|split]].
  - unfold init_db at 1. rewrite Hcount, Hthere. reflexivity.
  - intros Huniq. rewrite Hinit.
    destruct (existsb _ (staff_accounts acc)) eqn:E; [exact Huniq|].
    unfold emails_unique. cbn [staff_accounts]. rewrite map_app. cbn [map email].
    apply NoDup_snoc; [exact Huniq|].
    intros Hin. apply existsb_email_In in Hin. congruence.
  - apply existsb_email_In. exact Hthere.
  - intros Hhash Hnew Hpost Huser Hpass Htype.
    assert (Hex : existsb (fun r => String.eqb (email r) "admin@hospital.com")
                    (staff_accounts acc) = false).
    { destruct (existsb _ (staff_accounts acc)) eqn:E; [|reflexivity].
      apply existsb_email_In in E. contradiction. }
    rewrite Hinit, Hex. unfold login.
    rewrite Hpost. cbn [String.eqb Ascii.eqb Bool.eqb].
    rewrite Huser, Hpass, Htype.
    cbn [all_truthy forallb negb String.eqb Ascii.eqb Bool.eqb andb].
    unfold staff_by_email. cbn [staff_accounts].
    rewrite find_app_none by assumption.
    cbn [find email String.eqb Ascii.eqb Bool.eqb staff_password].
    rewrite Hhash. reflexivity.
Qed.

Lemma init_db_default_admin_witness :
  session_after
    (login plain_check (init_db plain_hash "salt" no_accounts) None
       {| method := "POST";
          form := [("username", "admin@hospital.com"); ("password", "admin123");
                   ("user_type", "admin")] |})
  = Some {| user_id := 1; user_type := "admin"; session_hospital_id := 1 |}.
Proof.
  refine (proj2 (proj2 (proj2
            (init_db_default_admin plain_hash plain_check "salt" "salt"
               no_accounts None
               {| method := "POST";
                  form := [("username", "admin@hospital.com");
                           ("password", "admin123"); ("user_type", "admin")] |})))
            _ _ _ _ _ _);
    try reflexivity.
  - intros salt' p. apply String.eqb_refl.
  - intros [].
Defined.

(** ** Uniqueness of usernames *)

Lemma in_usernames (n : string) (l : list doctor_account) :
  In n (flat_map (fun d => option_list (username d)) l)
  <-> exists d, In d l /\ username d = Some n.
Proof.
  rewrite in_flat_map. split.
  - intros (d & Hin & Hn). exists d. split; [assumption|].
    destruct (username d) as [m|]; cbn in Hn; [|contradiction].
    destruct Hn as [->|[]]. reflexivity.
  - intros (d & Hin & Hn). exists d. split; [assumption|].
    rewrite Hn. left. reflexivity.
Qed.

Lemma has_username_true (n : string) (d : doctor_account) :
  has_username n d = true <-> username d = Some n.
Proof.
  unfold has_username. destruct (username d) as [m|].
  - rewrite String.eqb_eq. split; congruence.
  - split; discriminate.
Qed.

Lemma updated_usernames_unique (doctor_id' hospital : Z) (n pwhash : string)
  (l : list doctor_account) :
  NoDup (map (fun d => doctor_key (doctor_row d)) l) ->
  NoDup (flat_map (fun d => option_list (username d)) l) ->
  (forall d, In d l -> has_username n d = true ->
             is_doctor_of doctor_id' hospital d = true) ->
  NoDup (flat_map (fun d => option_list (username d))
           (map (fun d => if is_doctor_of doctor_id' hospital d
                          then {| doctor_row := doctor_row d;
                                  username := Some n;
                                  password := Some pwhash |}
                          else d) l)).
Proof.
  induction l as [|d r IH]; intros Hkeys Hnames Honly; [constructor|].
  cbn [map] in Hkeys. inversion Hkeys as [|? ? Hfresh Hkeys']; subst.
  cbn [flat_map] in Hnames.
  assert (Hnames' : NoDup (flat_map (fun d => option_list (username d)) r))
    by (eapply NoDup_app_remove_l; exact Hnames).
  assert (Honly' : forall d', In d' r -> has_username n d' = true ->
                              is_doctor_of doctor_id' hospital d' = true)
    by (intros d' Hin; apply Honly; right; assumption).
  cbn [map flat_map].
  destruct (is_doctor_of doctor_id' hospital d) eqn:Ht.
  - (* the updated row: no other row is updated or carries the name *)
    assert (Hrest : forall d', In d' r -> is_doctor_of doctor_id' hospital d' = false).
    { intros d' Hin.
      destruct (is_doctor_of doctor_id' hospital d') eqn:Ht'; [|reflexivity].
      exfalso. apply Hfresh.
      unfold is_doctor_of in Ht, Ht'.
      apply andb_true_iff in Ht as [Hk _]. apply andb_true_iff in Ht' as [Hk' _].
      apply Z.eqb_eq in Hk, Hk'. rewrite Hk, <- Hk'.
      apply (in_map (fun d => doctor_key (doctor_row d))). assumption. }
    rewrite map_all_fixed
      by (intros d' Hin; rewrite (Hrest d' Hin); reflexivity).
    cbn [username option_list app]. constructor; [|assumption].
    intros Hin. apply in_usernames in Hin as (d' & Hin & Hn).
    apply has_username_true in Hn.
    specialize (Hrest d' Hin). rewrite (Honly' d' Hin Hn) in Hrest. discriminate.
  - specialize (IH Hkeys' Hnames' Honly').
    destruct (username d) as [m|] eqn:Hm; cbn [option_list app]; [|exact IH].
    constructor; [|exact IH].
    intros Hin. apply in_usernames in Hin as (d' & Hin & Hn).
    apply in_map_iff in Hin as (d0 & Hd0 & Hin0).
    destruct (is_doctor_of doctor_id' hospital d0) eqn:Ht0.
    + subst d'. cbn [username] in Hn. injection Hn as <-.
      assert (Hd : has_username n d = true) by (apply has_username_true; assumption).
      rewrite (Honly d (or_introl eq_refl) Hd) in Ht. discriminate.
    + subst d'. cbn [option_list app] in Hnames.
      inversion Hnames as [|? ? Hnot _]; subst. apply Hnot.
      apply in_usernames. eauto.
Qed.

(** X21: [set_doctor_credentials] keeps the usernames of all doctors
    pairwise distinct, in every outcome, given that doctor ids are distinct
    (they are a primary key). *)
Theorem credentials_keep_usernames_unique
  (generate_password_hash : string -> string -> string) (salt : string)
  (acc : accounts) (s : session) (req : request) (doctor_id' : Z) :
  NoDup (map (fun d => doctor_key (doctor_row d)) (doctor_accounts acc)) ->
  usernames_unique acc ->
  usernames_unique
    (accounts_after
       (set_doctor_credentials generate_password_hash salt acc s req doctor_id')).
Proof.
  intros Hkeys Huniq. unfold set_doctor_credentials.
  destruct (logged_in_as "admin" s) as [u|]; [|exact Huniq].
  destruct (existsb (is_doctor_of doctor_id' (session_hospital_id u))
              (doctor_accounts acc)) eqn:Hdoc; cbn [negb]; [|exact Huniq].
  repeat match goal with
         | |- usernames_unique (accounts_after (if ?c then _ else _)) =>
             destruct c; [try exact Huniq | try exact Huniq]
         end.
  unfold update_credentials. rewrite Hdoc, andb_true_r.
  destruct (existsb
              (fun d => has_username (strip (form_get (form req) "username")) d
                        && negb (is_doctor_of doctor_id' (session_hospital_id u) d))
              (doctor_accounts acc)) eqn:Hclash; [exact Huniq|].
  cbn [accounts_after]. unfold usernames_unique. cbn [doctor_accounts].
  apply updated_usernames_unique; [assumption | exact Huniq |].
  intros d Hin Hn.
  destruct (is_doctor_of doctor_id' (session_hospital_id u) d) eqn:Ht;
    [reflexivity|].
  assert (Hex : existsb
                  (fun d => has_username (strip (form_get (form req) "username")) d
                            && negb (is_doctor_of doctor_id'
                                       (session_hospital_id u) d))
                  (doctor_accounts acc) = true).
  { apply existsb_exists. exists d. split; [assumption|].
    rewrite Hn, Ht. reflexivity. }
  congruence.
Qed.

Lemma two_hospitals_usernames_unique :
  NoDup (map (fun d => doctor_key (doctor_row d)) (doctor_accounts two_hospitals))
  /\ usernames_unique two_hospitals.
Proof.
  unfold usernames_unique, two_hospitals; cbn. split.
  - constructor; [intros [H|[]]; discriminate|].
    constructor; [intros []|constructor].
  - constructor; [intros []|constructor].
Qed.

Lemma credentials_keep_usernames_unique_witness :
  usernames_unique
    (accounts_after
       (set_doctor_credentials plain_hash "salt" two_hospitals admin1
          (credentials_request "drjones" "eight-chars") 7)).
Proof.
  exact (credentials_keep_usernames_unique plain_hash "salt" two_hospitals
           admin1 (credentials_request "drjones" "eight-chars") 7
           (proj1 two_hospitals_usernames_unique)
           (proj2 two_hospitals_usernames_unique)).
Defined.

(** * The prescription store *)

Lemma find_updated_prescription (appointment_id : Z)
  (diagnosis' medicines' instructions' : string) (l : list prescription)
  (r0 : prescription) :
  find (fun r => appointment_id_ r =? appointment_id) l = Some r0 ->
  find (fun r => appointment_id_ r =? appointment_id)
    (map (fun r => if appointment_id_ r =? appointment_id
                   then {| prescription_id := prescription_id r;
                           appointment_id_ := appointment_id_ r;
                           diagnosis := diagnosis';
                           medicines := medicines';
                           instructions := instructions';
                           prescription_hospital_id :=
                             prescription_hospital_id r |}
                   else r) l)
  = Some {| prescription_id := prescription_id r0;
            appointment_id_ := appointment_id_ r0;
            diagnosis := diagnosis';
            medicines := medicines';
            instructions := instructions';
            prescription_hospital_id := prescription_hospital_id r0 |}.
Proof.
  induction l as [|r l IH]; [discriminate|].
  cbn [find map]. destruct (appointment_id_ r =? appointment_id) eqn:Hr.
  - intros H. injection H as <-. cbn [find appointment_id_]. rewrite Hr.
    reflexivity.
  - intros H. cbn [find]. rewrite Hr. apply IH. assumption.
Qed.

(** The row found after a save that did not raise. *)
Lemma saved_prescription_found (db : database) (store store' : prescription_store)
  (appointment_id : Z) (diagnosis' medicines' instructions' : string)
  (hospital : Z) :
  save_prescription db store appointment_id diagnosis' medicines' instructions'
    hospital = Return store' ->
  exists r,
    prescription_of store' appointment_id = Some r
    /\ appointment_id_ r = appointment_id
    /\ diagnosis r = diagnosis' /\ medicines r = medicines'
    /\ instructions r = instructions'.
Proof.
  unfold save_prescription, prescription_of.
  destruct (find _ (prescriptions_ store)) as [r0|] eqn:Hfind.
  - intros H. injection H as <-. cbn [prescriptions_].
    rewrite (find_updated_prescription _ diagnosis' medicines' instructions'
               _ r0 Hfind).
    eexists. split; [reflexivity|]. cbn.
    apply find_some in Hfind as [_ Hid]. apply Z.eqb_eq in Hid. auto.
  - destruct (mem hospital (staff db) && _)%bool; [|discriminate].
    intros H. injection H as <-. cbn [prescriptions_].
    rewrite find_app_none.
    + cbn [find appointment_id_]. rewrite Z.eqb_refl.
      eexists. split; [reflexivity|]. cbn. auto.
    + destruct (existsb _ (prescriptions_ store)) eqn:E; [|reflexivity].
      apply existsb_exists in E as (r & Hin & Hr).
      pose proof (find_none _ _ Hfind r Hin) as Hn. cbn beta in Hn. congruence.
Qed.

(** X22: a saved prescription is what the page shows.  For a doctor session
    of the appointment's tenant - of any doctor of that hospital, the
    handler does not compare the session's doctor with the appointment's -
    a POST whose kept medicine values hold no ['|'] or line break saves,
    and the page then shows for that appointment the stripped diagnosis and
    instructions and exactly the kept medicines, whether a prescription
    existed before or not. *)
Theorem prescription_saved_then_shown
  (db : database) (store : prescription_store) (s : session) (u : user_session)
  (req view : request) (medicine_count medicine_count' appointment_id : Z)
  (a : appointment) :
  logged_in_as "doctor" s = Some u ->
  appointment_of_tenant db appointment_id (session_hospital_id u) = Some a ->
  mem (session_hospital_id u) (staff db) = true ->
  method req = "POST" ->
  method view = "GET" ->
  Forall (fun m => field_free newline m = true /\ field_free pipe m = true)
    (collect_medicines (form req) medicine_count) ->
  let out := prescriptions db store s req medicine_count appointment_id in
  prescription_flashed out = [("Prescription saved successfully!", "success")]
  /\ exists r,
       shown (prescriptions db (store_after out) s view medicine_count'
                appointment_id)
       = Some (r, collect_medicines (form req) medicine_count)
       /\ appointment_id_ r = appointment_id
       /\ diagnosis r = strip (form_get (form req) "diagnosis")
       /\ instructions r = strip (form_get (form req) "instructions").
Proof.
  intros Hdoc Happ Hstaff Hpost Hget Hclean out.
  assert (Hsave : exists store',
             save_prescription db store appointment_id
               (strip (form_get (form req) "diagnosis"))
               (medicines_str (form req) medicine_count)
               (strip (form_get (form req) "instructions"))
               (session_hospital_id u) = Return store').
  { unfold save_prescription.
    destruct (prescription_of store appointment_id); [eauto|].
    assert (Hex : existsb (fun a0 => id a0 =? appointment_id) (appointments db)
                  = true).
    { unfold appointment_of_tenant in Happ.
      apply find_some in Happ as [Hin Ha].
      apply andb_true_iff in Ha as [Ha _]. apply andb_true_iff in Ha as [Ha _].
      apply andb_true_iff in Ha as [Ha _].
      apply existsb_exists. eauto. }
    rewrite Hstaff, Hex. cbn [andb]. eauto. }
  destruct Hsave as [store' Hsave].
  assert (Hout : store_after out = store'
                 /\ prescription_flashed out
                    = [("Prescription saved successfully!", "success")]).
  { unfold out, prescriptions. rewrite Hdoc, Happ, Hpost.
    cbn [String.eqb Ascii.eqb Bool.eqb]. rewrite Hsave. split; reflexivity. }
  destruct Hout as [Hstore Hflash]. split; [exact Hflash|].
  destruct (saved_prescription_found _ _ _ _ _ _ _ _ Hsave)
    as (r & Hfind & Hid & Hdiag & Hmed & Hins).
  exists r. split; [|auto].
  rewrite Hstore. unfold prescriptions. rewrite Hdoc, Happ, Hget.
  cbn [String.eqb Ascii.eqb Bool.eqb shown]. rewrite Hfind, Hmed.
  unfold medicines_str. rewrite parse_stored_medicines.
  - rewrite filter_all; [reflexivity|].
    intros m Hin. rewrite Forall_forall in Hclean. apply (Hclean m Hin).
  - eapply Forall_impl; [|exact Hclean]. cbn beta. tauto.
Qed.

Lemma prescription_saved_then_shown_witness :
  exists r,
    shown (prescriptions booked_once
             (store_after (prescriptions booked_once no_prescriptions colleague
                             prescription_request 1 1))
             colleague view_request 0 1)
    = Some (r, collect_medicines (form prescription_request) 1)
    /\ appointment_id_ r = 1
    /\ diagnosis r = "Sinusitis"
    /\ instructions r = "Rest".
Proof.
  refine (proj2 (prescription_saved_then_shown booked_once no_prescriptions
                   colleague
                   {| user_id := 2; user_type := "doctor";
                      session_hospital_id := 1 |}
                   prescription_request view_request 1 0 1
                   {| id := 1; patient_id := 1; doctor_id := 1;
                      date_ := "2024-01-05"; time_slot := "09:00";
                      status := "Scheduled"; notes := ""; hospital_id := 1 |}
                   _ _ _ _ _ _));
    try reflexivity.
  repeat constructor.
Defined.

(** X23: [prescriptions] keeps one prescription per appointment at most, in
    every outcome; saving for an appointment that already has a
    prescription rewrites that row and adds none. *)
Theorem one_prescription_per_appointment
  (db : database) (store : prescription_store) (s : session) (req : request)
  (medicine_count appointment_id : Z) :
  prescriptions_unique store ->
  let out := prescriptions db store s req medicine_count appointment_id in
  prescriptions_unique (store_after out)
  /\ (prescription_of store appointment_id <> None ->
      List.length (prescriptions_ (store_after out))
      = List.length (prescriptions_ store)).
Proof.
  intros Huniq out. unfold out, prescriptions.
  destruct (logged_in_as "doctor" s) as [u|]; [|split; [exact Huniq|reflexivity]].
  destruct (appointment_of_tenant _ _ _);
    [|split; [exact Huniq|reflexivity]].
  destruct (String.eqb (method req) "POST");
    [|split; [exact Huniq|reflexivity]].
  unfold save_prescription.
  destruct (prescription_of store appointment_id) as [r0|] eqn:Hfind.
  - cbn [store_after prescriptions_]. split.
    + unfold prescriptions_unique. cbn [prescriptions_].
      rewrite map_map. erewrite map_ext; [exact Huniq|].
      intros r. destruct (appointment_id_ r =? appointment_id); reflexivity.
    + intros _. apply length_map.
  - destruct (mem _ (staff db) && _)%bool; cbn [store_after];
      [|split; [exact Huniq|reflexivity]].
    split; [|intros H; contradiction].
    unfold prescriptions_unique. cbn [prescriptions_].
    rewrite map_app. cbn [map appointment_id_].
    apply NoDup_snoc; [exact Huniq|].
    intros Hin. apply in_map_iff in Hin as (r & Hr & Hin).
    unfold prescription_of in Hfind.
    pose proof (find_none _ _ Hfind r Hin) as Hn. cbn beta in Hn.
    apply Z.eqb_neq in Hn. contradiction.
Qed.

Lemma one_prescription_per_appointment_witness :
  prescriptions_unique
    (store_after
       (prescriptions booked_once
          (store_after (prescriptions booked_once no_prescriptions colleague
                          prescription_request 1 1))
          colleague prescription_request 2 1)).
Proof.
  refine (proj1 (one_prescription_per_appointment booked_once
                   (store_after (prescriptions booked_once no_prescriptions
                                   colleague prescription_request 1 1))
                   colleague prescription_request 2 1 _)).
  refine (proj1 (one_prescription_per_appointment booked_once no_prescriptions
                   colleague prescription_request 1 1 _)).
  constructor.
Defined.
